(** * PianoLED: the MIDI serial-protocol engine ([src/MIDI/MIDI.hpp])

    A shallow embedding of the receive side of [MidiInterface]: the byte
    parser [parse], the channel filter [inputFilter], the dispatcher
    [launchCallback], the soft-thru filter [thruFilter] and the polling
    entry point [read].

    The C++ object is an explicit [State] record threaded through a small
    state-and-trace monad.  A computation fails ([None]) exactly where the
    C++ would index an array outside its bounds.  Calls that leave the
    interface (user handlers, the transport, the send functions) and
    each message handed to the dispatcher are recorded, in order, in a
    trace of [Event]s. *)

From Stdlib Require Import ZArith Lia Bool List.
From stdpp Require Import base option list.
From stdpp Require Import strings.

Local Open Scope Z_scope.

(** ** Machine integers *)

(** [unsigned] and [unsigned long] are 32 bits wide on the ESP8266 the
    sketch is built for. *)
Definition UINT_MOD : Z := 2 ^ 32.

Definition uwrap (z : Z) : Z := z mod UINT_MOD.
Definition uadd (a b : Z) : Z := uwrap (a + b).
Definition usub (a b : Z) : Z := uwrap (a - b).

(** The conversion to [byte] keeps the low eight bits. *)
Definition to_byte (z : Z) : Z := z mod 256.

(** The conversion to [int8_t] ([mLastError]) keeps the low eight bits,
    read in two's complement. *)
Definition to_int8 (z : Z) : Z := (z + 128) mod 256 - 128.

(** ** Constants of [midi_Defs.h] *)

(** Modelled from the spec: the [MidiType] enumeration is declared in
    [midi_Defs.h], which is not under src/.  Its members are the status
    bytes of the wire-format table (spec, section 6); [Tick] is the one
    real-time code the table leaves out, 0xF9.  [MidiType] values are
    kept as integers because the source converts bytes to [MidiType]
    ([MidiType(inStatus & 0xf0)], [(MidiType)extracted]) and compares
    them with [>=] and [<=]. *)
Definition InvalidType : Z := 0x00.
Definition NoteOff : Z := 0x80.
Definition NoteOn : Z := 0x90.
Definition AfterTouchPoly : Z := 0xA0.
Definition ControlChange : Z := 0xB0.
Definition ProgramChange : Z := 0xC0.
Definition AfterTouchChannel : Z := 0xD0.
Definition PitchBend : Z := 0xE0.
Definition SystemExclusive : Z := 0xF0.
Definition SystemExclusiveStart : Z := SystemExclusive.
Definition TimeCodeQuarterFrame : Z := 0xF1.
Definition SongPosition : Z := 0xF2.
Definition SongSelect : Z := 0xF3.
Definition Undefined_F4 : Z := 0xF4.
Definition Undefined_F5 : Z := 0xF5.
Definition TuneRequest : Z := 0xF6.
Definition SystemExclusiveEnd : Z := 0xF7.
Definition Clock : Z := 0xF8.
Definition Tick : Z := 0xF9.
Definition Start : Z := 0xFA.
Definition Continue : Z := 0xFB.
Definition Stop : Z := 0xFC.
Definition Undefined_FD : Z := 0xFD.
Definition ActiveSensing : Z := 0xFE.
Definition SystemReset : Z := 0xFF.

(** The remaining constants of [midi_Defs.h] have no value in the spec
    and are taken as parameters.  Channels are bytes; [ErrorParse] and
    [ErrorActiveSensingTimeout] are bit indices into [mLastError]. *)
Class Defs := {
  MIDI_CHANNEL_OMNI : Z;
  MIDI_CHANNEL_OFF : Z;
  MIDI_PITCHBEND_MIN : Z;
  ErrorParse : Z;
  ErrorActiveSensingTimeout : Z;
  ActiveSensingTimeout : Z
}.

(** The [Settings] template parameter.  The sketch derives its
    [MidiSettings] from [midi::DefaultSettings], which is not under src/,
    so every member the code reads is a field here. *)
Class Settings := {
  Use1ByteParsing : bool;
  SysExMaxSize : Z;
  HandleNullVelocityNoteOnAsNoteOff : bool;
  UseSenderActiveSensing : bool;
  UseReceiverActiveSensing : bool
}.

(** The [Platform] template parameter: a clock. *)
Class Platform := { now : Z }.

(** [DefaultPlatform] of [MIDI.h]. *)
Definition DefaultPlatform : Platform := {| now := 0 |}.

(** [SerialMIDI::thruActivated] of [MIDI.h]. *)
Definition thruActivated : bool := true.

(** ** Data model *)

(** [Thru::Mode]. *)
Module Thru.
Inductive Mode := Off | Full | SameChannel | DifferentChannel.
End Thru.

(** Modelled from the spec: the [Message] structure ([midi_Message.h] is
    not under src/), with the fields the code assigns.  [sysexArray] has
    [Settings::SysExMaxSize] cells; [len] is the member the source calls
    [length]. *)
Record Message := mkMessage {
  channel : Z;
  type : Z;
  data1 : Z;
  data2 : Z;
  sysexArray : list Z;
  valid : bool;
  len : Z
}.

(** Modelled from the spec: [Message::getSysExSize] ([midi_Message.h] is
    not under src/).  The length is coded with [data1] as LSB and [data2]
    as MSB (documentation of [getSysExArrayLength]) and never exceeds the
    capacity of the buffer (spec, section 3). *)
Definition getSysExSize `{Settings} (m : Message) : Z :=
  let size := Z.lor (Z.shiftl (data2 m) 8) (data1 m) in
  if SysExMaxSize <? size then SysExMaxSize else size.

(** The handler slots: [true] when a function is attached, [false] for
    [nullptr].  [mMessageCallback] has no slot: [MIDI.h] initialises it
    to [nullptr] and nothing assigns it. *)
Record Callbacks := mkCallbacks {
  mErrorCallback : bool;
  mNoteOffCallback : bool;
  mNoteOnCallback : bool;
  mAfterTouchPolyCallback : bool;
  mControlChangeCallback : bool;
  mProgramChangeCallback : bool;
  mAfterTouchChannelCallback : bool;
  mPitchBendCallback : bool;
  mSystemExclusiveCallback : bool;
  mTimeCodeQuarterFrameCallback : bool;
  mSongPositionCallback : bool;
  mSongSelectCallback : bool;
  mTuneRequestCallback : bool;
  mClockCallback : bool;
  mStartCallback : bool;
  mTickCallback : bool;
  mContinueCallback : bool;
  mStopCallback : bool;
  mActiveSensingCallback : bool;
  mSystemResetCallback : bool
}.

(** The member variables of [MidiInterface]. *)
Record State := mkState {
  mInputChannel : Z;
  mRunningStatus_RX : Z;
  mRunningStatus_TX : Z;
  mPendingMessage : list Z;
  mPendingMessageExpectedLength : Z;
  mPendingMessageIndex : Z;
  mCurrentRpnNumber : Z;
  mCurrentNrpnNumber : Z;
  mThruActivated : bool;
  mThruFilterMode : Thru.Mode;
  mMessage : Message;
  mLastMessageSentTime : Z;
  mLastMessageReceivedTime : Z;
  mSenderActiveSensingPeriodicity : Z;
  mReceiverActiveSensingActivated : bool;
  mLastError : Z;
  callbacks : Callbacks
}.

(** The trace, in the order of the calls: what leaves the interface,
    and [LaunchCallback m] for each call of [launchCallback], [m] being
    the stored message the dispatcher is handed. *)
Inductive Event :=
| TransportBegin
| TransportAvailable
| TransportRead (b : Z)
| ErrorCallback (err : Z)
| LaunchCallback (m : Message)
| NoteOffCallback (ch d1 d2 : Z)
| NoteOnCallback (ch d1 d2 : Z)
| ClockCallback
| StartCallback
| TickCallback
| ContinueCallback
| StopCallback
| ActiveSensingCallback
| ControlChangeCallback (ch d1 d2 : Z)
| PitchBendCallback (ch v : Z)
| AfterTouchPolyCallback (ch d1 d2 : Z)
| AfterTouchChannelCallback (ch d1 : Z)
| ProgramChangeCallback (ch d1 : Z)
| SystemExclusiveCallback (array : list Z) (size : Z)
| TimeCodeQuarterFrameCallback (d1 : Z)
| SongPositionCallback (v : Z)
| SongSelectCallback (d1 : Z)
| TuneRequestCallback
| SystemResetCallback
| Send (ty d1 d2 ch : Z)
| SendRealTime (ty : Z)
| SendSysEx (size : Z) (array : list Z) (framed : bool)
| SendSongSelect (d1 : Z)
| SendSongPosition (v : Z)
| SendTimeCodeQuarterFrame (d1 d2 : Z)
| SendActiveSensing.

(** ** Field updates *)

Definition set_channel (v : Z) (m : Message) : Message :=
  mkMessage v (type m) (data1 m) (data2 m) (sysexArray m) (valid m) (len m).
Definition set_type (v : Z) (m : Message) : Message :=
  mkMessage (channel m) v (data1 m) (data2 m) (sysexArray m) (valid m) (len m).
Definition set_data1 (v : Z) (m : Message) : Message :=
  mkMessage (channel m) (type m) v (data2 m) (sysexArray m) (valid m) (len m).
Definition set_data2 (v : Z) (m : Message) : Message :=
  mkMessage (channel m) (type m) (data1 m) v (sysexArray m) (valid m) (len m).
Definition set_sysexArray (v : list Z) (m : Message) : Message :=
  mkMessage (channel m) (type m) (data1 m) (data2 m) v (valid m) (len m).
Definition set_valid (v : bool) (m : Message) : Message :=
  mkMessage (channel m) (type m) (data1 m) (data2 m) (sysexArray m) v (len m).
Definition set_len (v : Z) (m : Message) : Message :=
  mkMessage (channel m) (type m) (data1 m) (data2 m) (sysexArray m) (valid m) v.

Definition set_mInputChannel (v : Z) (s : State) : State :=
  mkState v (mRunningStatus_RX s) (mRunningStatus_TX s) (mPendingMessage s)
    (mPendingMessageExpectedLength s) (mPendingMessageIndex s)
    (mCurrentRpnNumber s) (mCurrentNrpnNumber s) (mThruActivated s)
    (mThruFilterMode s) (mMessage s) (mLastMessageSentTime s)
    (mLastMessageReceivedTime s) (mSenderActiveSensingPeriodicity s)
    (mReceiverActiveSensingActivated s) (mLastError s) (callbacks s).
Definition set_mRunningStatus_RX (v : Z) (s : State) : State :=
  mkState (mInputChannel s) v (mRunningStatus_TX s) (mPendingMessage s)
    (mPendingMessageExpectedLength s) (mPendingMessageIndex s)
    (mCurrentRpnNumber s) (mCurrentNrpnNumber s) (mThruActivated s)
    (mThruFilterMode s) (mMessage s) (mLastMessageSentTime s)
    (mLastMessageReceivedTime s) (mSenderActiveSensingPeriodicity s)
    (mReceiverActiveSensingActivated s) (mLastError s) (callbacks s).
Definition set_mRunningStatus_TX (v : Z) (s : State) : State :=
  mkState (mInputChannel s) (mRunningStatus_RX s) v (mPendingMessage s)
    (mPendingMessageExpectedLength s) (mPendingMessageIndex s)
    (mCurrentRpnNumber s) (mCurrentNrpnNumber s) (mThruActivated s)
    (mThruFilterMode s) (mMessage s) (mLastMessageSentTime s)
    (mLastMessageReceivedTime s) (mSenderActiveSensingPeriodicity s)
    (mReceiverActiveSensingActivated s) (mLastError s) (callbacks s).
Definition set_mPendingMessage (v : list Z) (s : State) : State :=
  mkState (mInputChannel s) (mRunningStatus_RX s) (mRunningStatus_TX s) v
    (mPendingMessageExpectedLength s) (mPendingMessageIndex s)
    (mCurrentRpnNumber s) (mCurrentNrpnNumber s) (mThruActivated s)
    (mThruFilterMode s) (mMessage s) (mLastMessageSentTime s)
    (mLastMessageReceivedTime s) (mSenderActiveSensingPeriodicity s)
    (mReceiverActiveSensingActivated s) (mLastError s) (callbacks s).
Definition set_mPendingMessageExpectedLength (v : Z) (s : State) : State :=
  mkState (mInputChannel s) (mRunningStatus_RX s) (mRunningStatus_TX s)
    (mPendingMessage s) v (mPendingMessageIndex s)
    (mCurrentRpnNumber s) (mCurrentNrpnNumber s) (mThruActivated s)
    (mThruFilterMode s) (mMessage s) (mLastMessageSentTime s)
    (mLastMessageReceivedTime s) (mSenderActiveSensingPeriodicity s)
    (mReceiverActiveSensingActivated s) (mLastError s) (callbacks s).
Definition set_mPendingMessageIndex (v : Z) (s : State) : State :=
  mkState (mInputChannel s) (mRunningStatus_RX s) (mRunningStatus_TX s)
    (mPendingMessage s) (mPendingMessageExpectedLength s) v
    (mCurrentRpnNumber s) (mCurrentNrpnNumber s) (mThruActivated s)
    (mThruFilterMode s) (mMessage s) (mLastMessageSentTime s)
    (mLastMessageReceivedTime s) (mSenderActiveSensingPeriodicity s)
    (mReceiverActiveSensingActivated s) (mLastError s) (callbacks s).
Definition set_mCurrentRpnNumber (v : Z) (s : State) : State :=
  mkState (mInputChannel s) (mRunningStatus_RX s) (mRunningStatus_TX s)
    (mPendingMessage s) (mPendingMessageExpectedLength s)
    (mPendingMessageIndex s) v (mCurrentNrpnNumber s) (mThruActivated s)
    (mThruFilterMode s) (mMessage s) (mLastMessageSentTime s)
    (mLastMessageReceivedTime s) (mSenderActiveSensingPeriodicity s)
    (mReceiverActiveSensingActivated s) (mLastError s) (callbacks s).
Definition set_mCurrentNrpnNumber (v : Z) (s : State) : State :=
  mkState (mInputChannel s) (mRunningStatus_RX s) (mRunningStatus_TX s)
    (mPendingMessage s) (mPendingMessageExpectedLength s)
    (mPendingMessageIndex s) (mCurrentRpnNumber s) v (mThruActivated s)
    (mThruFilterMode s) (mMessage s) (mLastMessageSentTime s)
    (mLastMessageReceivedTime s) (mSenderActiveSensingPeriodicity s)
    (mReceiverActiveSensingActivated s) (mLastError s) (callbacks s).
Definition set_mThruActivated (v : bool) (s : State) : State :=
  mkState (mInputChannel s) (mRunningStatus_RX s) (mRunningStatus_TX s)
    (mPendingMessage s) (mPendingMessageExpectedLength s)
    (mPendingMessageIndex s) (mCurrentRpnNumber s) (mCurrentNrpnNumber s) v
    (mThruFilterMode s) (mMessage s) (mLastMessageSentTime s)
    (mLastMessageReceivedTime s) (mSenderActiveSensingPeriodicity s)
    (mReceiverActiveSensingActivated s) (mLastError s) (callbacks s).
Definition set_mThruFilterMode (v : Thru.Mode) (s : State) : State :=
  mkState (mInputChannel s) (mRunningStatus_RX s) (mRunningStatus_TX s)
    (mPendingMessage s) (mPendingMessageExpectedLength s)
    (mPendingMessageIndex s) (mCurrentRpnNumber s) (mCurrentNrpnNumber s)
    (mThruActivated s) v (mMessage s) (mLastMessageSentTime s)
    (mLastMessageReceivedTime s) (mSenderActiveSensingPeriodicity s)
    (mReceiverActiveSensingActivated s) (mLastError s) (callbacks s).
Definition set_mMessage (v : Message) (s : State) : State :=
  mkState (mInputChannel s) (mRunningStatus_RX s) (mRunningStatus_TX s)
    (mPendingMessage s) (mPendingMessageExpectedLength s)
    (mPendingMessageIndex s) (mCurrentRpnNumber s) (mCurrentNrpnNumber s)
    (mThruActivated s) (mThruFilterMode s) v (mLastMessageSentTime s)
    (mLastMessageReceivedTime s) (mSenderActiveSensingPeriodicity s)
    (mReceiverActiveSensingActivated s) (mLastError s) (callbacks s).
Definition set_mLastMessageSentTime (v : Z) (s : State) : State :=
  mkState (mInputChannel s) (mRunningStatus_RX s) (mRunningStatus_TX s)
    (mPendingMessage s) (mPendingMessageExpectedLength s)
    (mPendingMessageIndex s) (mCurrentRpnNumber s) (mCurrentNrpnNumber s)
    (mThruActivated s) (mThruFilterMode s) (mMessage s) v
    (mLastMessageReceivedTime s) (mSenderActiveSensingPeriodicity s)
    (mReceiverActiveSensingActivated s) (mLastError s) (callbacks s).
Definition set_mLastMessageReceivedTime (v : Z) (s : State) : State :=
  mkState (mInputChannel s) (mRunningStatus_RX s) (mRunningStatus_TX s)
    (mPendingMessage s) (mPendingMessageExpectedLength s)
    (mPendingMessageIndex s) (mCurrentRpnNumber s) (mCurrentNrpnNumber s)
    (mThruActivated s) (mThruFilterMode s) (mMessage s)
    (mLastMessageSentTime s) v (mSenderActiveSensingPeriodicity s)
    (mReceiverActiveSensingActivated s) (mLastError s) (callbacks s).
Definition set_mReceiverActiveSensingActivated (v : bool) (s : State) : State :=
  mkState (mInputChannel s) (mRunningStatus_RX s) (mRunningStatus_TX s)
    (mPendingMessage s) (mPendingMessageExpectedLength s)
    (mPendingMessageIndex s) (mCurrentRpnNumber s) (mCurrentNrpnNumber s)
    (mThruActivated s) (mThruFilterMode s) (mMessage s)
    (mLastMessageSentTime s) (mLastMessageReceivedTime s)
    (mSenderActiveSensingPeriodicity s) v (mLastError s) (callbacks s).
Definition set_mLastError (v : Z) (s : State) : State :=
  mkState (mInputChannel s) (mRunningStatus_RX s) (mRunningStatus_TX s)
    (mPendingMessage s) (mPendingMessageExpectedLength s)
    (mPendingMessageIndex s) (mCurrentRpnNumber s) (mCurrentNrpnNumber s)
    (mThruActivated s) (mThruFilterMode s) (mMessage s)
    (mLastMessageSentTime s) (mLastMessageReceivedTime s)
    (mSenderActiveSensingPeriodicity s)
    (mReceiverActiveSensingActivated s) v (callbacks s).

(** ** The monad: state, trace, and failure on an out-of-bounds access *)

Definition M (A : Type) : Type := State -> option (A * State * list Event).

Definition ret {A} (a : A) : M A := fun s => Some (a, s, []).

Definition bind {A B} (m : M A) (k : A -> M B) : M B :=
  fun s =>
    match m s with
    | None => None
    | Some (a, s1, t1) =>
        match k a s1 with
        | None => None
        | Some (b, s2, t2) => Some (b, s2, t1 ++ t2)
        end
    end.

Definition undefined {A} : M A := fun _ => None.
Definition gets {A} (f : State -> A) : M A := fun s => Some (f s, s, []).
Definition modify (f : State -> State) : M unit := fun s => Some (tt, f s, []).
Definition emit (e : Event) : M unit := fun s => Some (tt, s, [e]).
Definition when (b : bool) (m : M unit) : M unit := if b then m else ret tt.

Declare Scope midi_scope.
Delimit Scope midi_scope with midi.
Notation "x <- m ;; k" := (bind m (fun x => k))
  (at level 100, m at next level, right associativity) : midi_scope.
Notation "m ;; k" := (bind m (fun _ => k))
  (at level 100, right associativity) : midi_scope.
Local Open Scope midi_scope.

(** Array cells.  Indices are [unsigned], hence never negative. *)
Definition load (a : list Z) (i : Z) : M Z :=
  match a !! Z.to_nat i with
  | Some v => ret v
  | None => undefined
  end.

Definition store (a : list Z) (i : Z) (v : Z) : M (list Z) :=
  if (Z.to_nat i <? length a)%nat then ret (<[Z.to_nat i := v]> a)
  else undefined.

Definition read_pending (i : Z) : M Z :=
  a <- gets mPendingMessage ;; load a i.
Definition write_pending (i v : Z) : M unit :=
  a <- gets mPendingMessage ;;
  a' <- store a i v ;;
  modify (set_mPendingMessage a').
Definition read_sysex (i : Z) : M Z :=
  a <- gets (fun s => sysexArray (mMessage s)) ;; load a i.
Definition write_sysex (i v : Z) : M unit :=
  a <- gets (fun s => sysexArray (mMessage s)) ;;
  a' <- store a i v ;;
  modify (fun s => set_mMessage (set_sysexArray a' (mMessage s)) s).

Definition put_message (f : Message -> Message) : M unit :=
  modify (fun s => set_mMessage (f (mMessage s)) s).

(** A [switch] whose cases fall through to one body. *)
Definition case_of (x : Z) (labels : list Z) : bool :=
  existsb (Z.eqb x) labels.

Section MidiInterface.

Context `{Defs} `{Settings} `{Platform}.

(** ** Static helpers *)

Definition getTypeFromStatusByte (inStatus : Z) : Z :=
  if (inStatus <? 0x80) || (inStatus =? Undefined_F4)
     || (inStatus =? Undefined_F5) || (inStatus =? Undefined_FD)
  then InvalidType
  else if inStatus <? 0xf0 then Z.land inStatus 0xf0
  else inStatus.

Definition getChannelFromStatusByte (inStatus : Z) : Z :=
  to_byte (Z.land inStatus 0x0f + 1).

Definition isChannelMessage (inType : Z) : bool :=
  (inType =? NoteOff) || (inType =? NoteOn) || (inType =? ControlChange)
  || (inType =? AfterTouchPoly) || (inType =? AfterTouchChannel)
  || (inType =? PitchBend) || (inType =? ProgramChange).

(** ** Parser internals *)

Definition resetInput : M unit :=
  modify (set_mPendingMessageIndex 0) ;;
  modify (set_mPendingMessageExpectedLength 0) ;;
  modify (set_mRunningStatus_RX InvalidType).

(** [mLastError |= 1UL << ErrorParse], then the error handler. *)
Definition signalParseError : M unit :=
  modify (fun s =>
    set_mLastError (to_int8 (Z.lor (mLastError s) (Z.shiftl 1 ErrorParse))) s) ;;
  cb <- gets (fun s => mErrorCallback (callbacks s)) ;;
  e <- gets mLastError ;;
  when cb (emit (ErrorCallback e)).

(** [mLastError &= ~(1UL << ErrorParse)]. *)
Definition clearParseError : M unit :=
  modify (fun s =>
    set_mLastError
      (to_int8 (Z.land (mLastError s) (Z.lnot (Z.shiftl 1 ErrorParse)))) s).

(** The dispatcher: the handler of the stored message's type, when one
    is attached.  The leading test of [mMessageCallback] never fires
    (see [Callbacks]). *)
Definition launchCallback : M unit :=
  m <- gets mMessage ;;
  cb <- gets callbacks ;;
  emit (LaunchCallback m) ;;
  let t := type m in
  if t =? NoteOff then
    when (mNoteOffCallback cb)
      (emit (NoteOffCallback (channel m) (data1 m) (data2 m)))
  else if t =? NoteOn then
    when (mNoteOnCallback cb)
      (emit (NoteOnCallback (channel m) (data1 m) (data2 m)))
  else if t =? Clock then when (mClockCallback cb) (emit ClockCallback)
  else if t =? Start then when (mStartCallback cb) (emit StartCallback)
  else if t =? Tick then when (mTickCallback cb) (emit TickCallback)
  else if t =? Continue then
    when (mContinueCallback cb) (emit ContinueCallback)
  else if t =? Stop then when (mStopCallback cb) (emit StopCallback)
  else if t =? ActiveSensing then
    when (mActiveSensingCallback cb) (emit ActiveSensingCallback)
  else if t =? ControlChange then
    when (mControlChangeCallback cb)
      (emit (ControlChangeCallback (channel m) (data1 m) (data2 m)))
  else if t =? PitchBend then
    when (mPitchBendCallback cb)
      (emit (PitchBendCallback (channel m)
         (Z.lor (Z.land (data1 m) 0x7f) (Z.shiftl (Z.land (data2 m) 0x7f) 7)
          + MIDI_PITCHBEND_MIN)))
  else if t =? AfterTouchPoly then
    when (mAfterTouchPolyCallback cb)
      (emit (AfterTouchPolyCallback (channel m) (data1 m) (data2 m)))
  else if t =? AfterTouchChannel then
    when (mAfterTouchChannelCallback cb)
      (emit (AfterTouchChannelCallback (channel m) (data1 m)))
  else if t =? ProgramChange then
    when (mProgramChangeCallback cb)
      (emit (ProgramChangeCallback (channel m) (data1 m)))
  else if t =? SystemExclusive then
    when (mSystemExclusiveCallback cb)
      (emit (SystemExclusiveCallback (sysexArray m) (getSysExSize m)))
  else if t =? TimeCodeQuarterFrame then
    when (mTimeCodeQuarterFrameCallback cb)
      (emit (TimeCodeQuarterFrameCallback (data1 m)))
  else if t =? SongPosition then
    when (mSongPositionCallback cb)
      (emit (SongPositionCallback
         (Z.lor (Z.land (data1 m) 0x7f) (Z.shiftl (Z.land (data2 m) 0x7f) 7))))
  else if t =? SongSelect then
    when (mSongSelectCallback cb) (emit (SongSelectCallback (data1 m)))
  else if t =? TuneRequest then
    when (mTuneRequestCallback cb) (emit TuneRequestCallback)
  else if t =? SystemReset then
    when (mSystemResetCallback cb) (emit SystemResetCallback)
  else ret tt.

(** How one activation of [parse] ends once its byte is handled:
    [Return b] is [return b], and [Recurse] is
    [return (Settings::Use1ByteParsing) ? false : parse()]. *)
Inductive Outcome := Return (b : bool) | Recurse.

(** [parse], branch [mPendingMessageIndex == 0], after the [switch]. *)
Definition parse_start_check (pendingType : Z) : M Outcome :=
  idx <- gets mPendingMessageIndex ;;
  expected <- gets mPendingMessageExpectedLength ;;
  if idx >=? usub expected 1 then
    p0 <- read_pending 0 ;;
    p1 <- read_pending 1 ;;
    put_message (set_type pendingType) ;;
    put_message (set_channel (getChannelFromStatusByte p0)) ;;
    put_message (set_data1 p1) ;;
    put_message (set_data2 0) ;;
    put_message (set_len 1) ;;
    modify (set_mPendingMessageIndex 0) ;;
    modify (set_mPendingMessageExpectedLength 0) ;;
    put_message (set_valid true) ;;
    ret (Return true)
  else
    modify (set_mPendingMessageIndex (uadd idx 1)) ;;
    ret Recurse.

(** [parse], branch [mPendingMessageIndex == 0]: a new message starts. *)
Definition parse_start (extracted : Z) : M Outcome :=
  write_pending 0 extracted ;;
  rs <- gets mRunningStatus_RX ;;
  when (isChannelMessage (getTypeFromStatusByte rs) && (extracted <? 0x80))
    (write_pending 0 rs ;;
     write_pending 1 extracted ;;
     modify (set_mPendingMessageIndex 1)) ;;
  p0 <- read_pending 0 ;;
  let pendingType := getTypeFromStatusByte p0 in
  if case_of pendingType
       [Start; Continue; Stop; Clock; Tick; ActiveSensing; SystemReset;
        TuneRequest]
  then
    put_message (set_type pendingType) ;;
    put_message (set_channel 0) ;;
    put_message (set_data1 0) ;;
    put_message (set_data2 0) ;;
    put_message (set_valid true) ;;
    modify (set_mPendingMessageIndex 0) ;;
    modify (set_mPendingMessageExpectedLength 0) ;;
    ret (Return true)
  else if case_of pendingType
       [ProgramChange; AfterTouchChannel; TimeCodeQuarterFrame; SongSelect]
  then
    modify (set_mPendingMessageExpectedLength 2) ;;
    parse_start_check pendingType
  else if case_of pendingType
       [NoteOn; NoteOff; ControlChange; PitchBend; AfterTouchPoly;
        SongPosition]
  then
    modify (set_mPendingMessageExpectedLength 3) ;;
    parse_start_check pendingType
  else if case_of pendingType [SystemExclusiveStart; SystemExclusiveEnd]
  then
    modify (set_mPendingMessageExpectedLength SysExMaxSize) ;;
    modify (set_mRunningStatus_RX InvalidType) ;;
    write_sysex 0 pendingType ;;
    parse_start_check pendingType
  else
    signalParseError ;;
    resetInput ;;
    ret (Return false).

(** [parse], branch [mPendingMessageIndex != 0], from
    "Add extracted data byte to pending message" on. *)
Definition parse_data (extracted : Z) : M Outcome :=
  p0 <- read_pending 0 ;;
  let sysex := (p0 =? SystemExclusiveStart) || (p0 =? SystemExclusiveEnd) in
  idx <- gets mPendingMessageIndex ;;
  (if sysex then write_sysex idx extracted
   else write_pending idx extracted) ;;
  expected <- gets mPendingMessageExpectedLength ;;
  if idx >=? usub expected 1 then
    if sysex then
      lastByte <- read_sysex (usub SysExMaxSize 1) ;;
      write_sysex (usub SysExMaxSize 1) SystemExclusiveStart ;;
      put_message (set_type SystemExclusive) ;;
      put_message (set_data1 (Z.land SysExMaxSize 0xff)) ;;
      put_message (set_data2 (to_byte (Z.shiftr SysExMaxSize 8))) ;;
      put_message (set_channel 0) ;;
      put_message (set_len SysExMaxSize) ;;
      put_message (set_valid true) ;;
      launchCallback ;;
      write_sysex 0 SystemExclusiveEnd ;;
      write_sysex 1 lastByte ;;
      modify (set_mPendingMessageIndex 2) ;;
      ret (Return false)
    else
      let ty := getTypeFromStatusByte p0 in
      put_message (set_type ty) ;;
      put_message
        (set_channel
           (if isChannelMessage ty then getChannelFromStatusByte p0 else 0)) ;;
      p1 <- read_pending 1 ;;
      put_message (set_data1 p1) ;;
      d2 <- (if expected =? 3 then read_pending 2 else ret 0) ;;
      put_message (set_data2 d2) ;;
      modify (set_mPendingMessageIndex 0) ;;
      modify (set_mPendingMessageExpectedLength 0) ;;
      put_message (set_valid true) ;;
      modify (set_mRunningStatus_RX
        (if case_of ty
              [NoteOff; NoteOn; AfterTouchPoly; ControlChange; ProgramChange;
               AfterTouchChannel; PitchBend]
         then p0 else InvalidType)) ;;
      ret (Return true)
  else
    modify (set_mPendingMessageIndex (uadd idx 1)) ;;
    ret Recurse.

(** [parse], branch [mPendingMessageIndex != 0]: a message is pending. *)
Definition parse_continue (extracted : Z) : M Outcome :=
  if (extracted >=? 0x80)
     && case_of extracted
          [Clock; Start; Tick; Continue; Stop; ActiveSensing; SystemReset]
  then
    put_message (set_type extracted) ;;
    put_message (set_data1 0) ;;
    put_message (set_data2 0) ;;
    put_message (set_channel 0) ;;
    put_message (set_len 1) ;;
    put_message (set_valid true) ;;
    ret (Return true)
  else if (extracted >=? 0x80)
     && case_of extracted [SystemExclusiveStart; SystemExclusiveEnd]
  then
    a0 <- read_sysex 0 ;;
    if (a0 =? SystemExclusiveStart) || (a0 =? SystemExclusiveEnd) then
      idx <- gets mPendingMessageIndex ;;
      write_sysex idx extracted ;;
      modify (set_mPendingMessageIndex (uadd idx 1)) ;;
      put_message (set_type SystemExclusive) ;;
      put_message (set_data1 (Z.land (uadd idx 1) 0xff)) ;;
      put_message (set_data2 (to_byte (Z.shiftr (uadd idx 1) 8))) ;;
      put_message (set_channel 0) ;;
      put_message (set_len (uadd idx 1)) ;;
      put_message (set_valid true) ;;
      resetInput ;;
      ret (Return true)
    else
      signalParseError ;;
      resetInput ;;
      ret (Return false)
  else parse_data extracted.

(** The body of [parse] once [extracted] has been read. *)
Definition parse_byte (extracted : Z) : M Outcome :=
  if extracted =? Undefined_FD then ret Recurse
  else
    idx <- gets mPendingMessageIndex ;;
    if idx =? 0 then parse_start extracted else parse_continue extracted.

(** [parse].  The transport's receive queue is the list [rx]; what is
    left of it is returned with the result.  The recursive call of the
    source consumes one byte more, so the recursion is on [rx]. *)
Fixpoint parse (rx : list Z) : M (bool * list Z) :=
  match rx with
  | [] => emit TransportAvailable ;; ret (false, [])
  | extracted :: rx' =>
      emit TransportAvailable ;;
      clearParseError ;;
      emit (TransportRead extracted) ;;
      o <- parse_byte extracted ;;
      match o with
      | Return b => ret (b, rx')
      | Recurse => if Use1ByteParsing then ret (false, rx') else parse rx'
      end
  end.

(** ** Filtering and dispatch *)

Definition handleNullVelocityNoteOnAsNoteOff : M unit :=
  m <- gets mMessage ;;
  when (HandleNullVelocityNoteOnAsNoteOff
        && (type m =? NoteOn) && (data2 m =? 0))
    (put_message (set_type NoteOff)).

Definition inputFilter (inChannel : Z) : M bool :=
  m <- gets mMessage ;;
  if (type m >=? NoteOff) && (type m <=? PitchBend) then
    if (channel m =? inChannel) || (inChannel =? MIDI_CHANNEL_OMNI)
    then ret true
    else ret false
  else ret true.

(** [thruFilter].  The send functions are not under src/: each call is
    recorded with its arguments. *)
Definition thruFilter (inChannel : Z) : M unit :=
  activated <- gets mThruActivated ;;
  mode <- gets mThruFilterMode ;;
  m <- gets mMessage ;;
  if negb activated
     || match mode with Thru.Off => true | _ => false end
  then ret tt
  else if (type m >=? NoteOff) && (type m <=? PitchBend) then
    let filter_condition :=
      (channel m =? inChannel) || (inChannel =? MIDI_CHANNEL_OMNI) in
    match mode with
    | Thru.Full => emit (Send (type m) (data1 m) (data2 m) (channel m))
    | Thru.SameChannel =>
        when filter_condition
          (emit (Send (type m) (data1 m) (data2 m) (channel m)))
    | Thru.DifferentChannel =>
        when (negb filter_condition)
          (emit (Send (type m) (data1 m) (data2 m) (channel m)))
    | Thru.Off => ret tt
    end
  else if case_of (type m)
       [Clock; Start; Stop; Continue; ActiveSensing; SystemReset; TuneRequest]
  then emit (SendRealTime (type m))
  else if type m =? SystemExclusive then
    emit (SendSysEx (getSysExSize m) (sysexArray m) true)
  else if type m =? SongSelect then emit (SendSongSelect (data1 m))
  else if type m =? SongPosition then
    emit (SendSongPosition
            (Z.lor (data1 m) (uwrap (Z.shiftl (data2 m) 7))))
  else if type m =? TimeCodeQuarterFrame then
    emit (SendTimeCodeQuarterFrame (data1 m) (data2 m))
  else ret tt.

(** ** Entry points *)

(** [begin]. *)
Definition begin (inChannel : Z) : M unit :=
  emit TransportBegin ;;
  modify (set_mInputChannel inChannel) ;;
  modify (set_mRunningStatus_TX InvalidType) ;;
  modify (set_mRunningStatus_RX InvalidType) ;;
  modify (set_mPendingMessageIndex 0) ;;
  modify (set_mPendingMessageExpectedLength 0) ;;
  modify (set_mCurrentRpnNumber 0xffff) ;;
  modify (set_mCurrentNrpnNumber 0xffff) ;;
  modify (set_mLastMessageSentTime now) ;;
  put_message (set_valid false) ;;
  put_message (set_type InvalidType) ;;
  put_message (set_channel 0) ;;
  put_message (set_data1 0) ;;
  put_message (set_data2 0) ;;
  put_message (set_len 0) ;;
  modify (set_mThruFilterMode Thru.Full) ;;
  modify (set_mThruActivated thruActivated).

(** [read(Channel)], the active-sensing prelude. *)
Definition read_sensing : M unit :=
  period <- gets mSenderActiveSensingPeriodicity ;;
  sent <- gets mLastMessageSentTime ;;
  when (UseSenderActiveSensing && (0 <? period)
        && (period <? usub now sent))
    (emit SendActiveSensing ;;
     modify (set_mLastMessageSentTime now)) ;;
  active <- gets mReceiverActiveSensingActivated ;;
  received <- gets mLastMessageReceivedTime ;;
  when (UseReceiverActiveSensing && active
        && (uadd received ActiveSensingTimeout <? now))
    (modify (set_mReceiverActiveSensingActivated false) ;;
     modify (fun s =>
       set_mLastError
         (to_int8 (Z.lor (mLastError s)
                     (Z.shiftl 1 ErrorActiveSensingTimeout))) s) ;;
     cb <- gets (fun s => mErrorCallback (callbacks s)) ;;
     e <- gets mLastError ;;
     when cb (emit (ErrorCallback e))).

(** [read(Channel)], the bookkeeping after a successful [parse]. *)
Definition read_received : M unit :=
  m <- gets mMessage ;;
  when (UseReceiverActiveSensing && (type m =? ActiveSensing))
    (modify (set_mReceiverActiveSensingActivated true) ;;
     e <- gets mLastError ;;
     when (negb (Z.land e (Z.shiftl 1 (ErrorActiveSensingTimeout - 1)) =? 0))
       (modify (fun s =>
          set_mLastError
            (to_int8 (Z.land (mLastError s)
                        (Z.lnot (Z.shiftl 1 ErrorActiveSensingTimeout)))) s) ;;
        cb <- gets (fun s => mErrorCallback (callbacks s)) ;;
        e' <- gets mLastError ;;
        when cb (emit (ErrorCallback e')))) ;;
  active <- gets mReceiverActiveSensingActivated ;;
  when (UseReceiverActiveSensing && active)
    (modify (set_mLastMessageReceivedTime now)).

(** [read(Channel)]. *)
Definition read (inChannel : Z) (rx : list Z) : M (bool * list Z) :=
  read_sensing ;;
  if inChannel >=? MIDI_CHANNEL_OFF then ret (false, rx)
  else
    r <- parse rx ;;
    if negb (fst r) then ret (false, snd r)
    else
      read_received ;;
      handleNullVelocityNoteOnAsNoteOff ;;
      channelMatch <- inputFilter inChannel ;;
      when channelMatch launchCallback ;;
      thruFilter inChannel ;;
      ret (channelMatch, snd r).

End MidiInterface.

(** ** Drivers *)

Section Drivers.

Context `{Defs} `{Settings} `{Platform}.

(** Calls [parse] until the receive queue is empty and collects the
    message stored by each call that returned [true].  Every call on a
    non-empty queue consumes a byte, so [length rx] calls are enough; the
    queue that is left is returned too. *)
Fixpoint feed_loop (fuel : nat) (rx : list Z) : M (list Message * list Z) :=
  match fuel, rx with
  | O, _ => ret ([], rx)
  | _, [] => ret ([], [])
  | S fuel', _ :: _ =>
      r <- parse rx ;;
      m <- gets mMessage ;;
      k <- feed_loop fuel' (snd r) ;;
      ret (if fst r then m :: fst k else fst k, snd k)
  end.

Definition feed (rx : list Z) : M (list Message * list Z) :=
  feed_loop (length rx) rx.

(** Calls [read(inChannel)] until the receive queue is empty. *)
Fixpoint poll_loop (fuel : nat) (inChannel : Z) (rx : list Z) : M (list Z) :=
  match fuel, rx with
  | O, _ => ret rx
  | _, [] => ret []
  | S fuel', _ :: _ =>
      r <- read inChannel rx ;;
      poll_loop fuel' inChannel (snd r)
  end.

Definition poll (inChannel : Z) (rx : list Z) : M (list Z) :=
  poll_loop (length rx) inChannel rx.

End Drivers.

(** ** Instances used to run the model *)

(** The values the Arduino MIDI Library gives the constants of [Defs]. *)
Definition LibraryDefs : Defs := {|
  MIDI_CHANNEL_OMNI := 0;
  MIDI_CHANNEL_OFF := 17;
  MIDI_PITCHBEND_MIN := -8192;
  ErrorParse := 0;
  ErrorActiveSensingTimeout := 1;
  ActiveSensingTimeout := 300
|}.

(** Settings with a buffer of [size] cells. *)
Definition settings (oneByte : bool) (size : Z) : Settings := {|
  Use1ByteParsing := oneByte;
  SysExMaxSize := size;
  HandleNullVelocityNoteOnAsNoteOff := true;
  UseSenderActiveSensing := false;
  UseReceiverActiveSensing := false
|}.

Definition no_callbacks : Callbacks :=
  mkCallbacks false false false false false false false false false false
    false false false false false false false false false false.

Definition sketch_callbacks : Callbacks :=
  mkCallbacks false true true false true false false false true false
    false false false false false false false false false false.

(** The constructor's state, the uninitialised arrays filled with [fill]. *)
Definition constructed `{Settings} (fill : Z) (cb : Callbacks) : State :=
  mkState 0 InvalidType InvalidType [fill; fill; fill] 0 0 0xffff 0xffff true
    Thru.Full
    (mkMessage 0 InvalidType 0 0 (replicate (Z.to_nat SysExMaxSize) fill)
       false 0)
    0 0 0 false 0 cb.

(** A second state of the constructor kind: every handler attached. *)
Definition all_callbacks : Callbacks :=
  mkCallbacks true true true true true true true true true true
    true true true true true true true true true true.

(** The state [begin(inChannel)] leaves. *)
Definition begun `{Settings} `{Platform} (inChannel fill : Z) (cb : Callbacks)
  : State :=
  match begin inChannel (constructed fill cb) with
  | Some (_, s, _) => s
  | None => constructed fill cb
  end.

(** One-byte parsing with a buffer of three cells. *)
Definition OneByte3 : Settings := settings true 3.

(** The state a parser is in after the bytes [rx] went through [feed]. *)
Definition fed `{Defs} `{Settings} (rx : list Z) (s : State) : State :=
  match feed rx s with
  | Some (_, s', _) => s'
  | None => s
  end.

(** ** Definitions used in the statements *)

(** The trace [t], then the run [r]. *)
Definition prepend {A} (t : list Event) (r : option (A * State * list Event))
  : option (A * State * list Event) :=
  match r with
  | None => None
  | Some (a, s, t') => Some (a, s, t ++ t')
  end.

(** The SystemExclusive messages handed to the dispatcher, in order:
    the buffer and the logical length of each. *)
Definition sysex_emission (e : Event) : option (list Z * Z) :=
  match e with
  | LaunchCallback m =>
      if type m =? SystemExclusive then Some (sysexArray m, len m) else None
  | _ => None
  end.

Definition sysex_emissions (t : list Event) : list (list Z * Z) :=
  omap sysex_emission t.

(** The bytes of an emitted message: the first [size] cells. *)
Definition payload (e : list Z * Z) : list Z :=
  take (Z.to_nat (snd e)) (fst e).

(** The same without its first and last byte, the two framing bytes. *)
Definition interior (e : list Z * Z) : list Z :=
  take (Z.to_nat (snd e - 2)) (drop 1 (fst e)).

(** Transport polls in a trace. *)
Definition is_poll (e : Event) : bool :=
  match e with
  | TransportAvailable | TransportRead _ => true
  | _ => false
  end.

(** Handler calls for notes in a trace. *)
Definition is_NoteOnCallback (e : Event) : bool :=
  match e with NoteOnCallback _ _ _ => true | _ => false end.

Definition is_ErrorCallback (e : Event) : bool :=
  match e with ErrorCallback _ => true | _ => false end.

(** A data byte. *)
Definition data_byte (b : Z) : Prop := 0 <= b < 0x80.

Section Invariants.

Context `{Settings}.

(** The arrays have the sizes of their declarations. *)
Definition well_formed (s : State) : Prop :=
  length (mPendingMessage s) = 3%nat /\
  length (sysexArray (mMessage s)) = Z.to_nat SysExMaxSize.

(** A SysEx message is being received, [pre] being the bytes stored
    since the last emission. *)
Record InSysEx (s : State) (pre : list Z) : Prop := {
  sx_wf : well_formed s;
  sx_pending :
    mPendingMessage s !! 0%nat = Some SystemExclusiveStart \/
    mPendingMessage s !! 0%nat = Some SystemExclusiveEnd;
  sx_first :
    sysexArray (mMessage s) !! 0%nat = Some SystemExclusiveStart \/
    sysexArray (mMessage s) !! 0%nat = Some SystemExclusiveEnd;
  sx_expected : mPendingMessageExpectedLength s = SysExMaxSize;
  sx_index : mPendingMessageIndex s = 1 + Z.of_nat (length pre);
  sx_room : mPendingMessageIndex s <= SysExMaxSize - 1;
  sx_stored : take (length pre) (drop 1 (sysexArray (mMessage s))) = pre
}.

(** The message that ends the stream is stored, its inner bytes being
    [body]. *)
Definition SysExDone (s : State) (body : list Z) : Prop :=
  type (mMessage s) = SystemExclusive /\
  len (mMessage s) <= SysExMaxSize /\
  interior (sysexArray (mMessage s), len (mMessage s)) = body.

(** What is left to do after a call that consumed part of the stream
    [ds ++ [0xF7]]: the queue [rx'] still ends the stream, and the bytes
    emitted so far, those stored and those still queued make up
    [pre ++ ds]. *)
Definition sysex_pending (pre ds : list Z) (rx' : list Z) (s' : State)
    (t : list Event) : Prop :=
  exists pre' ds',
    rx' = ds' ++ [SystemExclusiveEnd] /\
    Forall data_byte ds' /\
    InSysEx s' pre' /\
    concat (map interior (sysex_emissions t)) ++ pre' ++ ds' = pre ++ ds.

(** The outcome of one call of [parse] on the queue [rx], which holds
    the rest [ds ++ [0xF7]] of a SysEx stream. *)
Definition parse_sysex_post (pre ds rx : list Z) (r : bool * list Z)
    (s' : State) (t : list Event) : Prop :=
  (length (snd r) < length rx)%nat /\
  Forall (fun e => snd e <= SysExMaxSize) (sysex_emissions t) /\
  ((fst r = false /\ sysex_pending pre ds (snd r) s' t) \/
   (fst r = true /\ snd r = [] /\ sysex_emissions t = [] /\
    SysExDone s' (pre ++ ds))).

(** The outcome of one call of [read] on the same queue. *)
Definition read_sysex_post (pre ds rx : list Z) (r : bool * list Z)
    (s' : State) (t : list Event) : Prop :=
  (length (snd r) < length rx)%nat /\
  Forall (fun e => snd e <= SysExMaxSize) (sysex_emissions t) /\
  (sysex_pending pre ds (snd r) s' t \/
   (snd r = [] /\ concat (map interior (sysex_emissions t)) = pre ++ ds)).

End Invariants.

(** ** The remaining members of [MidiInterface] *)

Definition set_callbacks (v : Callbacks) (s : State) : State :=
  mkState (mInputChannel s) (mRunningStatus_RX s) (mRunningStatus_TX s)
    (mPendingMessage s) (mPendingMessageExpectedLength s)
    (mPendingMessageIndex s) (mCurrentRpnNumber s) (mCurrentNrpnNumber s)
    (mThruActivated s) (mThruFilterMode s) (mMessage s)
    (mLastMessageSentTime s) (mLastMessageReceivedTime s)
    (mSenderActiveSensingPeriodicity s)
    (mReceiverActiveSensingActivated s) (mLastError s) v.

Definition set_mNoteOffCallback (v : bool) (cb : Callbacks) : Callbacks :=
  mkCallbacks
    (mErrorCallback cb) v (mNoteOnCallback cb) (mAfterTouchPolyCallback cb)
    (mControlChangeCallback cb) (mProgramChangeCallback cb)
    (mAfterTouchChannelCallback cb) (mPitchBendCallback cb)
    (mSystemExclusiveCallback cb) (mTimeCodeQuarterFrameCallback cb)
    (mSongPositionCallback cb) (mSongSelectCallback cb)
    (mTuneRequestCallback cb) (mClockCallback cb) (mStartCallback cb)
    (mTickCallback cb) (mContinueCallback cb) (mStopCallback cb)
    (mActiveSensingCallback cb) (mSystemResetCallback cb).
Definition set_mNoteOnCallback (v : bool) (cb : Callbacks) : Callbacks :=
  mkCallbacks
    (mErrorCallback cb) (mNoteOffCallback cb) v
    (mAfterTouchPolyCallback cb) (mControlChangeCallback cb)
    (mProgramChangeCallback cb) (mAfterTouchChannelCallback cb)
    (mPitchBendCallback cb) (mSystemExclusiveCallback cb)
    (mTimeCodeQuarterFrameCallback cb) (mSongPositionCallback cb)
    (mSongSelectCallback cb) (mTuneRequestCallback cb) (mClockCallback cb)
    (mStartCallback cb) (mTickCallback cb) (mContinueCallback cb)
    (mStopCallback cb) (mActiveSensingCallback cb)
    (mSystemResetCallback cb).
Definition set_mAfterTouchPolyCallback (v : bool) (cb : Callbacks) : Callbacks :=
  mkCallbacks
    (mErrorCallback cb) (mNoteOffCallback cb) (mNoteOnCallback cb) v
    (mControlChangeCallback cb) (mProgramChangeCallback cb)
    (mAfterTouchChannelCallback cb) (mPitchBendCallback cb)
    (mSystemExclusiveCallback cb) (mTimeCodeQuarterFrameCallback cb)
    (mSongPositionCallback cb) (mSongSelectCallback cb)
    (mTuneRequestCallback cb) (mClockCallback cb) (mStartCallback cb)
    (mTickCallback cb) (mContinueCallback cb) (mStopCallback cb)
    (mActiveSensingCallback cb) (mSystemResetCallback cb).
Definition set_mControlChangeCallback (v : bool) (cb : Callbacks) : Callbacks :=
  mkCallbacks
    (mErrorCallback cb) (mNoteOffCallback cb) (mNoteOnCallback cb)
    (mAfterTouchPolyCallback cb) v (mProgramChangeCallback cb)
    (mAfterTouchChannelCallback cb) (mPitchBendCallback cb)
    (mSystemExclusiveCallback cb) (mTimeCodeQuarterFrameCallback cb)
    (mSongPositionCallback cb) (mSongSelectCallback cb)
    (mTuneRequestCallback cb) (mClockCallback cb) (mStartCallback cb)
    (mTickCallback cb) (mContinueCallback cb) (mStopCallback cb)
    (mActiveSensingCallback cb) (mSystemResetCallback cb).
Definition set_mProgramChangeCallback (v : bool) (cb : Callbacks) : Callbacks :=
  mkCallbacks
    (mErrorCallback cb) (mNoteOffCallback cb) (mNoteOnCallback cb)
    (mAfterTouchPolyCallback cb) (mControlChangeCallback cb) v
    (mAfterTouchChannelCallback cb) (mPitchBendCallback cb)
    (mSystemExclusiveCallback cb) (mTimeCodeQuarterFrameCallback cb)
    (mSongPositionCallback cb) (mSongSelectCallback cb)
    (mTuneRequestCallback cb) (mClockCallback cb) (mStartCallback cb)
    (mTickCallback cb) (mContinueCallback cb) (mStopCallback cb)
    (mActiveSensingCallback cb) (mSystemResetCallback cb).
Definition set_mAfterTouchChannelCallback (v : bool) (cb : Callbacks) : Callbacks :=
  mkCallbacks
    (mErrorCallback cb) (mNoteOffCallback cb) (mNoteOnCallback cb)
    (mAfterTouchPolyCallback cb) (mControlChangeCallback cb)
    (mProgramChangeCallback cb) v (mPitchBendCallback cb)
    (mSystemExclusiveCallback cb) (mTimeCodeQuarterFrameCallback cb)
    (mSongPositionCallback cb) (mSongSelectCallback cb)
    (mTuneRequestCallback cb) (mClockCallback cb) (mStartCallback cb)
    (mTickCallback cb) (mContinueCallback cb) (mStopCallback cb)
    (mActiveSensingCallback cb) (mSystemResetCallback cb).
Definition set_mPitchBendCallback (v : bool) (cb : Callbacks) : Callbacks :=
  mkCallbacks
    (mErrorCallback cb) (mNoteOffCallback cb) (mNoteOnCallback cb)
    (mAfterTouchPolyCallback cb) (mControlChangeCallback cb)
    (mProgramChangeCallback cb) (mAfterTouchChannelCallback cb) v
    (mSystemExclusiveCallback cb) (mTimeCodeQuarterFrameCallback cb)
    (mSongPositionCallback cb) (mSongSelectCallback cb)
    (mTuneRequestCallback cb) (mClockCallback cb) (mStartCallback cb)
    (mTickCallback cb) (mContinueCallback cb) (mStopCallback cb)
    (mActiveSensingCallback cb) (mSystemResetCallback cb).
Definition set_mSystemExclusiveCallback (v : bool) (cb : Callbacks) : Callbacks :=
  mkCallbacks
    (mErrorCallback cb) (mNoteOffCallback cb) (mNoteOnCallback cb)
    (mAfterTouchPolyCallback cb) (mControlChangeCallback cb)
    (mProgramChangeCallback cb) (mAfterTouchChannelCallback cb)
    (mPitchBendCallback cb) v (mTimeCodeQuarterFrameCallback cb)
    (mSongPositionCallback cb) (mSongSelectCallback cb)
    (mTuneRequestCallback cb) (mClockCallback cb) (mStartCallback cb)
    (mTickCallback cb) (mContinueCallback cb) (mStopCallback cb)
    (mActiveSensingCallback cb) (mSystemResetCallback cb).
Definition set_mTimeCodeQuarterFrameCallback (v : bool) (cb : Callbacks) : Callbacks :=
  mkCallbacks
    (mErrorCallback cb) (mNoteOffCallback cb) (mNoteOnCallback cb)
    (mAfterTouchPolyCallback cb) (mControlChangeCallback cb)
    (mProgramChangeCallback cb) (mAfterTouchChannelCallback cb)
    (mPitchBendCallback cb) (mSystemExclusiveCallback cb) v
    (mSongPositionCallback cb) (mSongSelectCallback cb)
    (mTuneRequestCallback cb) (mClockCallback cb) (mStartCallback cb)
    (mTickCallback cb) (mContinueCallback cb) (mStopCallback cb)
    (mActiveSensingCallback cb) (mSystemResetCallback cb).
Definition set_mSongPositionCallback (v : bool) (cb : Callbacks) : Callbacks :=
  mkCallbacks
    (mErrorCallback cb) (mNoteOffCallback cb) (mNoteOnCallback cb)
    (mAfterTouchPolyCallback cb) (mControlChangeCallback cb)
    (mProgramChangeCallback cb) (mAfterTouchChannelCallback cb)
    (mPitchBendCallback cb) (mSystemExclusiveCallback cb)
    (mTimeCodeQuarterFrameCallback cb) v (mSongSelectCallback cb)
    (mTuneRequestCallback cb) (mClockCallback cb) (mStartCallback cb)
    (mTickCallback cb) (mContinueCallback cb) (mStopCallback cb)
    (mActiveSensingCallback cb) (mSystemResetCallback cb).
Definition set_mSongSelectCallback (v : bool) (cb : Callbacks) : Callbacks :=
  mkCallbacks
    (mErrorCallback cb) (mNoteOffCallback cb) (mNoteOnCallback cb)
    (mAfterTouchPolyCallback cb) (mControlChangeCallback cb)
    (mProgramChangeCallback cb) (mAfterTouchChannelCallback cb)
    (mPitchBendCallback cb) (mSystemExclusiveCallback cb)
    (mTimeCodeQuarterFrameCallback cb) (mSongPositionCallback cb) v
    (mTuneRequestCallback cb) (mClockCallback cb) (mStartCallback cb)
    (mTickCallback cb) (mContinueCallback cb) (mStopCallback cb)
    (mActiveSensingCallback cb) (mSystemResetCallback cb).
Definition set_mTuneRequestCallback (v : bool) (cb : Callbacks) : Callbacks :=
  mkCallbacks
    (mErrorCallback cb) (mNoteOffCallback cb) (mNoteOnCallback cb)
    (mAfterTouchPolyCallback cb) (mControlChangeCallback cb)
    (mProgramChangeCallback cb) (mAfterTouchChannelCallback cb)
    (mPitchBendCallback cb) (mSystemExclusiveCallback cb)
    (mTimeCodeQuarterFrameCallback cb) (mSongPositionCallback cb)
    (mSongSelectCallback cb) v (mClockCallback cb) (mStartCallback cb)
    (mTickCallback cb) (mContinueCallback cb) (mStopCallback cb)
    (mActiveSensingCallback cb) (mSystemResetCallback cb).
Definition set_mClockCallback (v : bool) (cb : Callbacks) : Callbacks :=
  mkCallbacks
    (mErrorCallback cb) (mNoteOffCallback cb) (mNoteOnCallback cb)
    (mAfterTouchPolyCallback cb) (mControlChangeCallback cb)
    (mProgramChangeCallback cb) (mAfterTouchChannelCallback cb)
    (mPitchBendCallback cb) (mSystemExclusiveCallback cb)
    (mTimeCodeQuarterFrameCallback cb) (mSongPositionCallback cb)
    (mSongSelectCallback cb) (mTuneRequestCallback cb) v
    (mStartCallback cb) (mTickCallback cb) (mContinueCallback cb)
    (mStopCallback cb) (mActiveSensingCallback cb)
    (mSystemResetCallback cb).
Definition set_mStartCallback (v : bool) (cb : Callbacks) : Callbacks :=
  mkCallbacks
    (mErrorCallback cb) (mNoteOffCallback cb) (mNoteOnCallback cb)
    (mAfterTouchPolyCallback cb) (mControlChangeCallback cb)
    (mProgramChangeCallback cb) (mAfterTouchChannelCallback cb)
    (mPitchBendCallback cb) (mSystemExclusiveCallback cb)
    (mTimeCodeQuarterFrameCallback cb) (mSongPositionCallback cb)
    (mSongSelectCallback cb) (mTuneRequestCallback cb) (mClockCallback cb)
    v (mTickCallback cb) (mContinueCallback cb) (mStopCallback cb)
    (mActiveSensingCallback cb) (mSystemResetCallback cb).
Definition set_mTickCallback (v : bool) (cb : Callbacks) : Callbacks :=
  mkCallbacks
    (mErrorCallback cb) (mNoteOffCallback cb) (mNoteOnCallback cb)
    (mAfterTouchPolyCallback cb) (mControlChangeCallback cb)
    (mProgramChangeCallback cb) (mAfterTouchChannelCallback cb)
    (mPitchBendCallback cb) (mSystemExclusiveCallback cb)
    (mTimeCodeQuarterFrameCallback cb) (mSongPositionCallback cb)
    (mSongSelectCallback cb) (mTuneRequestCallback cb) (mClockCallback cb)
    (mStartCallback cb) v (mContinueCallback cb) (mStopCallback cb)
    (mActiveSensingCallback cb) (mSystemResetCallback cb).
Definition set_mContinueCallback (v : bool) (cb : Callbacks) : Callbacks :=
  mkCallbacks
    (mErrorCallback cb) (mNoteOffCallback cb) (mNoteOnCallback cb)
    (mAfterTouchPolyCallback cb) (mControlChangeCallback cb)
    (mProgramChangeCallback cb) (mAfterTouchChannelCallback cb)
    (mPitchBendCallback cb) (mSystemExclusiveCallback cb)
    (mTimeCodeQuarterFrameCallback cb) (mSongPositionCallback cb)
    (mSongSelectCallback cb) (mTuneRequestCallback cb) (mClockCallback cb)
    (mStartCallback cb) (mTickCallback cb) v (mStopCallback cb)
    (mActiveSensingCallback cb) (mSystemResetCallback cb).
Definition set_mStopCallback (v : bool) (cb : Callbacks) : Callbacks :=
  mkCallbacks
    (mErrorCallback cb) (mNoteOffCallback cb) (mNoteOnCallback cb)
    (mAfterTouchPolyCallback cb) (mControlChangeCallback cb)
    (mProgramChangeCallback cb) (mAfterTouchChannelCallback cb)
    (mPitchBendCallback cb) (mSystemExclusiveCallback cb)
    (mTimeCodeQuarterFrameCallback cb) (mSongPositionCallback cb)
    (mSongSelectCallback cb) (mTuneRequestCallback cb) (mClockCallback cb)
    (mStartCallback cb) (mTickCallback cb) (mContinueCallback cb) v
    (mActiveSensingCallback cb) (mSystemResetCallback cb).
Definition set_mActiveSensingCallback (v : bool) (cb : Callbacks) : Callbacks :=
  mkCallbacks
    (mErrorCallback cb) (mNoteOffCallback cb) (mNoteOnCallback cb)
    (mAfterTouchPolyCallback cb) (mControlChangeCallback cb)
    (mProgramChangeCallback cb) (mAfterTouchChannelCallback cb)
    (mPitchBendCallback cb) (mSystemExclusiveCallback cb)
    (mTimeCodeQuarterFrameCallback cb) (mSongPositionCallback cb)
    (mSongSelectCallback cb) (mTuneRequestCallback cb) (mClockCallback cb)
    (mStartCallback cb) (mTickCallback cb) (mContinueCallback cb)
    (mStopCallback cb) v (mSystemResetCallback cb).
Definition set_mSystemResetCallback (v : bool) (cb : Callbacks) : Callbacks :=
  mkCallbacks
    (mErrorCallback cb) (mNoteOffCallback cb) (mNoteOnCallback cb)
    (mAfterTouchPolyCallback cb) (mControlChangeCallback cb)
    (mProgramChangeCallback cb) (mAfterTouchChannelCallback cb)
    (mPitchBendCallback cb) (mSystemExclusiveCallback cb)
    (mTimeCodeQuarterFrameCallback cb) (mSongPositionCallback cb)
    (mSongSelectCallback cb) (mTuneRequestCallback cb) (mClockCallback cb)
    (mStartCallback cb) (mTickCallback cb) (mContinueCallback cb)
    (mStopCallback cb) (mActiveSensingCallback cb) v.

Section Members.

Context `{Defs} `{Settings} `{Platform}.

(** [disconnectCallbackFromType]: the slot of [inType] becomes
    [nullptr]. *)
Definition disconnectCallbackFromType (inType : Z) : M unit :=
  let detach (slot : bool -> Callbacks -> Callbacks) : M unit :=
    modify (fun s => set_callbacks (slot false (callbacks s)) s) in
  if inType =? NoteOff then detach set_mNoteOffCallback
  else if inType =? NoteOn then detach set_mNoteOnCallback
  else if inType =? AfterTouchPoly then detach set_mAfterTouchPolyCallback
  else if inType =? ControlChange then detach set_mControlChangeCallback
  else if inType =? ProgramChange then detach set_mProgramChangeCallback
  else if inType =? AfterTouchChannel then
    detach set_mAfterTouchChannelCallback
  else if inType =? PitchBend then detach set_mPitchBendCallback
  else if inType =? SystemExclusive then detach set_mSystemExclusiveCallback
  else if inType =? TimeCodeQuarterFrame then
    detach set_mTimeCodeQuarterFrameCallback
  else if inType =? SongPosition then detach set_mSongPositionCallback
  else if inType =? SongSelect then detach set_mSongSelectCallback
  else if inType =? TuneRequest then detach set_mTuneRequestCallback
  else if inType =? Clock then detach set_mClockCallback
  else if inType =? Start then detach set_mStartCallback
  else if inType =? Tick then detach set_mTickCallback
  else if inType =? Continue then detach set_mContinueCallback
  else if inType =? Stop then detach set_mStopCallback
  else if inType =? ActiveSensing then detach set_mActiveSensingCallback
  else if inType =? SystemReset then detach set_mSystemResetCallback
  else ret tt.

(** The soft-thru switches. *)
Definition setThruFilterMode (inThruFilterMode : Thru.Mode) : M unit :=
  modify (set_mThruFilterMode inThruFilterMode) ;;
  mode <- gets mThruFilterMode ;;
  modify (set_mThruActivated
            (match mode with Thru.Off => false | _ => true end)).

Definition getThruState : M bool := gets mThruActivated.

Definition turnThruOn (inThruFilterMode : Thru.Mode) : M unit :=
  modify (set_mThruActivated true) ;;
  modify (set_mThruFilterMode inThruFilterMode).

Definition turnThruOff : M unit :=
  modify (set_mThruActivated false) ;;
  modify (set_mThruFilterMode Thru.Off).

End Members.

(** ** Further definitions used in the statements *)

(** The types [launchCallback] has a case for. *)
Definition known_type (t : Z) : bool :=
  case_of t
    [NoteOff; NoteOn; Clock; Start; Tick; Continue; Stop; ActiveSensing;
     ControlChange; PitchBend; AfterTouchPoly; AfterTouchChannel;
     ProgramChange; SystemExclusive; TimeCodeQuarterFrame; SongPosition;
     SongSelect; TuneRequest; SystemReset].

(** Calls of the send functions made by the thru filter. *)
Definition is_thru_send (e : Event) : bool :=
  match e with
  | Send _ _ _ _ | SendRealTime _ | SendSysEx _ _ _ | SendSongSelect _
  | SendSongPosition _ | SendTimeCodeQuarterFrame _ _ => true
  | _ => false
  end.

(** The slot a call of a handler goes through. *)
Definition handler_slot (e : Event) : option (Callbacks -> bool) :=
  match e with
  | ErrorCallback _ => Some mErrorCallback
  | NoteOffCallback _ _ _ => Some mNoteOffCallback
  | NoteOnCallback _ _ _ => Some mNoteOnCallback
  | ClockCallback => Some mClockCallback
  | StartCallback => Some mStartCallback
  | TickCallback => Some mTickCallback
  | ContinueCallback => Some mContinueCallback
  | StopCallback => Some mStopCallback
  | ActiveSensingCallback => Some mActiveSensingCallback
  | ControlChangeCallback _ _ _ => Some mControlChangeCallback
  | PitchBendCallback _ _ => Some mPitchBendCallback
  | AfterTouchPolyCallback _ _ _ => Some mAfterTouchPolyCallback
  | AfterTouchChannelCallback _ _ => Some mAfterTouchChannelCallback
  | ProgramChangeCallback _ _ => Some mProgramChangeCallback
  | SystemExclusiveCallback _ _ => Some mSystemExclusiveCallback
  | TimeCodeQuarterFrameCallback _ => Some mTimeCodeQuarterFrameCallback
  | SongPositionCallback _ => Some mSongPositionCallback
  | SongSelectCallback _ => Some mSongSelectCallback
  | TuneRequestCallback => Some mTuneRequestCallback
  | SystemResetCallback => Some mSystemResetCallback
  | _ => None
  end.

(** A message handed to the dispatcher is complete and of a known type,
    and a handler that is called is attached. *)
Definition dispatch_ok (cb : Callbacks) (e : Event) : Prop :=
  match e with
  | LaunchCallback m => valid m = true /\ known_type (type m) = true
  | _ =>
      match handler_slot e with
      | Some slot => slot cb = true
      | None => True
      end
  end.

(** The member variables that configure the interface. *)
Definition same_config (s s' : State) : Prop :=
  mInputChannel s' = mInputChannel s /\
  mRunningStatus_TX s' = mRunningStatus_TX s /\
  mCurrentRpnNumber s' = mCurrentRpnNumber s /\
  mCurrentNrpnNumber s' = mCurrentNrpnNumber s /\
  mThruActivated s' = mThruActivated s /\
  mThruFilterMode s' = mThruFilterMode s /\
  mSenderActiveSensingPeriodicity s' = mSenderActiveSensingPeriodicity s /\
  callbacks s' = callbacks s.

Section ParserInvariant.

Context `{Settings}.

(** Status bytes whose message has one data byte, and two. *)
Definition two_bytes (p0 : Z) : bool :=
  case_of (getTypeFromStatusByte p0)
    [ProgramChange; AfterTouchChannel; TimeCodeQuarterFrame; SongSelect].

Definition three_bytes (p0 : Z) : bool :=
  case_of (getTypeFromStatusByte p0)
    [NoteOn; NoteOff; ControlChange; PitchBend; AfterTouchPoly; SongPosition].

(** The pending message between two bytes: none, or a SysEx message with
    room for one more byte, or a message of two or three bytes that
    lacks one or two. *)
Definition pending_ok (s : State) : Prop :=
  mPendingMessageIndex s = 0 \/
  exists p0,
    mPendingMessage s !! 0%nat = Some p0 /\
    if (p0 =? SystemExclusiveStart) || (p0 =? SystemExclusiveEnd)
    then mPendingMessageExpectedLength s = SysExMaxSize /\
         1 <= mPendingMessageIndex s <= SysExMaxSize - 1
    else (two_bytes p0 = true /\
          mPendingMessageExpectedLength s = 2 /\
          mPendingMessageIndex s = 1) \/
         (three_bytes p0 = true /\
          mPendingMessageExpectedLength s = 3 /\
          1 <= mPendingMessageIndex s <= 2).

Definition parser_ok (s : State) : Prop := well_formed s /\ pending_ok s.

End ParserInvariant.

(** What one byte does to a parser that satisfies [parser_ok]. *)
Definition parse_byte_post `{Settings} (s : State) (o : Outcome) (s' : State)
    (t : list Event) : Prop :=
  parser_ok s' /\
  same_config s s' /\
  Forall (dispatch_ok (callbacks s)) t /\
  filter is_thru_send t = [] /\
  filter is_poll t = [] /\
  (o = Return true ->
   valid (mMessage s') = true /\ known_type (type (mMessage s')) = true).

(** Nothing is sent to the output unless soft thru is on. *)
Definition thru_ok (s : State) (t : list Event) : Prop :=
  filter is_thru_send t = [] \/
  (mThruActivated s = true /\ mThruFilterMode s <> Thru.Off).

(** What a run of the receive path from [s] to [s'] with trace [t]
    keeps. *)
Definition run_ok `{Settings} (s s' : State) (t : list Event) : Prop :=
  parser_ok s' /\
  same_config s s' /\
  Forall (dispatch_ok (callbacks s)) t /\
  thru_ok s t.

(** The state [parse] hands to [parse_byte]: the parse-error bit is
    cleared first. *)
Definition cleared `{Defs} (s : State) : State :=
  set_mLastError
    (to_int8 (Z.land (mLastError s) (Z.lnot (Z.shiftl 1 ErrorParse)))) s.


(** The message [m] is complete, with these fields. *)
Definition is_message (m : Message) (ty ch d1 d2 : Z) : Prop :=
  valid m = true /\ type m = ty /\ channel m = ch /\
  data1 m = d1 /\ data2 m = d2.

Section SmallBufferStates.

Context `{Settings}.

(** A SysEx message has just begun. *)
Definition sysex_started (s : State) : Prop :=
  well_formed s /\
  mPendingMessage s !! 0%nat = Some SystemExclusiveStart /\
  mPendingMessageExpectedLength s = SysExMaxSize /\
  mPendingMessageIndex s = 1.

(** The index of the next SysEx byte is 2, in a buffer of two cells. *)
Definition sysex_overfull (s : State) : Prop :=
  length (sysexArray (mMessage s)) = 2%nat /\
  mPendingMessage s !! 0%nat = Some SystemExclusiveStart /\
  mPendingMessageIndex s = 2.

End SmallBufferStates.

(** What the dispatcher calls for the message [m] in state [s]. *)
Definition dispatched `{Defs} `{Settings} (m : Message) (s : State)
  : list Event :=
  match launchCallback (set_mMessage m s) with
  | Some (_, _, t) => t
  | None => []
  end.

(** ** Channel messages, from the queue to the handler *)

(** Calls of the message handlers: every handler but the error
    handler. *)
Definition is_message_handler (e : Event) : bool :=
  match e with
  | ErrorCallback _ => false
  | _ => match handler_slot e with Some _ => true | None => false end
  end.

Definition call_if (attached : bool) (e : Event) : list Event :=
  if attached then [e] else [].

(** The call made for a channel message of type [ty] on channel [ch]
    with the data bytes [d1] and [d2], through the slots [cb]: the
    handler of the type, when one is attached, with the channel and the
    data bytes the type has; the two data bytes of a PitchBend make one
    number of 14 bits, least significant byte first, counted from
    [MIDI_PITCHBEND_MIN]. *)
Definition channel_calls `{Defs} (cb : Callbacks) (ty ch d1 d2 : Z)
  : list Event :=
  if ty =? NoteOff then
    call_if (mNoteOffCallback cb) (NoteOffCallback ch d1 d2)
  else if ty =? NoteOn then
    call_if (mNoteOnCallback cb) (NoteOnCallback ch d1 d2)
  else if ty =? AfterTouchPoly then
    call_if (mAfterTouchPolyCallback cb) (AfterTouchPolyCallback ch d1 d2)
  else if ty =? ControlChange then
    call_if (mControlChangeCallback cb) (ControlChangeCallback ch d1 d2)
  else if ty =? ProgramChange then
    call_if (mProgramChangeCallback cb) (ProgramChangeCallback ch d1)
  else if ty =? AfterTouchChannel then
    call_if (mAfterTouchChannelCallback cb) (AfterTouchChannelCallback ch d1)
  else if ty =? PitchBend then
    call_if (mPitchBendCallback cb)
      (PitchBendCallback ch (d1 + 128 * d2 + MIDI_PITCHBEND_MIN))
  else [].

Section ChannelDelivery.
Context `{Defs} `{Settings}.

(** The parser while the bytes [rx] of the channel message with status
    byte [st] and data bytes [d1] and, for a message of three bytes,
    [d2] are still in the queue: before the status byte, after it, or
    after the first of two data bytes. *)
Definition waiting (st d1 d2 : Z) (rx : list Z) (s : State) : Prop :=
  length (mPendingMessage s) = 3%nat /\
  ((rx = st :: (if two_bytes st then [d1] else [d1; d2]) /\
    mPendingMessageIndex s = 0) \/
   (rx = (if two_bytes st then [d1] else [d1; d2]) /\
    mPendingMessage s !! 0%nat = Some st /\
    mPendingMessageIndex s = 1 /\
    mPendingMessageExpectedLength s = (if two_bytes st then 2 else 3)) \/
   (two_bytes st = false /\ rx = [d2] /\
    mPendingMessage s !! 0%nat = Some st /\
    mPendingMessage s !! 1%nat = Some d1 /\
    mPendingMessageIndex s = 2 /\
    mPendingMessageExpectedLength s = 3)).

(** The message is complete in [mMessage]. *)
Definition channel_done (st d1 d2 : Z) (s : State) : Prop :=
  is_message (mMessage s) (getTypeFromStatusByte st)
    (getChannelFromStatusByte st) d1 (if two_bytes st then 0 else d2).

(** The handler calls [read(inChannel)] makes for the complete message:
    none unless the channel is listened to; a NoteOn of velocity 0 is a
    NoteOff when the setting says so. *)
Definition delivered (inChannel st d1 d2 : Z) (cb : Callbacks) : list Event :=
  let ty := getTypeFromStatusByte st in
  let ch := getChannelFromStatusByte st in
  let data2 := if two_bytes st then 0 else d2 in
  let ty' :=
    if HandleNullVelocityNoteOnAsNoteOff && (ty =? NoteOn) && (data2 =? 0)
    then NoteOff else ty in
  if (ch =? inChannel) || (inChannel =? MIDI_CHANNEL_OMNI)
  then channel_calls cb ty' ch d1 data2
  else [].

Definition parse_channel_post (st d1 d2 : Z) (rx : list Z) (s : State)
    (r : bool * list Z) (s' : State) (t : list Event) : Prop :=
  callbacks s' = callbacks s /\
  filter is_message_handler t = [] /\
  (length (snd r) < length rx)%nat /\
  ((fst r = false /\ waiting st d1 d2 (snd r) s') \/
   (fst r = true /\ snd r = [] /\ channel_done st d1 d2 s')).

Definition read_channel_post (inChannel st d1 d2 : Z) (rx : list Z)
    (s : State) (r : bool * list Z) (s' : State) (t : list Event) : Prop :=
  callbacks s' = callbacks s /\
  (length (snd r) < length rx)%nat /\
  ((waiting st d1 d2 (snd r) s' /\ filter is_message_handler t = []) \/
   (snd r = [] /\
    filter is_message_handler t = delivered inChannel st d1 d2 (callbacks s))).

End ChannelDelivery.

(** ** The calls of the SystemExclusive handler *)

(** The calls of the SystemExclusive handler in a trace, in order: the
    buffer and the size each one is given. *)
Definition sysex_call (e : Event) : option (list Z * Z) :=
  match e with
  | SystemExclusiveCallback a n => Some (a, n)
  | _ => None
  end.

Definition sysex_calls (t : list Event) : list (list Z * Z) :=
  omap sysex_call t.

(** What a handler that reads [size] bytes sees of a call. *)
Definition call_view (c : list Z * Z) : list Z * Z := (payload c, snd c).

Definition with_length (p : list Z) : list Z * Z := (p, Z.of_nat (length p)).

(** The messages [parse] makes of a SysEx stream, as a function on
    lists: the buffer of [C] cells starts with [f], holds the data bytes
    [pre] after it, and the data bytes [ds] and then 0xF7 are still to
    come.  A data byte that finds the last cell free closes a message
    with 0xF0 and opens the next one, which starts with 0xF7. *)
Fixpoint sysex_split (C : Z) (f : Z) (pre ds : list Z) : list (list Z) :=
  match ds with
  | [] => [f :: pre ++ [SystemExclusiveEnd]]
  | d :: ds' =>
      if Z.of_nat (length pre) <? C - 2
      then sysex_split C f (pre ++ [d]) ds'
      else (f :: pre ++ [SystemExclusiveStart])
           :: sysex_split C SystemExclusiveEnd [d] ds'
  end.

Section SysExCalls.
Context `{Settings}.

(** A SysEx message is being received into a buffer that starts with
    [f] and holds [pre] after it, and the handler is attached. *)
Definition Receiving (s : State) (f : Z) (pre : list Z) : Prop :=
  InSysEx s pre /\
  sysexArray (mMessage s) !! 0%nat = Some f /\
  mSystemExclusiveCallback (callbacks s) = true.

(** The calls made so far, and those the rest of the stream will give
    from [s'], are the calls of the whole stream. *)
Definition calls_pending (f : Z) (pre ds : list Z) (rx' : list Z)
    (s' : State) (t : list Event) : Prop :=
  exists f' pre' ds',
    rx' = ds' ++ [SystemExclusiveEnd] /\
    Forall data_byte ds' /\
    Receiving s' f' pre' /\
    map call_view (sysex_calls t)
      ++ map with_length (sysex_split SysExMaxSize f' pre' ds')
    = map with_length (sysex_split SysExMaxSize f pre ds).

(** The message that ends the stream is stored and is the only one of
    the stream still to be handed over. *)
Definition calls_done (f : Z) (pre ds : list Z) (s' : State) : Prop :=
  type (mMessage s') = SystemExclusive /\
  mSystemExclusiveCallback (callbacks s') = true /\
  [call_view (sysexArray (mMessage s'), getSysExSize (mMessage s'))]
  = map with_length (sysex_split SysExMaxSize f pre ds).

Definition parse_calls_post (f : Z) (pre ds rx : list Z) (r : bool * list Z)
    (s' : State) (t : list Event) : Prop :=
  (length (snd r) < length rx)%nat /\
  ((fst r = false /\ calls_pending f pre ds (snd r) s' t) \/
   (fst r = true /\ snd r = [] /\ sysex_calls t = [] /\
    calls_done f pre ds s')).

Definition read_calls_post (f : Z) (pre ds rx : list Z) (r : bool * list Z)
    (s' : State) (t : list Event) : Prop :=
  (length (snd r) < length rx)%nat /\
  (calls_pending f pre ds (snd r) s' t \/
   (snd r = [] /\
    map call_view (sysex_calls t)
    = map with_length (sysex_split SysExMaxSize f pre ds))).

End SysExCalls.

(** * The sketch ([PianoLED.ino]) *)

Module PianoLED.

(** [#define NUM_LEDS 88] and [#define SLEEP_TIMER 10000]. *)
Definition NUM_LEDS : Z := 88.
Definition SLEEP_TIMER : Z := 10000.

(** [constrain] is a macro of the Arduino core, which is not under
    src/: the sketch is modelled over any function in its place. *)
Class Arduino := { constrain : Z -> Z -> Z -> Z }.

(** What the sketch relies on: the result lies between the bounds, and
    a value between the bounds is returned as it is. *)
Definition constrain_ok `{Arduino} : Prop :=
  forall amt low high, low <= high ->
    low <= constrain amt low high <= high /\
    (low <= amt <= high -> constrain amt low high = amt).

(** The macro as the Arduino core defines it:
    [((amt)<(low)?(low):((amt)>(high)?(high):(amt)))]. *)
Definition ArduinoCore : Arduino :=
  {| constrain amt low high :=
       if amt <? low then low else if amt >? high then high else amt |}.

(** The globals the functions below read or write. *)
Record Globals := mkGlobals {
  autoModeOn : bool;
  autoMode : Z;
  lastKeyPress : Z;
  mode : Z;
  onLeds : list bool;
  fadeLeds : list bool
}.

Definition set_autoModeOn (v : bool) (g : Globals) : Globals :=
  mkGlobals v (autoMode g) (lastKeyPress g) (mode g) (onLeds g) (fadeLeds g).
Definition set_autoMode (v : Z) (g : Globals) : Globals :=
  mkGlobals (autoModeOn g) v (lastKeyPress g) (mode g) (onLeds g) (fadeLeds g).
Definition set_mode (v : Z) (g : Globals) : Globals :=
  mkGlobals (autoModeOn g) (autoMode g) (lastKeyPress g) v (onLeds g)
    (fadeLeds g).
Definition set_onLeds (v : list bool) (g : Globals) : Globals :=
  mkGlobals (autoModeOn g) (autoMode g) (lastKeyPress g) (mode g) v
    (fadeLeds g).
Definition set_fadeLeds (v : list bool) (g : Globals) : Globals :=
  mkGlobals (autoModeOn g) (autoMode g) (lastKeyPress g) (mode g) (onLeds g)
    v.

(** Globals to run the functions on: every LED on, the last key
    pressed at time 0. *)
Definition all_lit (auto : bool) (saved current : Z) : Globals :=
  mkGlobals auto saved 0 current
    (repeat true (Z.to_nat NUM_LEDS)) (repeat true (Z.to_nat NUM_LEDS)).

(** An array cell read or written through an [int] index: [None]
    outside the array. *)
Definition get_cell {A} (a : list A) (i : Z) : option A :=
  if 0 <=? i then a !! Z.to_nat i else None.

Definition set_cell {A} (a : list A) (i : Z) (v : A) : option (list A) :=
  if (0 <=? i) && (i <? Z.of_nat (length a))
  then Some (<[Z.to_nat i := v]> a) else None.

(** [getSysExStatus]: [length] is a [uint16_t], [length - 1] an [int];
    [&&] reads its second operand only when the first holds. *)
Definition getSysExStatus (data : list Z) (length : Z) : option string :=
  d0 ← get_cell data 0;
  c1 ← (if d0 =? 0xF0
        then dl ← get_cell data (length - 1); Some (dl =? 0xF7)
        else Some false);
  if (c1 : bool) then Some "F"%string
  else
    c2 ← (if d0 =? 0xF0
          then dl ← get_cell data (length - 1); Some (negb (dl =? 0xF7))
          else Some false);
    if (c2 : bool) then Some "S"%string
    else
      c3 ← (if negb (d0 =? 0xF0)
            then dl ← get_cell data (length - 1); Some (negb (dl =? 0xF7))
            else Some false);
      if (c3 : bool) then Some "M"%string else Some "E"%string.

(** The label [OnMidiSysEx], the SystemExclusive handler of the sketch,
    prints for a call: it passes [data] and its [unsigned length], cut
    to the [uint16_t] of the parameter, to [getSysExStatus]. *)
Definition OnMidiSysEx_status (data : list Z) (length : Z) : option string :=
  getSysExStatus data (length mod 65536).

(** The first loop of [OnNoteOff],
    [for (int i = led + 1; i < NUM_LEDS; i++)]: [n] is the number of
    values of [i] left below [NUM_LEDS]. *)
Fixpoint unfade_up (n : nat) (i x : Z) (fade : list bool)
  : option (list bool) :=
  match n with
  | O => Some fade
  | S n' =>
      if 255 - x * 45 <=? 100 then Some fade
      else fade' ← set_cell fade i false; unfade_up n' (i + 1) (x + 1) fade'
  end.

(** The second loop, [for (int i = led - 1; i >= 0; i--)]: [n] is the
    number of values of [i] left from [i] down to 0. *)
Fixpoint unfade_down (n : nat) (i x : Z) (fade : list bool)
  : option (list bool) :=
  match n with
  | O => Some fade
  | S n' =>
      if 255 - x * 45 <=? 100 then Some fade
      else fade' ← set_cell fade i false; unfade_down n' (i - 1) (x + 1) fade'
  end.

(** [OnNoteOff]; [pitchcheck2] and [led] are bytes. *)
Definition OnNoteOff `{Arduino} (channel pitch velocity : Z) (g : Globals)
  : option Globals :=
  let pitchcheck2 := to_byte (constrain pitch 21 108) in
  let led := to_byte (- pitchcheck2 + NUM_LEDS + 21 - 1) in
  on' ← set_cell (onLeds g) led false;
  fade1 ← unfade_up (Z.to_nat (NUM_LEDS - (led + 1))) (led + 1) 1 (fadeLeds g);
  fade2 ← unfade_down (Z.to_nat (led - 1 + 1)) (led - 1) 1 fade1;
  Some (set_fadeLeds fade2 (set_onLeds on' g)).

(** [sleepMode]: [millis1] and [millis2] are what the two calls of
    [millis()] return; the first is made only when [autoModeOn] is
    false. *)
Definition sleepMode (millis1 millis2 : Z) (g : Globals) : Globals :=
  let g1 :=
    if negb (autoModeOn g)
       && (usub millis1 (lastKeyPress g) >? uwrap (SLEEP_TIMER * 1000))
       && negb (mode g =? 0)
    then set_mode 1 (set_autoMode (mode g) (set_autoModeOn true g))
    else g in
  if (usub millis2 (lastKeyPress g1) >? uwrap (5 * 60 * 1000))
     && negb (mode g1 =? 0)
  then set_mode (autoMode g1) (set_autoModeOn false g1)
  else g1.

End PianoLED.

(** ** The labels of the calls of a SysEx stream *)

(** The label [getSysExStatus] gives a handler that is called with the
    bytes [fst v] and the size [snd v]. *)
Definition view_status (v : list Z * Z) : option string :=
  PianoLED.OnMidiSysEx_status (fst v) (snd v).

(** The labels of the messages of a stream of [n] data bytes, the first
    of which starts with [f], in a buffer of [C] cells. *)
Definition split_labels (C f n : Z) : list string :=
  if n <=? C - 2
  then [if f =? SystemExclusiveStart then "F"%string else "E"%string]
  else (if f =? SystemExclusiveStart then "S"%string else "M"%string)
       :: repeat "M"%string (Z.to_nat ((n - 1) / (C - 2) - 1))
       ++ ["E"%string].

(** * Proofs *)

(** ** Proof infrastructure *)

Lemma prepend_nil {A} (r : option (A * State * list Event)) : prepend [] r = r.
Proof. destruct r as [[[a s] t]|]; reflexivity. Qed.

Lemma prepend_prepend {A} t1 t2 (r : option (A * State * list Event)) :
  prepend t1 (prepend t2 r) = prepend (t1 ++ t2) r.
Proof. destruct r as [[[a s] t]|]; cbn; [rewrite app_assoc|]; reflexivity. Qed.

Lemma bind_assoc {A B C} (m : M A) (f : A -> M B) (g : B -> M C) s :
  bind (bind m f) g s = bind m (fun x => bind (f x) g) s.
Proof.
  unfold bind. destruct (m s) as [[[a s1] t1]|]; [|reflexivity].
  destruct (f a s1) as [[[b s2] t2]|]; [|reflexivity].
  destruct (g b s2) as [[[c s3] t3]|]; [|reflexivity].
  rewrite app_assoc. reflexivity.
Qed.

Lemma run_ret {A B} (a : A) (k : A -> M B) s : bind (ret a) k s = k a s.
Proof. unfold bind, ret. destruct (k a s) as [[[b s2] t2]|]; reflexivity. Qed.

Lemma run_gets {A B} (f : State -> A) (k : A -> M B) s :
  bind (gets f) k s = k (f s) s.
Proof. unfold bind, gets. destruct (k (f s) s) as [[[b s2] t2]|]; reflexivity. Qed.

Lemma run_modify {B} (f : State -> State) (k : unit -> M B) s :
  bind (modify f) k s = k tt (f s).
Proof. unfold bind, modify. destruct (k tt (f s)) as [[[b s2] t2]|]; reflexivity. Qed.

Lemma run_put_message {B} (f : Message -> Message) (k : unit -> M B) s :
  bind (put_message f) k s = k tt (set_mMessage (f (mMessage s)) s).
Proof. unfold put_message. rewrite run_modify. reflexivity. Qed.

Lemma run_emit {B} (e : Event) (k : unit -> M B) s :
  bind (emit e) k s = prepend [e] (k tt s).
Proof. unfold bind, emit, prepend. destruct (k tt s) as [[[b s2] t2]|]; reflexivity. Qed.

Lemma run_undefined {A B} (k : A -> M B) s : bind undefined k s = None.
Proof. reflexivity. Qed.

Lemma run_load {B} (a : list Z) (i v : Z) (k : Z -> M B) s :
  a !! Z.to_nat i = Some v -> bind (load a i) k s = k v s.
Proof. intros Hv. unfold load. rewrite Hv. apply run_ret. Qed.

Lemma run_store {B} (a : list Z) (i v : Z) (k : list Z -> M B) s :
  (Z.to_nat i < length a)%nat ->
  bind (store a i v) k s = k (<[Z.to_nat i := v]> a) s.
Proof.
  intros Hi. unfold store. apply Nat.ltb_lt in Hi. rewrite Hi. apply run_ret.
Qed.

Lemma run_read_pending {B} (i v : Z) (k : Z -> M B) s :
  mPendingMessage s !! Z.to_nat i = Some v ->
  bind (read_pending i) k s = k v s.
Proof.
  intros Hv. unfold read_pending. rewrite bind_assoc, run_gets.
  apply run_load, Hv.
Qed.

Lemma run_write_pending {B} (i v : Z) (k : unit -> M B) s :
  (Z.to_nat i < length (mPendingMessage s))%nat ->
  bind (write_pending i v) k s
  = k tt (set_mPendingMessage (<[Z.to_nat i := v]> (mPendingMessage s)) s).
Proof.
  intros Hi. unfold write_pending.
  rewrite bind_assoc, run_gets, bind_assoc, run_store by exact Hi.
  rewrite run_modify. reflexivity.
Qed.

Lemma run_read_sysex {B} (i v : Z) (k : Z -> M B) s :
  sysexArray (mMessage s) !! Z.to_nat i = Some v ->
  bind (read_sysex i) k s = k v s.
Proof.
  intros Hv. unfold read_sysex. rewrite bind_assoc, run_gets.
  apply run_load, Hv.
Qed.

Lemma run_write_sysex {B} (i v : Z) (k : unit -> M B) s :
  (Z.to_nat i < length (sysexArray (mMessage s)))%nat ->
  bind (write_sysex i v) k s
  = k tt (set_mMessage
            (set_sysexArray (<[Z.to_nat i := v]> (sysexArray (mMessage s)))
               (mMessage s)) s).
Proof.
  intros Hi. unfold write_sysex.
  rewrite bind_assoc, run_gets, bind_assoc, run_store by exact Hi.
  rewrite run_modify. reflexivity.
Qed.

(** Reduction that leaves the arithmetic and the arrays alone. *)
Ltac sim :=
  cbn -[isChannelMessage getTypeFromStatusByte getChannelFromStatusByte
        to_int8 to_byte uadd usub uwrap Z.lor Z.land Z.lnot Z.shiftl
        Z.shiftr Z.testbit Z.to_nat Z.of_nat
        length lookup insert take drop prepend bind when case_of].

Ltac simh H :=
  cbn -[isChannelMessage getTypeFromStatusByte getChannelFromStatusByte
        to_int8 to_byte uadd usub uwrap Z.lor Z.land Z.lnot Z.shiftl
        Z.shiftr Z.testbit Z.to_nat Z.of_nat
        length lookup insert take drop prepend bind when case_of] in H.

(** The same, computing in concrete arrays as well. *)
Ltac simc :=
  cbn -[isChannelMessage getTypeFromStatusByte getChannelFromStatusByte
        to_int8 to_byte uadd usub uwrap Z.lor Z.land Z.lnot Z.shiftl
        Z.shiftr Z.testbit prepend bind when].

(** One step of symbolic execution at the head of a run. *)
Ltac mstep :=
  first
    [ rewrite bind_assoc
    | rewrite run_ret
    | rewrite run_gets
    | rewrite run_modify
    | rewrite run_put_message
    | rewrite run_emit ].

Ltac mrun := repeat (mstep; sim).

(** Bits of [mLastError]. *)

Lemma to_int8_testbit (z n : Z) :
  0 <= n < 8 -> Z.testbit (to_int8 z) n = Z.testbit z n.
Proof.
  intros Hn. unfold to_int8.
  rewrite <- (Z.mod_pow2_bits_low ((z + 128) mod 256 - 128) 8 n) by lia.
  rewrite <- (Z.mod_pow2_bits_low z 8 n) by lia.
  f_equal. change (2 ^ 8) with 256.
  rewrite Zminus_mod, Zmod_mod, <- Zminus_mod. f_equal. lia.
Qed.

Lemma testbit_set_bit (e n : Z) :
  0 <= n < 8 -> Z.testbit (to_int8 (Z.lor e (Z.shiftl 1 n))) n = true.
Proof.
  intros Hn. rewrite to_int8_testbit by lia.
  rewrite Z.lor_spec, Z.shiftl_spec by lia.
  rewrite Z.sub_diag. cbn. apply orb_true_r.
Qed.

Lemma testbit_clear_bit (e n : Z) :
  0 <= n < 8 -> Z.testbit (to_int8 (Z.land e (Z.lnot (Z.shiftl 1 n)))) n = false.
Proof.
  intros Hn. rewrite to_int8_testbit by lia.
  rewrite Z.land_spec, Z.lnot_spec, Z.shiftl_spec by lia.
  rewrite Z.sub_diag. cbn. apply andb_false_r.
Qed.

(** ** Runs of the helpers *)

Section Helpers.

Context `{Defs} `{Settings} `{Platform}.

Lemma run_signalParseError {B} (k : unit -> M B) s :
  bind signalParseError k s
  = let s1 := set_mLastError
                (to_int8 (Z.lor (mLastError s) (Z.shiftl 1 ErrorParse))) s in
    prepend (if mErrorCallback (callbacks s)
             then [ErrorCallback (mLastError s1)] else [])
      (k tt s1).
Proof.
  unfold signalParseError. mrun.
  destruct (mErrorCallback (callbacks s)); unfold when; mrun.
  - reflexivity.
  - rewrite prepend_nil. reflexivity.
Qed.

Lemma run_resetInput {B} (k : unit -> M B) s :
  bind resetInput k s
  = k tt (set_mRunningStatus_RX InvalidType
            (set_mPendingMessageExpectedLength 0
               (set_mPendingMessageIndex 0 s))).
Proof. unfold resetInput. mrun. reflexivity. Qed.

Lemma run_clearParseError {B} (k : unit -> M B) s :
  bind clearParseError k s
  = k tt (set_mLastError
            (to_int8 (Z.land (mLastError s) (Z.lnot (Z.shiftl 1 ErrorParse))))
            s).
Proof. unfold clearParseError. mrun. reflexivity. Qed.

(** [read]'s prelude never fails, polls nothing and leaves the parser's
    variables alone. *)
Lemma read_sensing_frame (s : State) :
  exists s' t,
    read_sensing s = Some (tt, s', t) /\
    mRunningStatus_RX s' = mRunningStatus_RX s /\
    mPendingMessage s' = mPendingMessage s /\
    mPendingMessageIndex s' = mPendingMessageIndex s /\
    mPendingMessageExpectedLength s' = mPendingMessageExpectedLength s /\
    mMessage s' = mMessage s /\
    callbacks s' = callbacks s /\
    mThruActivated s' = mThruActivated s /\
    mThruFilterMode s' = mThruFilterMode s /\
    filter is_poll t = [] /\
    sysex_emissions t = [] /\
    filter is_NoteOnCallback t = [].
Proof.
  unfold read_sensing. mrun.
  destruct (UseSenderActiveSensing && _ && _); unfold when at 1; mrun;
    (destruct (UseReceiverActiveSensing && _ && _); unfold when at 1; mrun;
     [ destruct (mErrorCallback (callbacks s)) eqn:Hcb; unfold when; mrun | ]);
    unfold ret; cbn [prepend app];
    do 2 eexists; (split; [reflexivity|]); simc;
    repeat split; reflexivity.
Qed.

End Helpers.

Lemma run_known {A B} (m : M A) (k : A -> M B) s a s' t :
  m s = Some (a, s', t) -> bind m k s = prepend t (k a s').
Proof. intros Hm. unfold bind, prepend. rewrite Hm. reflexivity. Qed.

(** ** The thru filter *)

Section ThruFilter.

Context `{Defs} `{Settings}.

(** The one-byte system messages the filter does forward. *)
Lemma thruFilter_forwards_realtime (inChannel : Z) (s : State) :
  mThruActivated s = true ->
  mThruFilterMode s <> Thru.Off ->
  In (type (mMessage s))
     [Clock; Start; Stop; Continue; ActiveSensing; SystemReset; TuneRequest] ->
  thruFilter inChannel s = Some (tt, s, [SendRealTime (type (mMessage s))]).
Proof.
  intros Ha Hm Ht. unfold thruFilter. mrun. rewrite Ha.
  destruct (mThruFilterMode s); try congruence;
    cbn in Ht; intuition; match goal with E : _ = type _ |- _ => rewrite <- E end;
    reflexivity.
Qed.

(** C8 (the code at the failing input): with thru activated and a filter
    mode other than Off, a completed Tick message is not forwarded; the
    filter makes no call at all. *)
Theorem thruFilter_drops_Tick (inChannel : Z) (s : State) :
  mThruActivated s = true ->
  mThruFilterMode s <> Thru.Off ->
  type (mMessage s) = Tick ->
  thruFilter inChannel s = Some (tt, s, []).
Proof.
  intros Ha Hm Ht. unfold thruFilter. mrun. rewrite Ha, Ht.
  destruct (mThruFilterMode s); try congruence; reflexivity.
Qed.

(** C9: for a completed channel message (type in NoteOff..PitchBend) with
    thru activated, Full mode resends it unconditionally, SameChannel
    mode resends it if and only if its channel is the listening channel
    or the listening channel is OMNI, and DifferentChannel mode resends
    it if and only if that condition is false.  Resending is the call
    [send(type, data1, data2, channel)]. *)
Theorem thruFilter_channel_message (inChannel : Z) (s : State) :
  mThruActivated s = true ->
  NoteOff <= type (mMessage s) <= PitchBend ->
  let m := mMessage s in
  let resend := [Send (type m) (data1 m) (data2 m) (channel m)] in
  let listened := channel m = inChannel \/ inChannel = MIDI_CHANNEL_OMNI in
  (mThruFilterMode s = Thru.Full ->
     thruFilter inChannel s = Some (tt, s, resend)) /\
  (mThruFilterMode s = Thru.SameChannel ->
     (listened -> thruFilter inChannel s = Some (tt, s, resend)) /\
     (~ listened -> thruFilter inChannel s = Some (tt, s, []))) /\
  (mThruFilterMode s = Thru.DifferentChannel ->
     (~ listened -> thruFilter inChannel s = Some (tt, s, resend)) /\
     (listened -> thruFilter inChannel s = Some (tt, s, []))).
Proof.
  intros Ha [Hlo Hhi] m resend listened.
  assert (Hrange : (type m >=? NoteOff) && (type m <=? PitchBend) = true).
  { apply andb_true_intro. subst m.
    split; [apply Z.geb_le | apply Z.leb_le]; assumption. }
  assert (Hl : listened <->
               (channel m =? inChannel) || (inChannel =? MIDI_CHANNEL_OMNI)
               = true).
  { unfold listened.
    destruct (Z.eqb_spec (channel m) inChannel),
             (Z.eqb_spec inChannel MIDI_CHANNEL_OMNI);
      cbn; intuition congruence. }
  unfold thruFilter. mrun. rewrite Ha. fold m. rewrite Hrange.
  split; [| split]; intros Hmode; rewrite Hmode; cbn; [| split | split].
  - reflexivity.
  - intros Hyes. apply Hl in Hyes. rewrite Hyes. reflexivity.
  - intros Hno.
    destruct (_ || _) eqn:E; [exfalso; apply Hno, Hl; reflexivity | reflexivity].
  - intros Hno.
    destruct (_ || _) eqn:E; [exfalso; apply Hno, Hl; reflexivity | reflexivity].
  - intros Hyes. apply Hl in Hyes. rewrite Hyes. reflexivity.
Qed.

End ThruFilter.

(** ** Reading with the input switched off *)

Section ReadOff.

Context `{Defs} `{Settings} `{Platform}.

(** C10: a call of [read] with a listening channel of OFF (or above)
    returns false, polls the transport neither with [available] nor with
    [read], leaves the receive queue as it is, and leaves the running
    status, the pending buffer, index and expected length, and the
    stored message unchanged. *)
Theorem read_input_off (inChannel : Z) (rx : list Z) (s : State) :
  MIDI_CHANNEL_OFF <= inChannel ->
  exists s' t,
    read inChannel rx s = Some ((false, rx), s', t) /\
    filter is_poll t = [] /\
    mRunningStatus_RX s' = mRunningStatus_RX s /\
    mPendingMessage s' = mPendingMessage s /\
    mPendingMessageIndex s' = mPendingMessageIndex s /\
    mPendingMessageExpectedLength s' = mPendingMessageExpectedLength s /\
    mMessage s' = mMessage s.
Proof.
  intros Hoff.
  destruct (read_sensing_frame s)
    as (s' & t & Hrun & Hrs & Hp & Hi & He & Hm & _ & _ & _ & Hpoll & _).
  exists s', t. unfold read. rewrite (run_known _ _ _ _ _ _ Hrun).
  assert (Hge : (inChannel >=? MIDI_CHANNEL_OFF) = true) by (apply Z.geb_le; lia).
  rewrite Hge. unfold ret. cbn [prepend]. rewrite app_nil_r.
  repeat split; assumption.
Qed.

End ReadOff.

(** ** One byte of a SysEx message *)

Section SysEx.
Context `{Defs} `{Settings} `{Platform}.

Lemma UINT_MOD_eq : UINT_MOD = 4294967296.
Proof. reflexivity. Qed.

Lemma usub_small (a b : Z) : 0 <= a - b < UINT_MOD -> usub a b = a - b.
Proof. intros Hr. unfold usub, uwrap. apply Z.mod_small. exact Hr. Qed.

Lemma uadd_small (a b : Z) : 0 <= a + b < UINT_MOD -> uadd a b = a + b.
Proof. intros Hr. unfold uadd, uwrap. apply Z.mod_small. exact Hr. Qed.

Lemma data_byte_not_status (b : Z) : data_byte b -> (b >=? 0x80) = false.
Proof. unfold data_byte. intros Hb. destruct (Z.geb_spec b 0x80); [lia | reflexivity]. Qed.

Lemma data_byte_not_FD (b : Z) : data_byte b -> (b =? Undefined_FD) = false.
Proof. unfold data_byte, Undefined_FD. intros Hb. apply Z.eqb_neq. lia. Qed.

Lemma sysex_status (p0 : Z) :
  p0 = SystemExclusiveStart \/ p0 = SystemExclusiveEnd ->
  (p0 =? SystemExclusiveStart) || (p0 =? SystemExclusiveEnd) = true.
Proof. intros [-> | ->]; reflexivity. Qed.

Lemma run_launchCallback_sysex {B} (k : unit -> M B) s :
  type (mMessage s) = SystemExclusive ->
  bind launchCallback k s
  = prepend (LaunchCallback (mMessage s)
             :: if mSystemExclusiveCallback (callbacks s)
                then [SystemExclusiveCallback (sysexArray (mMessage s))
                        (getSysExSize (mMessage s))]
                else [])
      (k tt s).
Proof.
  intros Ht. unfold launchCallback. mrun. rewrite Ht. simc.
  destruct (mSystemExclusiveCallback (callbacks s)); unfold when; mrun.
  - rewrite prepend_prepend. reflexivity.
  - reflexivity.
Qed.

Lemma parse_byte_sysex_full (b : Z) (s : State) (p0 : Z) :
  2 <= SysExMaxSize < UINT_MOD ->
  well_formed s ->
  mPendingMessage s !! 0%nat = Some p0 ->
  p0 = SystemExclusiveStart \/ p0 = SystemExclusiveEnd ->
  mPendingMessageExpectedLength s = SysExMaxSize ->
  mPendingMessageIndex s = SysExMaxSize - 1 ->
  data_byte b ->
  let chunk :=
    <[Z.to_nat (SysExMaxSize - 1) := SystemExclusiveStart]>
      (sysexArray (mMessage s)) in
  let flushed :=
    mkMessage 0 SystemExclusive (Z.land SysExMaxSize 0xff)
      (to_byte (Z.shiftr SysExMaxSize 8)) chunk true SysExMaxSize in
  parse_byte b s
  = Some (Return false,
          set_mPendingMessageIndex 2
            (set_mMessage
               (set_sysexArray
                  (<[1%nat := b]> (<[0%nat := SystemExclusiveEnd]> chunk))
                  flushed) s),
          LaunchCallback flushed
          :: if mSystemExclusiveCallback (callbacks s)
             then [SystemExclusiveCallback chunk (getSysExSize flushed)]
             else []).
Proof.
  intros HC [Hlp Hls] Hp0 Hsx Hexp Hidx Hb chunk flushed.
  assert (Hi : Z.to_nat (mPendingMessageIndex s) = Z.to_nat (SysExMaxSize - 1))
    by (rewrite Hidx; reflexivity).
  unfold parse_byte. rewrite (data_byte_not_FD b Hb). mrun.
  assert (Hnz : (mPendingMessageIndex s =? 0) = false)
    by (apply Z.eqb_neq; lia).
  rewrite Hnz. unfold parse_continue.
  rewrite (data_byte_not_status b Hb). simc.
  unfold parse_data. mrun.
  rewrite (run_read_pending 0 p0) by exact Hp0. rewrite (sysex_status p0 Hsx). mrun.
  rewrite run_write_sysex by lia. mrun.
  rewrite Hexp, (usub_small SysExMaxSize 1) by lia.
  assert (Hge : (mPendingMessageIndex s >=? SysExMaxSize - 1) = true)
    by (apply Z.geb_le; lia).
  rewrite Hge.
  erewrite run_read_sysex; cycle 1.
  { sim. rewrite Hi. apply list_lookup_insert_eq. lia. }
  rewrite run_write_sysex by (sim; rewrite length_insert; lia).
  mrun. rewrite run_launchCallback_sysex by reflexivity. sim.
  rewrite run_write_sysex by (sim; rewrite !length_insert; lia).
  rewrite run_write_sysex by (sim; rewrite !length_insert; lia).
  mrun. unfold ret. 
  rewrite Hi, list_insert_insert_eq. fold chunk.
  destruct (mSystemExclusiveCallback (callbacks s)); cbn [prepend app];
    reflexivity.
Qed.


Lemma parse_byte_sysex_store (b : Z) (s : State) (p0 : Z) :
  SysExMaxSize < UINT_MOD ->
  well_formed s ->
  mPendingMessage s !! 0%nat = Some p0 ->
  p0 = SystemExclusiveStart \/ p0 = SystemExclusiveEnd ->
  mPendingMessageExpectedLength s = SysExMaxSize ->
  0 < mPendingMessageIndex s < SysExMaxSize - 1 ->
  data_byte b ->
  parse_byte b s
  = Some (Recurse,
          set_mPendingMessageIndex (mPendingMessageIndex s + 1)
            (set_mMessage
               (set_sysexArray
                  (<[Z.to_nat (mPendingMessageIndex s) := b]>
                     (sysexArray (mMessage s)))
                  (mMessage s)) s),
          []).
Proof.
  intros HC [Hlp Hls] Hp0 Hsx Hexp Hidx Hb.
  unfold parse_byte. rewrite (data_byte_not_FD b Hb). mrun.
  assert (Hnz : (mPendingMessageIndex s =? 0) = false)
    by (apply Z.eqb_neq; lia).
  rewrite Hnz. unfold parse_continue.
  rewrite (data_byte_not_status b Hb). simc.
  unfold parse_data. mrun.
  rewrite (run_read_pending 0 p0) by exact Hp0.
  rewrite (sysex_status p0 Hsx). mrun.
  rewrite run_write_sysex by lia. mrun.
  rewrite Hexp, (usub_small SysExMaxSize 1) by lia.
  assert (Hlt : (mPendingMessageIndex s >=? SysExMaxSize - 1) = false)
    by (destruct (Z.geb_spec (mPendingMessageIndex s) (SysExMaxSize - 1));
        [lia | reflexivity]).
  rewrite Hlt. mrun. rewrite uadd_small by lia. reflexivity.
Qed.

Lemma parse_byte_sysex_end (b : Z) (s : State) (a0 : Z) :
  SysExMaxSize < UINT_MOD ->
  well_formed s ->
  sysexArray (mMessage s) !! 0%nat = Some a0 ->
  a0 = SystemExclusiveStart \/ a0 = SystemExclusiveEnd ->
  0 < mPendingMessageIndex s < SysExMaxSize ->
  b = SystemExclusiveStart \/ b = SystemExclusiveEnd ->
  let size := mPendingMessageIndex s + 1 in
  parse_byte b s
  = Some (Return true,
          set_mRunningStatus_RX InvalidType
            (set_mPendingMessageExpectedLength 0
               (set_mPendingMessageIndex 0
                  (set_mMessage
                     (mkMessage 0 SystemExclusive (Z.land size 0xff)
                        (to_byte (Z.shiftr size 8))
                        (<[Z.to_nat (mPendingMessageIndex s) := b]>
                           (sysexArray (mMessage s)))
                        true size) s))),
          []).
Proof.
  intros HC [Hlp Hls] Ha0 Hsx Hidx Hb size.
  unfold parse_byte.
  assert (Hfd : (b =? Undefined_FD) = false) by (destruct Hb; subst b; reflexivity).
  rewrite Hfd. mrun.
  assert (Hnz : (mPendingMessageIndex s =? 0) = false)
    by (apply Z.eqb_neq; lia).
  rewrite Hnz. unfold parse_continue.
  assert (Hrt : (b >=? 0x80)
                && case_of b [Clock; Start; Tick; Continue; Stop;
                              ActiveSensing; SystemReset] = false)
    by (destruct Hb; subst b; reflexivity).
  assert (Heox : (b >=? 0x80)
                 && case_of b [SystemExclusiveStart; SystemExclusiveEnd] = true)
    by (destruct Hb; subst b; reflexivity).
  rewrite Hrt, Heox.
  rewrite (run_read_sysex 0 a0) by exact Ha0.
  rewrite (sysex_status a0 Hsx). mrun.
  rewrite run_write_sysex by lia. mrun.
  rewrite run_resetInput. mrun.
  rewrite uadd_small by lia. reflexivity.
Qed.

Lemma parse_byte_sysex_begin (s : State) :
  2 <= SysExMaxSize < UINT_MOD ->
  well_formed s ->
  mPendingMessageIndex s = 0 ->
  parse_byte SystemExclusiveStart s
  = Some (Recurse,
          set_mPendingMessageIndex 1
            (set_mMessage
               (set_sysexArray
                  (<[0%nat := SystemExclusiveStart]> (sysexArray (mMessage s)))
                  (mMessage s))
               (set_mRunningStatus_RX InvalidType
                  (set_mPendingMessageExpectedLength SysExMaxSize
                     (set_mPendingMessage
                        (<[0%nat := SystemExclusiveStart]> (mPendingMessage s))
                        s)))),
          []).
Proof.
  intros HC [Hlp Hls] Hidx.
  unfold parse_byte. simc. mrun. rewrite Hidx. simc.
  unfold parse_start.
  rewrite run_write_pending by (sim; lia). mrun.
  rewrite andb_false_r. unfold when. mrun.
  rewrite (run_read_pending 0 SystemExclusiveStart)
    by (sim; apply list_lookup_insert_eq; lia).
  change (getTypeFromStatusByte SystemExclusiveStart)
    with SystemExclusiveStart.
  simc. mrun.
  rewrite run_write_sysex by (sim; lia). mrun.
  unfold parse_start_check. mrun.
  rewrite Hidx, (usub_small SysExMaxSize 1) by lia.
  assert (Hlt : (0 >=? SysExMaxSize - 1) = false)
    by (destruct (Z.geb_spec 0 (SysExMaxSize - 1)); [lia | reflexivity]).
  rewrite Hlt. mrun. reflexivity.
Qed.


(** The size [data1] and [data2] code. *)
Lemma size_decoded (n : Z) :
  0 <= n < 65536 ->
  Z.lor (Z.shiftl (to_byte (Z.shiftr n 8)) 8) (Z.land n 0xff) = n.
Proof.
  intros Hn. unfold to_byte.
  rewrite Z.shiftr_div_pow2 by lia. change (2 ^ 8) with 256.
  rewrite (Z.mod_small (n / 256) 256)
    by (split; [apply Z.div_pos; lia | apply Z.div_lt_upper_bound; lia]).
  change 0xff with (Z.ones 8). rewrite Z.land_ones by lia.
  rewrite Z.shiftl_mul_pow2 by lia. change (2 ^ 8) with 256.
  assert (Hland : Z.land (n / 256 * 2 ^ 8) (n mod 2 ^ 8) = 0).
  { apply Z.bits_inj'. intros k Hk. rewrite Z.land_spec, Z.bits_0.
    destruct (Z.lt_ge_cases k 8).
    - rewrite Z.mul_pow2_bits_low by lia. reflexivity.
    - rewrite Z.mod_pow2_bits_high by lia. apply andb_false_r. }
  change (2 ^ 8) with 256 in Hland.
  rewrite <- Z.lxor_lor, <- Z.add_nocarry_lxor by exact Hland.
  rewrite (Z.div_mod n 256) at 3 by lia. lia.
Qed.

Lemma getSysExSize_coded (n : Z) (a : list Z) (m : Message) :
  0 <= n <= SysExMaxSize -> n < 65536 ->
  data1 m = Z.land n 0xff ->
  data2 m = to_byte (Z.shiftr n 8) ->
  getSysExSize m = n.
Proof.
  intros Hn Hs H1' H2'. unfold getSysExSize. rewrite H1', H2'.
  cbv zeta. rewrite size_decoded by lia.
  destruct (Z.ltb_spec SysExMaxSize n); [lia | reflexivity].
Qed.

Lemma InSysEx_frame (s s' : State) (pre : list Z) :
  mPendingMessage s' = mPendingMessage s ->
  mPendingMessageIndex s' = mPendingMessageIndex s ->
  mPendingMessageExpectedLength s' = mPendingMessageExpectedLength s ->
  mMessage s' = mMessage s ->
  InSysEx s pre -> InSysEx s' pre.
Proof.
  intros Hp Hi He Hm [[Hlp Hls] Hp0 Ha0 Hexp Hidx Hroom Hst].
  split; try split; rewrite ?Hp, ?Hi, ?He, ?Hm; assumption.
Qed.

Lemma InSysEx_begin (s : State) :
  2 <= SysExMaxSize ->
  well_formed s ->
  InSysEx
    (set_mPendingMessageIndex 1
       (set_mMessage
          (set_sysexArray
             (<[0%nat := SystemExclusiveStart]> (sysexArray (mMessage s)))
             (mMessage s))
          (set_mRunningStatus_RX InvalidType
             (set_mPendingMessageExpectedLength SysExMaxSize
                (set_mPendingMessage
                   (<[0%nat := SystemExclusiveStart]> (mPendingMessage s))
                   s))))) [].
Proof.
  intros HC [Hlp Hls].
  split; sim; try reflexivity; try assumption; try lia.
  - split; sim; rewrite length_insert; assumption.
  - left. apply list_lookup_insert_eq. lia.
  - left. apply list_lookup_insert_eq. lia.
Qed.

Lemma InSysEx_store (b : Z) (s : State) (pre : list Z) :
  InSysEx s pre ->
  mPendingMessageIndex s < SysExMaxSize - 1 ->
  InSysEx
    (set_mPendingMessageIndex (mPendingMessageIndex s + 1)
       (set_mMessage
          (set_sysexArray
             (<[Z.to_nat (mPendingMessageIndex s) := b]>
                (sysexArray (mMessage s)))
             (mMessage s)) s)) (pre ++ [b]).
Proof.
  intros [[Hlp Hls] Hp0 Ha0 Hexp Hidx Hroom Hst] Hlt.
  assert (Hn : Z.to_nat (mPendingMessageIndex s) = S (length pre))
    by (rewrite Hidx; lia).
  split; sim; try assumption.
  - split; sim; [assumption | rewrite length_insert; assumption].
  - rewrite Hn, list_lookup_insert_ne by lia. assumption.
  - rewrite length_app. cbn [length]. lia.
  - lia.
  - rewrite Hn, length_app. cbn [length].
    rewrite drop_insert_ge by lia.
    replace (length pre + 1)%nat with (S (length pre)) by lia.
    replace (S (length pre) - 1)%nat with (length pre) by lia.
    rewrite (take_S_r _ _ b).
    + rewrite take_insert_ge by lia. rewrite Hst. reflexivity.
    + apply list_lookup_insert_eq. rewrite length_drop. lia.
Qed.

Lemma InSysEx_full (b : Z) (s : State) (pre : list Z) (m : Message) :
  3 <= SysExMaxSize ->
  InSysEx s pre ->
  mPendingMessageIndex s = SysExMaxSize - 1 ->
  let chunk :=
    <[Z.to_nat (SysExMaxSize - 1) := SystemExclusiveStart]>
      (sysexArray (mMessage s)) in
  InSysEx
    (set_mPendingMessageIndex 2
       (set_mMessage
          (set_sysexArray
             (<[1%nat := b]> (<[0%nat := SystemExclusiveEnd]> chunk)) m) s))
    [b]
  /\ interior (chunk, SysExMaxSize) = pre.
Proof.
  intros HC [[Hlp Hls] Hp0 Ha0 Hexp Hidx Hroom Hst] Hfull chunk.
  assert (Hn : Z.to_nat (SysExMaxSize - 1) = S (length pre)) by lia.
  split; [split|]; sim; try assumption; try reflexivity; try lia.
  - split; sim; [assumption |].
    unfold chunk. rewrite !length_insert. assumption.
  - right. rewrite list_lookup_insert_ne by lia.
    apply list_lookup_insert_eq. unfold chunk. rewrite length_insert. lia.
  - cbn [length]. rewrite drop_insert_ge by lia. cbn [Nat.sub].
    rewrite (take_S_r _ _ b); [reflexivity |].
    apply list_lookup_insert_eq.
    rewrite length_drop, length_insert. unfold chunk.
    rewrite length_insert. lia.
  - unfold interior, chunk. cbn [fst snd].
    rewrite Hn, drop_insert_ge by lia.
    replace (Z.to_nat (SysExMaxSize - 2)) with (length pre) by lia.
    rewrite take_insert_ge by lia. assumption.
Qed.

Lemma InSysEx_end (b : Z) (s : State) (pre : list Z) :
  InSysEx s pre ->
  interior (<[Z.to_nat (mPendingMessageIndex s) := b]>
              (sysexArray (mMessage s)),
            mPendingMessageIndex s + 1) = pre.
Proof.
  intros [[Hlp Hls] Hp0 Ha0 Hexp Hidx Hroom Hst].
  unfold interior. cbn [fst snd].
  replace (Z.to_nat (mPendingMessageIndex s + 1 - 2)) with (length pre) by lia.
  replace (Z.to_nat (mPendingMessageIndex s)) with (S (length pre)) by lia.
  rewrite drop_insert_ge by lia. rewrite take_insert_ge by lia. assumption.
Qed.

End SysEx.

(** ** A SysEx stream through [parse] *)

Section SysExStream.
Context `{Defs} `{Settings} `{Platform}.

Lemma parse_cons (b : Z) (rx' : list Z) (s : State) o s1 t1 :
  parse_byte b
    (set_mLastError
       (to_int8 (Z.land (mLastError s) (Z.lnot (Z.shiftl 1 ErrorParse)))) s)
  = Some (o, s1, t1) ->
  parse (b :: rx') s
  = prepend ([TransportAvailable; TransportRead b] ++ t1)
      (match o with
       | Return r => Some ((r, rx'), s1, [])
       | Recurse =>
           if Use1ByteParsing then Some ((false, rx'), s1, [])
           else parse rx' s1
       end).
Proof.
  intros Hb. cbn [parse]. mrun. rewrite run_clearParseError. mrun.
  rewrite (run_known _ _ _ _ _ _ Hb), !prepend_prepend.
  destruct o as [r|]; [| destruct Use1ByteParsing]; reflexivity.
Qed.

Lemma sysex_emissions_app (t1 t2 : list Event) :
  sysex_emissions (t1 ++ t2) = sysex_emissions t1 ++ sysex_emissions t2.
Proof. apply omap_app. Qed.

Lemma InSysEx_cleared (s : State) (pre : list Z) (e : Z) :
  InSysEx s pre -> InSysEx (set_mLastError e s) pre.
Proof. apply InSysEx_frame; reflexivity. Qed.

Lemma parse_sysex_end (s : State) (pre : list Z) :
  3 <= SysExMaxSize < UINT_MOD ->
  InSysEx s pre ->
  exists s',
    parse [SystemExclusiveEnd] s
    = Some ((true, []), s',
            [TransportAvailable; TransportRead SystemExclusiveEnd]) /\
    SysExDone s' pre.
Proof.
  intros HC Hinv.
  pose proof Hinv as [Hwf Hp0 Ha0 Hexp Hidx Hroom Hst].
  assert (Ha : exists a0, sysexArray (mMessage s) !! 0%nat = Some a0 /\
                 (a0 = SystemExclusiveStart \/ a0 = SystemExclusiveEnd)).
  { destruct Ha0 as [Ha0 | Ha0]; eexists; (split; [exact Ha0 | tauto]). }
  destruct Ha as (a0 & Ha0' & Hsx).
  pose proof (parse_byte_sysex_end SystemExclusiveEnd
                (set_mLastError
                   (to_int8 (Z.land (mLastError s)
                               (Z.lnot (Z.shiftl 1 ErrorParse)))) s) a0
                (proj2 HC) Hwf Ha0' Hsx
                ltac:(sim; lia) ltac:(right; reflexivity)) as Hrun.
  cbv zeta in Hrun.
  rewrite (parse_cons _ _ _ _ _ _ Hrun). cbn [prepend app].
  eexists. split; [reflexivity |].
  unfold SysExDone. sim.
  split; [reflexivity |]. split; [lia |].
  apply (InSysEx_end _ _ _ Hinv).
Qed.

Lemma parse_sysex_stream (ds : list Z) :
  3 <= SysExMaxSize < UINT_MOD ->
  Forall data_byte ds ->
  forall (s : State) (pre : list Z),
    InSysEx s pre ->
    exists r s' t,
      parse (ds ++ [SystemExclusiveEnd]) s = Some (r, s', t) /\
      parse_sysex_post pre ds (ds ++ [SystemExclusiveEnd]) r s' t.
Proof.
  intros HC Hds. induction Hds as [|d ds Hd Hds IH]; intros s pre Hinv.
  - (* the terminator *)
    destruct (parse_sysex_end s pre HC Hinv) as (s' & Hparse & Hdone).
    cbn [app]. rewrite Hparse. do 3 eexists. split; [reflexivity |].
    split; [cbn; lia |]. split; [cbn; constructor |]. right.
    rewrite app_nil_r. repeat split; try reflexivity; apply Hdone.
  - (* a data byte *)
    pose proof Hinv as [Hwf Hp0 Ha0 Hexp Hidx Hroom Hst].
    pose proof (InSysEx_cleared s pre
                  (to_int8 (Z.land (mLastError s)
                              (Z.lnot (Z.shiftl 1 ErrorParse)))) Hinv)
      as Hinvc.
    assert (Hp : exists p0, mPendingMessage s !! 0%nat = Some p0 /\
                   (p0 = SystemExclusiveStart \/ p0 = SystemExclusiveEnd)).
    { destruct Hp0 as [Hp0 | Hp0]; eexists; (split; [exact Hp0 | tauto]). }
    destruct Hp as (p0 & Hp0' & Hsx).
    destruct (Z.eq_dec (mPendingMessageIndex s) (SysExMaxSize - 1))
      as [Hfull | Hnot].
    + (* the buffer is full *)
      assert (HC2 : 2 <= SysExMaxSize < UINT_MOD) by lia.
      pose proof (parse_byte_sysex_full d _ p0 HC2
                    (sx_wf _ _ Hinvc) Hp0' Hsx Hexp Hfull Hd) as Hrun.
      cbv zeta in Hrun. simh Hrun.
      cbn [app]. rewrite (parse_cons _ _ _ _ _ _ Hrun). cbn [prepend app].
      do 3 eexists. split; [reflexivity |].
      destruct (InSysEx_full d _ pre
                  (mkMessage 0 SystemExclusive (Z.land SysExMaxSize 0xff)
                     (to_byte (Z.shiftr SysExMaxSize 8))
                     (<[Z.to_nat (SysExMaxSize - 1) := SystemExclusiveStart]>
                        (sysexArray (mMessage s)))
                     true SysExMaxSize)
                  (proj1 HC) Hinvc Hfull) as [Hinv' Hint].
      cbv zeta in Hinv', Hint. simh Hinv'. simh Hint.
      match goal with
      | |- parse_sysex_post _ _ _ _ _ ?T =>
          assert (Hem : sysex_emissions T
                        = [(<[Z.to_nat (SysExMaxSize - 1)
                              := SystemExclusiveStart]>
                              (sysexArray (mMessage s)),
                            SysExMaxSize)])
      end.
      { destruct (mSystemExclusiveCallback (callbacks s)); reflexivity. }
      unfold parse_sysex_post, sysex_pending. rewrite Hem.
      split; [cbn; lia |]. split; [repeat constructor; cbn; lia |].
      left. split; [reflexivity |].
      exists [d], ds. split; [reflexivity |]. split; [exact Hds |].
      split; [exact Hinv' |].
      cbn [map concat]. rewrite Hint, app_nil_r. reflexivity.
    + (* there is room *)
      pose proof (parse_byte_sysex_store d _ p0 (proj2 HC)
                    (sx_wf _ _ Hinvc) Hp0' Hsx Hexp ltac:(sim; lia) Hd)
        as Hrun.
      pose proof (InSysEx_store d _ pre Hinvc ltac:(sim; lia)) as Hinv'.
      simh Hrun. simh Hinv'.
      cbn [app]. rewrite (parse_cons _ _ _ _ _ _ Hrun).
      destruct Use1ByteParsing.
      * cbn [prepend app]. do 3 eexists. split; [reflexivity |].
        split; [cbn; lia |]. split; [cbn; constructor |].
        left. split; [reflexivity |].
        exists (pre ++ [d]), ds. split; [reflexivity |]. split; [exact Hds |].
        split; [exact Hinv' |]. cbn. rewrite <- app_assoc. reflexivity.
      * destruct (IH _ _ Hinv') as (r & s' & t & Hparse & Hlen & Hsz & Hpost).
        rewrite Hparse. cbn [prepend app]. do 3 eexists.
        split; [reflexivity |].
        split; [cbn [length]; lia |].
        split; [exact Hsz |].
        destruct Hpost as [[Hr (pre' & ds' & Hrest & Hds' & Hi' & Hsum)]
                          | (Hr & Hrest & Hem & Hdone)].
        -- left. split; [exact Hr |]. exists pre', ds'.
           repeat (split; [assumption |]).
           etransitivity; [exact Hsum |].
           rewrite <- app_assoc. reflexivity.
        -- right. repeat (split; [assumption |]).
           rewrite <- app_assoc in Hdone. exact Hdone.
Qed.

Lemma parse_sysex_begin (ds : list Z) (s : State) :
  3 <= SysExMaxSize < UINT_MOD ->
  Forall data_byte ds ->
  well_formed s ->
  mPendingMessageIndex s = 0 ->
  exists r s' t,
    parse (SystemExclusiveStart :: ds ++ [SystemExclusiveEnd]) s
    = Some (r, s', t) /\
    parse_sysex_post [] ds
      (SystemExclusiveStart :: ds ++ [SystemExclusiveEnd]) r s' t.
Proof.
  intros HC Hds Hwf Hidx.
  assert (HC2 : 2 <= SysExMaxSize) by lia.
  assert (HC3 : 2 <= SysExMaxSize < UINT_MOD) by lia.
  pose proof (parse_byte_sysex_begin
                (set_mLastError
                   (to_int8 (Z.land (mLastError s)
                               (Z.lnot (Z.shiftl 1 ErrorParse)))) s)
                HC3 Hwf Hidx) as Hrun.
  pose proof (InSysEx_begin
                (set_mLastError
                   (to_int8 (Z.land (mLastError s)
                               (Z.lnot (Z.shiftl 1 ErrorParse)))) s)
                HC2 Hwf) as Hinv.
  rewrite (parse_cons _ _ _ _ _ _ Hrun).
  destruct Use1ByteParsing.
  - cbn [prepend app]. do 3 eexists. split; [reflexivity |].
    split; [cbn; lia |]. split; [cbn; constructor |].
    left. split; [reflexivity |].
    exists [], ds. split; [reflexivity |]. split; [exact Hds |].
    split; [exact Hinv |]. reflexivity.
  - destruct (parse_sysex_stream ds HC Hds _ _ Hinv)
      as (r & s' & t & Hparse & Hlen & Hsz & Hpost).
    rewrite Hparse. cbn [prepend app]. do 3 eexists.
    split; [reflexivity |].
    split; [cbn [length]; lia |].
    split; [exact Hsz |]. exact Hpost.
Qed.

End SysExStream.

(** ** The steps of [read] after [parse] *)

Section ReadSteps.
Context `{Defs} `{Settings} `{Platform}.

Lemma sysex_emissions_cons (m : Message) (t : list Event) :
  type m = SystemExclusive ->
  sysex_emissions (LaunchCallback m :: t)
  = (sysexArray m, len m) :: sysex_emissions t.
Proof.
  intros Hty. unfold sysex_emissions. cbn. rewrite Hty. reflexivity.
Qed.

Lemma sysex_emissions_handler (a : list Z) (n : Z) (t : list Event) :
  sysex_emissions (SystemExclusiveCallback a n :: t) = sysex_emissions t.
Proof. reflexivity. Qed.

Lemma read_received_frame (s : State) :
  exists s' t,
    read_received s = Some (tt, s', t) /\
    mRunningStatus_RX s' = mRunningStatus_RX s /\
    mPendingMessage s' = mPendingMessage s /\
    mPendingMessageIndex s' = mPendingMessageIndex s /\
    mPendingMessageExpectedLength s' = mPendingMessageExpectedLength s /\
    mMessage s' = mMessage s /\
    callbacks s' = callbacks s /\
    mThruActivated s' = mThruActivated s /\
    mThruFilterMode s' = mThruFilterMode s /\
    filter is_poll t = [] /\
    sysex_emissions t = [] /\
    filter is_NoteOnCallback t = [].
Proof.
  unfold read_received. mrun.
  destruct UseReceiverActiveSensing; cbn [andb].
  - destruct (type (mMessage s) =? ActiveSensing); unfold when at 1; mrun.
    + destruct (negb _); unfold when at 1; mrun;
        [ destruct (mErrorCallback (callbacks s)); unfold when at 1; mrun | ];
        unfold when, ret; mrun; cbn [prepend app];
        do 2 eexists; (split; [reflexivity |]); simc;
        repeat split; reflexivity.
    + destruct (mReceiverActiveSensingActivated s); unfold when, ret; mrun;
        do 2 eexists; (split; [reflexivity |]); simc;
        repeat split; reflexivity.
  - unfold when, ret. mrun.
    do 2 eexists. (split; [reflexivity |]). simc. repeat split; reflexivity.
Qed.

Lemma thruFilter_total (inChannel : Z) (s : State) :
  exists t,
    thruFilter inChannel s = Some (tt, s, t) /\
    filter is_poll t = [] /\
    sysex_emissions t = [] /\
    filter is_NoteOnCallback t = [].
Proof.
  unfold thruFilter. mrun.
  destruct (negb _ || _); [eexists; split; [reflexivity | repeat split] |].
  destruct (_ && _).
  - destruct (mThruFilterMode s); try destruct (_ || _); cbn;
      eexists; (split; [reflexivity | repeat split]).
  - repeat (match goal with
            | |- context [if ?c then _ else _] => destruct c
            end);
      eexists; (split; [reflexivity | repeat split]).
Qed.

Lemma inputFilter_system (inChannel : Z) (s : State) :
  (type (mMessage s) >=? NoteOff) && (type (mMessage s) <=? PitchBend) = false ->
  inputFilter inChannel s = Some (true, s, []).
Proof. intros Hty. unfold inputFilter. mrun. rewrite Hty. reflexivity. Qed.

Lemma handleNullVelocity_other (s : State) :
  type (mMessage s) <> NoteOn ->
  handleNullVelocityNoteOnAsNoteOff s = Some (tt, s, []).
Proof.
  intros Hty. unfold handleNullVelocityNoteOnAsNoteOff. mrun.
  apply Z.eqb_neq in Hty. rewrite Hty, andb_false_r. reflexivity.
Qed.

(** [read] once the prelude and [parse] have run. *)
Lemma read_of_parse (inChannel : Z) (rx : list Z) (s s1 s2 : State) t0 r t :
  inChannel < MIDI_CHANNEL_OFF ->
  read_sensing s = Some (tt, s1, t0) ->
  parse rx s1 = Some (r, s2, t) ->
  read inChannel rx s
  = prepend (t0 ++ t)
      (if fst r then
         (read_received ;;
          handleNullVelocityNoteOnAsNoteOff ;;
          channelMatch <- inputFilter inChannel ;;
          when channelMatch launchCallback ;;
          thruFilter inChannel ;;
          ret (channelMatch, snd r)) s2
       else Some ((false, snd r), s2, [])).
Proof.
  intros Hon Hs Hp. unfold read.
  rewrite (run_known _ _ _ _ _ _ Hs).
  assert (Hge : (inChannel >=? MIDI_CHANNEL_OFF) = false)
    by (destruct (Z.geb_spec inChannel MIDI_CHANNEL_OFF); [lia | reflexivity]).
  rewrite Hge, (run_known _ _ _ _ _ _ Hp), prepend_prepend.
  destruct (fst r); reflexivity.
Qed.

(** One call of [read] on a SysEx stream, given what [parse] does. *)
Lemma read_sysex_finish (inChannel : Z) (pre ds rx : list Z)
    (s s1 s2 : State) t0 r t :
  inChannel < MIDI_CHANNEL_OFF ->
  read_sensing s = Some (tt, s1, t0) ->
  sysex_emissions t0 = [] ->
  parse rx s1 = Some (r, s2, t) ->
  parse_sysex_post pre ds rx r s2 t ->
  exists r' s' t',
    read inChannel rx s = Some (r', s', t') /\
    read_sysex_post pre ds rx r' s' t'.
Proof.
  intros Hon Hs Ht0 Hp (Hlen & Hsz & Hpost).
  rewrite (read_of_parse _ _ _ _ _ _ _ _ Hon Hs Hp).
  destruct Hpost as [[Hr Hpend] | (Hr & Hrest & Hem & Hty & Hsize & Hint)];
    rewrite Hr.
  - cbn [prepend]. do 3 eexists. split; [reflexivity |].
    rewrite app_nil_r.
    assert (Hemt : sysex_emissions (t0 ++ t) = sysex_emissions t)
      by (rewrite sysex_emissions_app, Ht0; reflexivity).
    split; [exact Hlen |]. split; [rewrite Hemt; exact Hsz |].
    left. destruct Hpend as (pre' & ds' & Hrest & Hds' & Hi' & Hsum).
    exists pre', ds'. rewrite Hemt. cbn [fst snd].
    split; [exact Hrest |]. split; [exact Hds' |]. split; [exact Hi' |].
    exact Hsum.
  - destruct (read_received_frame s2)
      as (s3 & t3 & Hrr & _ & _ & _ & _ & Hm3 & Hc3 & _ & _ & _ & Hem3 & _).
    rewrite (run_known _ _ _ _ _ _ Hrr).
    assert (Hty3 : type (mMessage s3) = SystemExclusive)
      by (rewrite Hm3; exact Hty).
    rewrite (run_known _ _ _ _ _ _
               (handleNullVelocity_other s3 ltac:(rewrite Hty3; discriminate))).
    rewrite (run_known _ _ _ _ _ _
               (inputFilter_system inChannel s3 ltac:(rewrite Hty3; reflexivity))).
    change (when true launchCallback) with launchCallback.
    rewrite run_launchCallback_sysex by exact Hty3.
    cbv beta.
    destruct (thruFilter_total inChannel s3) as (t4 & Hthru & _ & Hem4 & _).
    rewrite (run_known _ _ _ _ _ _ Hthru). unfold ret.
    cbn [prepend app]. do 3 eexists. split; [reflexivity |].
    unfold read_sysex_post. cbn [fst snd]. rewrite Hrest in *.
    match goal with
    | |- context [sysex_emissions ?T] =>
        assert (Hemt :
          sysex_emissions T
          = [(sysexArray (mMessage s2), len (mMessage s2))])
    end.
    { rewrite ?app_nil_r, !sysex_emissions_app.
      rewrite sysex_emissions_cons by exact Hty3.
      rewrite Ht0, Hem, Hem3, Hm3.
      destruct (mSystemExclusiveCallback (callbacks s3));
        rewrite ?sysex_emissions_handler, ?sysex_emissions_app, Hem4;
        reflexivity. }
    rewrite Hemt.
    split; [exact Hlen |]. split; [repeat constructor; exact Hsize |].
    right. split; [reflexivity |]. cbn. rewrite app_nil_r. exact Hint.
Qed.

End ReadSteps.

(** ** A SysEx stream through [read] *)

Section SysExPoll.
Context `{Defs} `{Settings} `{Platform}.

Lemma poll_loop_step (fuel : nat) (inChannel : Z) (rx : list Z) (s : State) :
  rx <> [] ->
  poll_loop (S fuel) inChannel rx s
  = (r <- read inChannel rx ;; poll_loop fuel inChannel (snd r)) s.
Proof. destruct rx; [congruence | reflexivity]. Qed.

Lemma poll_loop_nil (fuel : nat) (inChannel : Z) (s : State) :
  poll_loop fuel inChannel [] s = Some ([], s, []).
Proof. destruct fuel; reflexivity. Qed.

Lemma read_sysex_stream (inChannel : Z) (pre ds : list Z) (s : State) :
  3 <= SysExMaxSize < UINT_MOD ->
  inChannel < MIDI_CHANNEL_OFF ->
  Forall data_byte ds ->
  InSysEx s pre ->
  exists r s' t,
    read inChannel (ds ++ [SystemExclusiveEnd]) s = Some (r, s', t) /\
    read_sysex_post pre ds (ds ++ [SystemExclusiveEnd]) r s' t.
Proof.
  intros HC Hon Hds Hinv.
  destruct (read_sensing_frame s)
    as (s1 & t0 & Hs & _ & Hp & Hi & He & Hm & Hc & _ & _ & _ & Hem & _).
  pose proof (InSysEx_frame s s1 pre Hp Hi He Hm Hinv) as Hinv1.
  destruct (parse_sysex_stream ds HC Hds s1 pre Hinv1)
    as (r & s2 & t & Hparse & Hpost).
  exact (read_sysex_finish _ _ _ _ _ _ _ _ _ _ Hon Hs Hem Hparse Hpost).
Qed.

Lemma read_sysex_begin (inChannel : Z) (ds : list Z) (s : State) :
  3 <= SysExMaxSize < UINT_MOD ->
  inChannel < MIDI_CHANNEL_OFF ->
  Forall data_byte ds ->
  well_formed s ->
  mPendingMessageIndex s = 0 ->
  exists r s' t,
    read inChannel (SystemExclusiveStart :: ds ++ [SystemExclusiveEnd]) s
    = Some (r, s', t) /\
    read_sysex_post [] ds
      (SystemExclusiveStart :: ds ++ [SystemExclusiveEnd]) r s' t.
Proof.
  intros HC Hon Hds [Hlp Hls] Hidx.
  destruct (read_sensing_frame s)
    as (s1 & t0 & Hs & _ & Hp & Hi & He & Hm & Hc & _ & _ & _ & Hem & _).
  assert (Hwf1 : well_formed s1) by (split; rewrite ?Hp, ?Hm; assumption).
  destruct (parse_sysex_begin ds s1 HC Hds Hwf1
              ltac:(rewrite Hi; exact Hidx))
    as (r & s2 & t & Hparse & Hpost).
  exact (read_sysex_finish _ _ _ _ _ _ _ _ _ _ Hon Hs Hem Hparse Hpost).
Qed.

(** Polling on after a call of [read] that left the stream as
    [read_sysex_post] says. *)
Lemma poll_sysex_continue (inChannel : Z) :
  3 <= SysExMaxSize < UINT_MOD ->
  inChannel < MIDI_CHANNEL_OFF ->
  forall (fuel : nat) (pre ds rx : list Z) r (s : State) t,
    read_sysex_post pre ds rx r s t ->
    (length rx <= S fuel)%nat ->
    exists s' t',
      poll_loop fuel inChannel (snd r) s = Some ([], s', t') /\
      Forall (fun e => snd e <= SysExMaxSize) (sysex_emissions (t ++ t')) /\
      concat (map interior (sysex_emissions (t ++ t'))) = pre ++ ds.
Proof.
  intros HC Hon. induction fuel as [|fuel IH];
    intros pre ds rx r s t (Hlen & Hsz & Hpost) Hfuel.
  - (* no call left: the queue is empty *)
    destruct Hpost as [(pre' & ds' & Hrest & _) | [Hrest Hsum]].
    + rewrite Hrest, length_app in Hlen. cbn in Hlen. lia.
    + rewrite Hrest. exists s, []. rewrite app_nil_r.
      split; [reflexivity |]. split; assumption.
  - destruct Hpost as [(pre' & ds' & Hrest & Hds' & Hinv & Hsum) | [Hrest Hsum]].
    + rewrite Hrest.
      rewrite poll_loop_step by (destruct ds'; discriminate).
      destruct (read_sysex_stream inChannel pre' ds' s HC Hon Hds' Hinv)
        as (r1 & s1 & t1 & Hread & Hpost1).
      rewrite (run_known _ _ _ _ _ _ Hread).
      destruct (IH pre' ds' _ r1 s1 t1 Hpost1
                  ltac:(rewrite <- Hrest; lia))
        as (s' & t' & Hpoll & Hsz' & Hsum').
      rewrite Hpoll. cbn [prepend]. exists s', (t1 ++ t').
      split; [reflexivity |].
      rewrite !sysex_emissions_app in *. split.
      * apply Forall_app. split; assumption.
      * rewrite map_app, concat_app, Hsum'. exact Hsum.
    + rewrite Hrest, poll_loop_nil. exists s, []. rewrite app_nil_r.
      split; [reflexivity |]. split; assumption.
Qed.

Lemma interior_length (e : list Z * Z) :
  snd e <= SysExMaxSize -> Z.of_nat (length (interior e)) <= Z.max 0 (SysExMaxSize - 2).
Proof.
  intros He. unfold interior. rewrite length_take. lia.
Qed.

Lemma interior_in_payload (e : list Z * Z) (x : Z) :
  In x (interior e) -> In x (payload e).
Proof.
  unfold interior, payload. rewrite <- !list_elem_of_In.
  rewrite !elem_of_take. intros (i & Hi & Hlt).
  rewrite lookup_drop in Hi. exists (1 + i)%nat. split; [exact Hi | lia].
Qed.

Lemma concat_interior_length (chunks : list (list Z * Z)) :
  Forall (fun e => snd e <= SysExMaxSize) chunks ->
  Z.of_nat (length (concat (map interior chunks)))
  <= Z.of_nat (length chunks) * Z.max 0 (SysExMaxSize - 2).
Proof.
  induction 1 as [|e chunks He Hall IH]; cbn [map concat length]; [lia |].
  rewrite length_app. pose proof (interior_length e He). lia.
Qed.

(** What the dispatcher is entered with, whether or not a handler is
    attached: with a buffer of capacity [C >= 3], reading 0xF0, then
    [C + 2] data bytes, then 0xF7 from an idle parser enters
    [launchCallback] with at least two SystemExclusive messages, each of
    logical length at most [C], and each of the [C + 2] data bytes
    occurs in the concatenation of their payloads; the payloads without
    their framing bytes are exactly the data bytes, in order. *)
Lemma sysex_overflow_is_chunked (inChannel : Z) (ds : list Z) (s : State) :
  3 <= SysExMaxSize < UINT_MOD ->
  inChannel < MIDI_CHANNEL_OFF ->
  well_formed s ->
  mPendingMessageIndex s = 0 ->
  Z.of_nat (length ds) = SysExMaxSize + 2 ->
  Forall data_byte ds ->
  exists s' t,
    poll inChannel (SystemExclusiveStart :: ds ++ [SystemExclusiveEnd]) s
    = Some ([], s', t) /\
    (2 <= length (sysex_emissions t))%nat /\
    Forall (fun e => snd e <= SysExMaxSize) (sysex_emissions t) /\
    (forall d, In d ds -> In d (concat (map payload (sysex_emissions t)))) /\
    concat (map interior (sysex_emissions t)) = ds.
Proof.
  intros HC Hon Hwf Hidx Hlen Hds.
  unfold poll. cbn [length]. rewrite poll_loop_step by discriminate.
  destruct (read_sysex_begin inChannel ds s HC Hon Hds Hwf Hidx)
    as (r1 & s1 & t1 & Hread & Hpost1).
  rewrite (run_known _ _ _ _ _ _ Hread).
  destruct (poll_sysex_continue inChannel HC Hon
              (length (ds ++ [SystemExclusiveEnd])) _ _ _ _ _ _ Hpost1
              (le_n _))
    as (s' & t' & Hpoll & Hsz & Hsum).
  rewrite Hpoll. cbn [prepend]. exists s', (t1 ++ t').
  split; [reflexivity |]. cbn [app] in Hsum.
  split; [| split; [exact Hsz | split; [| exact Hsum]]].
  - pose proof (concat_interior_length _ Hsz) as Hbound.
    rewrite Hsum in Hbound. nia.
  - intros d Hd. rewrite <- Hsum in Hd.
    apply in_concat in Hd. destruct Hd as (l & Hl & Hdl).
    apply in_map_iff in Hl. destruct Hl as (e & <- & He).
    apply in_concat. exists (payload e). split.
    + apply in_map. exact He.
    + apply interior_in_payload. exact Hdl.
Qed.

End SysExPoll.


(** ** Errors and the full buffer *)

Section ParseErrors.
Context `{Defs} `{Settings} `{Platform}.

(** C3, as amended: when a data byte fills the last cell of the SysEx
    buffer, that call of [parse] stores a valid SystemExclusive message
    of logical length [SysExMaxSize] whose last byte is 0xF0, hands it
    to the dispatcher itself (which calls the SysEx handler when one is
    attached), re-primes the buffer with 0xF7 and the byte just received
    at index 2, and returns false. *)
Theorem parse_sysex_buffer_full (b : Z) (rx' : list Z) (s : State) :
  2 <= SysExMaxSize < UINT_MOD ->
  well_formed s ->
  mPendingMessage s !! 0%nat = Some SystemExclusiveStart \/
  mPendingMessage s !! 0%nat = Some SystemExclusiveEnd ->
  mPendingMessageExpectedLength s = SysExMaxSize ->
  mPendingMessageIndex s = SysExMaxSize - 1 ->
  data_byte b ->
  let chunk :=
    <[Z.to_nat (SysExMaxSize - 1) := SystemExclusiveStart]>
      (sysexArray (mMessage s)) in
  let flushed :=
    mkMessage 0 SystemExclusive (Z.land SysExMaxSize 0xff)
      (to_byte (Z.shiftr SysExMaxSize 8)) chunk true SysExMaxSize in
  exists s',
    parse (b :: rx') s
    = Some ((false, rx'), s',
            [TransportAvailable; TransportRead b; LaunchCallback flushed]
            ++ (if mSystemExclusiveCallback (callbacks s)
                then [SystemExclusiveCallback chunk (getSysExSize flushed)]
                else []))
    /\ (SysExMaxSize < 65536 -> getSysExSize flushed = SysExMaxSize)
    /\ mMessage s'
       = set_sysexArray
           (<[1%nat := b]> (<[0%nat := SystemExclusiveEnd]> chunk)) flushed
    /\ mPendingMessageIndex s' = 2
    /\ mPendingMessageExpectedLength s' = SysExMaxSize
    /\ mPendingMessage s' = mPendingMessage s
    /\ mRunningStatus_RX s' = mRunningStatus_RX s.
Proof.
  intros HC Hwf Hp0 Hexp Hidx Hb chunk flushed.
  assert (Hp : exists p0, mPendingMessage s !! 0%nat = Some p0 /\
                 (p0 = SystemExclusiveStart \/ p0 = SystemExclusiveEnd)).
  { destruct Hp0 as [Hp0 | Hp0]; eexists; (split; [exact Hp0 | tauto]). }
  destruct Hp as (p0 & Hp0' & Hsx).
  pose proof (parse_byte_sysex_full b
                (set_mLastError
                   (to_int8 (Z.land (mLastError s)
                               (Z.lnot (Z.shiftl 1 ErrorParse)))) s) p0
                HC Hwf Hp0' Hsx Hexp Hidx Hb)
    as Hrun.
  cbv zeta in Hrun. simh Hrun.
  rewrite (parse_cons _ _ _ _ _ _ Hrun). cbn [prepend].
  eexists. split; [rewrite app_nil_r; reflexivity |]. sim.
  split.
  - intros Hsmall. apply (getSysExSize_coded SysExMaxSize []);
      try reflexivity; lia.
  - repeat split; try reflexivity; assumption.
Qed.

(** C6, as amended: in a state with no message in progress and no
    channel-message running status, [parse] produces no message for the
    undefined status byte 0xF4, and treats it as a parse error: the
    parse-error bit is set, the error handler is called when one is
    attached, and the input state is reset. *)
Theorem parse_F4_is_parse_error (rx' : list Z) (s : State) :
  0 <= ErrorParse < 8 ->
  length (mPendingMessage s) = 3%nat ->
  mPendingMessageIndex s = 0 ->
  isChannelMessage (getTypeFromStatusByte (mRunningStatus_RX s)) = false ->
  exists s' t,
    parse (Undefined_F4 :: rx') s = Some ((false, rx'), s', t) /\
    t = [TransportAvailable; TransportRead Undefined_F4]
        ++ (if mErrorCallback (callbacks s)
            then [ErrorCallback (mLastError s')] else []) /\
    Z.testbit (mLastError s') ErrorParse = true /\
    mPendingMessageIndex s' = 0 /\
    mPendingMessageExpectedLength s' = 0 /\
    mRunningStatus_RX s' = InvalidType /\
    mMessage s' = mMessage s.
Proof.
  intros He Hlen Hidx Hrs.
  destruct (mPendingMessage s) as [|p0 [|p1 [|p2 [|]]]] eqn:Hp; try discriminate.
  cbn [parse]. unfold clearParseError, parse_byte. mrun.
  rewrite Hidx. sim. unfold parse_start. mrun.
  rewrite run_write_pending by (sim; rewrite Hp; sim; lia). mrun.
  rewrite Hrs. unfold when. simc. mrun.
  erewrite run_read_pending by (simc; rewrite Hp; reflexivity).
  change (getTypeFromStatusByte Undefined_F4) with InvalidType. simc.
  mrun. rewrite run_signalParseError. sim. mrun. rewrite run_resetInput. mrun.
  destruct (mErrorCallback (callbacks s)); unfold ret; cbn [prepend app];
    (eexists; eexists; split; [reflexivity|]; simc; repeat split;
     apply testbit_set_bit; lia).
Qed.

(** The status bytes that are not stored as data while a multi-byte
    non-SysEx message is in progress, the real-time bytes apart:
    (a) the undefined status byte 0xFD is discarded before the parser
    looks at its state: the parse-error bit is clear afterwards, no
    handler is called, the pending message, the running status and the
    stored message are as before, and the call returns false (one-byte
    parsing) or goes on with the next byte; (b) a 0xF0 or 0xF7 byte met
    while the SysEx buffer does not start with 0xF0 or 0xF7 takes the
    parse-error path: the parse-error bit is set, the error handler is
    called when one is attached, the pending message and the running
    status are reset, and no message is produced. *)
Lemma parse_midstream_status (b : Z) (rx' : list Z) (s : State) (p0 a0 : Z) :
  0 <= ErrorParse < 8 ->
  0 < mPendingMessageIndex s ->
  mPendingMessage s !! 0%nat = Some p0 ->
  p0 <> SystemExclusiveStart ->
  p0 <> SystemExclusiveEnd ->
  (exists s1,
     parse (Undefined_FD :: rx') s
     = prepend [TransportAvailable; TransportRead Undefined_FD]
         (if Use1ByteParsing then Some ((false, rx'), s1, [])
          else parse rx' s1) /\
     Z.testbit (mLastError s1) ErrorParse = false /\
     mPendingMessage s1 = mPendingMessage s /\
     mPendingMessageIndex s1 = mPendingMessageIndex s /\
     mPendingMessageExpectedLength s1 = mPendingMessageExpectedLength s /\
     mRunningStatus_RX s1 = mRunningStatus_RX s /\
     mMessage s1 = mMessage s) /\
  (b = SystemExclusiveStart \/ b = SystemExclusiveEnd ->
   sysexArray (mMessage s) !! 0%nat = Some a0 ->
   a0 <> SystemExclusiveStart ->
   a0 <> SystemExclusiveEnd ->
   exists s' t,
     parse (b :: rx') s = Some ((false, rx'), s', t) /\
     t = [TransportAvailable; TransportRead b]
         ++ (if mErrorCallback (callbacks s)
             then [ErrorCallback (mLastError s')] else []) /\
     Z.testbit (mLastError s') ErrorParse = true /\
     mPendingMessageIndex s' = 0 /\
     mPendingMessageExpectedLength s' = 0 /\
     mRunningStatus_RX s' = InvalidType /\
     mMessage s' = mMessage s).
Proof.
  intros He Hidx Hp0 Hns Hne. split.
  - eexists. split.
    + erewrite parse_cons by reflexivity.
      destruct Use1ByteParsing; reflexivity.
    + sim. split; [apply testbit_clear_bit; exact He |].
      repeat split; reflexivity.
  - intros Hb Ha0 Has Hae.
    assert (Hrun :
      parse_byte b
        (set_mLastError
           (to_int8 (Z.land (mLastError s) (Z.lnot (Z.shiftl 1 ErrorParse))))
           s)
      = Some (Return false,
              set_mRunningStatus_RX InvalidType
                (set_mPendingMessageExpectedLength 0
                   (set_mPendingMessageIndex 0
                      (set_mLastError
                         (to_int8
                            (Z.lor
                               (to_int8
                                  (Z.land (mLastError s)
                                     (Z.lnot (Z.shiftl 1 ErrorParse))))
                               (Z.shiftl 1 ErrorParse))) s))),
              if mErrorCallback (callbacks s)
              then [ErrorCallback
                      (to_int8
                         (Z.lor
                            (to_int8
                               (Z.land (mLastError s)
                                  (Z.lnot (Z.shiftl 1 ErrorParse))))
                            (Z.shiftl 1 ErrorParse)))]
              else [])).
    { unfold parse_byte.
      assert (Hfd : (b =? Undefined_FD) = false)
        by (destruct Hb; subst b; reflexivity).
      rewrite Hfd. mrun.
      assert (Hnz : (mPendingMessageIndex s =? 0) = false)
        by (apply Z.eqb_neq; lia).
      rewrite Hnz. unfold parse_continue.
      assert (Hrt : (b >=? 0x80)
                    && case_of b [Clock; Start; Tick; Continue; Stop;
                                  ActiveSensing; SystemReset] = false)
        by (destruct Hb; subst b; reflexivity).
      assert (Heox : (b >=? 0x80)
                     && case_of b [SystemExclusiveStart; SystemExclusiveEnd]
                     = true)
        by (destruct Hb; subst b; reflexivity).
      rewrite Hrt, Heox.
      rewrite (run_read_sysex 0 a0) by exact Ha0.
      apply Z.eqb_neq in Has, Hae. rewrite Has, Hae. sim.
      rewrite ?bind_assoc, run_signalParseError. sim.
      rewrite ?bind_assoc, run_resetInput. mrun. unfold ret.
      destruct (mErrorCallback (callbacks s)); reflexivity. }
    rewrite (parse_cons _ _ _ _ _ _ Hrun). cbn [prepend].
    do 2 eexists. split; [reflexivity |]. sim.
    split; [rewrite app_nil_r; reflexivity |].
    split; [apply testbit_set_bit; exact He |].
    repeat split; reflexivity.
Qed.

End ParseErrors.

(** ** Two test streams on a freshly begun parser *)

Section FreshStreams.
Context {D : Defs} {S : Settings} {P : Platform}.

(** Opens every record the run depends on, so that it computes. *)
Ltac open_state s0 :=
  let m := fresh "m" in
  let a := fresh "a" in
  destruct s0 as [? ? ? a ? ? ? ? ? ? m ? ? ? ? ? ?];
  destruct m;
  cbn [mPendingMessage] in *;
  destruct a as [|? [|? [|? [|? ?]]]]; try discriminate.

(** C4: on a freshly begun parser, the bytes [0x90, 0xF8, 60, 100] yield
    exactly two messages: first a Clock message, emitted when 0xF8 is
    read and leaving the pending NoteOn (buffer, index, expected length,
    running status) as it was, then a valid NoteOn on channel 1 with
    data1 = 60 and data2 = 100. *)
Theorem feed_realtime_interleaved (inChannel : Z) (s0 : State) :
  length (mPendingMessage s0) = 3%nat ->
  exists s t0,
    begin inChannel s0 = Some (tt, s, t0) /\
    (exists clock note s' t,
       feed [0x90; 0xF8; 60; 100] s = Some (([clock; note], []), s', t) /\
       type clock = Clock /\ valid clock = true /\
       type note = NoteOn /\ valid note = true /\ channel note = 1 /\
       data1 note = 60 /\ data2 note = 100) /\
    (exists msgs sa ta clock sb tb,
       feed [0x90] s = Some ((msgs, []), sa, ta) /\
       feed [0x90; 0xF8] s = Some ((msgs ++ [clock], []), sb, tb) /\
       type clock = Clock /\
       mPendingMessageIndex sa = 1 /\
       mPendingMessage sb = mPendingMessage sa /\
       mPendingMessageIndex sb = mPendingMessageIndex sa /\
       mPendingMessageExpectedLength sb = mPendingMessageExpectedLength sa /\
       mRunningStatus_RX sb = mRunningStatus_RX sa).
Proof.
  intros Hlen. open_state s0.
  destruct S as [one size hn us ur].
  do 2 eexists. split; [reflexivity |].
  destruct one; split.
  all: try (do 4 eexists; split; [vm_compute; reflexivity |];
            repeat split; reflexivity).
  all: do 6 eexists; split; [vm_compute; reflexivity |];
       split; [vm_compute; reflexivity |]; repeat split; reflexivity.
Qed.

(** C5: on a freshly begun parser, [0x90, 60, 100] followed by [61, 110]
    with no status byte in between yields two valid NoteOn messages on
    channel 1, the first with data1 = 60 and data2 = 100, the second
    with data1 = 61 and data2 = 110. *)
Theorem feed_running_status (inChannel : Z) (s0 : State) :
  length (mPendingMessage s0) = 3%nat ->
  exists s t0,
    begin inChannel s0 = Some (tt, s, t0) /\
    exists first s1 t1 second s2 t2,
      feed [0x90; 60; 100] s = Some (([first], []), s1, t1) /\
      feed [61; 110] s1 = Some (([second], []), s2, t2) /\
      feed ([0x90; 60; 100] ++ [61; 110]) s
      = Some (([first; second], []), s2, t1 ++ t2) /\
      type first = NoteOn /\ valid first = true /\ channel first = 1 /\
      data1 first = 60 /\ data2 first = 100 /\
      type second = NoteOn /\ valid second = true /\ channel second = 1 /\
      data1 second = 61 /\ data2 second = 110.
Proof.
  intros Hlen. open_state s0.
  destruct S as [one size hn us ur].
  do 2 eexists. split; [reflexivity |].
  destruct one.
  all: do 6 eexists; split; [vm_compute; reflexivity |];
       split; [vm_compute; reflexivity |];
       split; [vm_compute; reflexivity |]; repeat split; reflexivity.
Qed.

End FreshStreams.

(** ** The channel filter *)

Section ChannelFilter.
Context `{Defs} `{Settings} `{Platform}.

(** The last byte of a NoteOn on channel 5. *)
Lemma parse_byte_NoteOn5 (d1 d2 p2 : Z) (s : State) :
  mPendingMessage s = [0x94; d1; p2] ->
  mPendingMessageIndex s = 2 ->
  mPendingMessageExpectedLength s = 3 ->
  data_byte d2 ->
  parse_byte d2 s
  = Some (Return true,
          set_mRunningStatus_RX 0x94
            (set_mPendingMessageExpectedLength 0
               (set_mPendingMessageIndex 0
                  (set_mMessage
                     (mkMessage 5 NoteOn d1 d2 (sysexArray (mMessage s)) true
                        (len (mMessage s)))
                     (set_mPendingMessage [0x94; d1; d2] s)))),
          []).
Proof.
  intros Hp Hidx Hexp Hd.
  unfold parse_byte. rewrite (data_byte_not_FD d2 Hd). mrun.
  rewrite Hidx. simc. unfold parse_continue.
  rewrite (data_byte_not_status d2 Hd). simc.
  unfold parse_data. mrun.
  rewrite (run_read_pending 0 0x94) by (rewrite Hp; reflexivity).
  simc. mrun. rewrite Hidx.
  rewrite run_write_pending by (rewrite Hp; simc; lia). mrun.
  rewrite Hexp. simc. mrun.
  change (usub 3 1) with 2.
  change (getTypeFromStatusByte 148) with NoteOn.
  change (getChannelFromStatusByte 148) with 5.
  change (isChannelMessage NoteOn) with true. simc. mrun.
  rewrite (run_read_pending 1 d1) by (simc; rewrite Hp; reflexivity). mrun.
  rewrite (run_read_pending 2 d2) by (simc; rewrite Hp; reflexivity). mrun.
  unfold ret. rewrite Hp. reflexivity.
Qed.

Lemma run_launchCallback_NoteOn {B} (k : unit -> M B) s :
  type (mMessage s) = NoteOn ->
  bind launchCallback k s
  = prepend (LaunchCallback (mMessage s)
             :: if mNoteOnCallback (callbacks s)
                then [NoteOnCallback (channel (mMessage s)) (data1 (mMessage s))
                        (data2 (mMessage s))]
                else [])
      (k tt s).
Proof.
  intros Ht. unfold launchCallback. mrun. rewrite Ht. simc.
  destruct (mNoteOnCallback (callbacks s)); unfold when; mrun.
  - rewrite prepend_prepend. reflexivity.
  - reflexivity.
Qed.

Lemma run_launchCallback_NoteOff {B} (k : unit -> M B) s :
  type (mMessage s) = NoteOff ->
  bind launchCallback k s
  = prepend (LaunchCallback (mMessage s)
             :: if mNoteOffCallback (callbacks s)
                then [NoteOffCallback (channel (mMessage s)) (data1 (mMessage s))
                        (data2 (mMessage s))]
                else [])
      (k tt s).
Proof.
  intros Ht. unfold launchCallback. mrun. rewrite Ht. simc.
  destruct (mNoteOffCallback (callbacks s)); unfold when; mrun.
  - rewrite prepend_prepend. reflexivity.
  - reflexivity.
Qed.

(** C7, as amended: the call of [read] that completes a NoteOn on
    channel 5 stores the message with valid = true.  With input channel
    3, no NoteOn handler is called and [read] returns false.  With input
    channel OMNI, [read] returns true and the message is dispatched: to
    the NoteOn handler (when one is attached) if its velocity is not
    zero or null-velocity handling is disabled, and as a NoteOff, to the
    NoteOff handler (when one is attached) and not to the NoteOn
    handler, if its velocity is zero and null-velocity handling is
    enabled. *)
Theorem read_channel_filter (d1 d2 p2 : Z) (rx' : list Z) (s : State) :
  3 < MIDI_CHANNEL_OFF ->
  MIDI_CHANNEL_OMNI < MIDI_CHANNEL_OFF ->
  MIDI_CHANNEL_OMNI <> 3 ->
  mPendingMessage s = [0x94; d1; p2] ->
  mPendingMessageIndex s = 2 ->
  mPendingMessageExpectedLength s = 3 ->
  data_byte d2 ->
  let rewritten := HandleNullVelocityNoteOnAsNoteOff && (d2 =? 0) in
  (exists s' t,
     read 3 (d2 :: rx') s = Some ((false, rx'), s', t) /\
     valid (mMessage s') = true /\
     channel (mMessage s') = 5 /\
     data1 (mMessage s') = d1 /\ data2 (mMessage s') = d2 /\
     type (mMessage s') = (if rewritten then NoteOff else NoteOn) /\
     filter is_NoteOnCallback t = []) /\
  (exists s' t,
     read MIDI_CHANNEL_OMNI (d2 :: rx') s = Some ((true, rx'), s', t) /\
     valid (mMessage s') = true /\
     channel (mMessage s') = 5 /\
     data1 (mMessage s') = d1 /\ data2 (mMessage s') = d2 /\
     type (mMessage s') = (if rewritten then NoteOff else NoteOn) /\
     filter is_NoteOnCallback t
     = (if negb rewritten && mNoteOnCallback (callbacks s)
        then [NoteOnCallback 5 d1 d2] else []) /\
     (rewritten = true -> mNoteOffCallback (callbacks s) = true ->
      In (NoteOffCallback 5 d1 d2) t)).
Proof.
  intros Hoff3 Hoffo Ho3 Hp Hidx Hexp Hd rewritten.
  destruct (read_sensing_frame s)
    as (s1 & t0 & Hs & _ & Hp1 & Hi1 & He1 & Hm1 & Hc1 & _ & _ & _ & _ & Hn0).
  pose proof (parse_byte_NoteOn5 d1 d2 p2
                (set_mLastError
                   (to_int8 (Z.land (mLastError s1)
                               (Z.lnot (Z.shiftl 1 ErrorParse)))) s1)
                ltac:(sim; rewrite Hp1; exact Hp)
                ltac:(sim; rewrite Hi1; exact Hidx)
                ltac:(sim; rewrite He1; exact Hexp) Hd) as Hbyte.
  pose proof (parse_cons _ rx' _ _ _ _ Hbyte) as Hparse.
  cbn [prepend app] in Hparse.
  match type of Hparse with _ = Some (_, ?st, _) => set (s2 := st) in * end.
  destruct (read_received_frame s2)
    as (s3 & t3 & Hrr & _ & _ & _ & _ & Hm3 & Hc3 & _ & _ & _ & _ & Hn3).
  assert (Hnull :
    handleNullVelocityNoteOnAsNoteOff s3
    = Some (tt,
            (if rewritten
             then set_mMessage (set_type NoteOff (mMessage s3)) s3 else s3),
            [])).
  { unfold handleNullVelocityNoteOnAsNoteOff. mrun.
    assert (Hty3 : (type (mMessage s3) =? NoteOn) = true)
      by (rewrite Hm3; reflexivity).
    assert (Hd3 : data2 (mMessage s3) = d2) by (rewrite Hm3; reflexivity).
    rewrite Hty3, Hd3, andb_true_r. fold rewritten.
    destruct rewritten; reflexivity. }
  set (s4 := if rewritten
             then set_mMessage (set_type NoteOff (mMessage s3)) s3 else s3)
    in *.
  assert (Hm4 : mMessage s4
                = mkMessage 5 (if rewritten then NoteOff else NoteOn) d1 d2
                    (sysexArray (mMessage s)) true (len (mMessage s))).
  { subst s4. destruct rewritten; sim; rewrite Hm3; subst s2; sim;
      rewrite Hm1; reflexivity. }
  assert (Hc4 : callbacks s4 = callbacks s).
  { subst s4. destruct rewritten; sim; rewrite Hc3; subst s2; sim;
      exact Hc1. }
  assert (Hrange :
    (type (mMessage s4) >=? NoteOff) && (type (mMessage s4) <=? PitchBend)
    = true) by (rewrite Hm4; destruct rewritten; reflexivity).
  destruct (thruFilter_total 3 s4) as (t5 & Hthru3 & _ & _ & Hn5).
  destruct (thruFilter_total MIDI_CHANNEL_OMNI s4) as (t6 & Hthruo & _ & _ & Hn6).
  split.
  - rewrite (read_of_parse 3 _ _ _ _ _ _ _ Hoff3 Hs Hparse). cbn [fst snd].
    rewrite (run_known _ _ _ _ _ _ Hrr), (run_known _ _ _ _ _ _ Hnull).
    unfold inputFilter. rewrite !bind_assoc, run_gets. cbv beta.
    rewrite Hrange, Hm4. cbn [channel].
    assert (Hno : (5 =? 3) || (3 =? MIDI_CHANNEL_OMNI) = false).
    { destruct (Z.eqb_spec 3 MIDI_CHANNEL_OMNI); [congruence | reflexivity]. }
    rewrite Hno, run_ret. unfold when. rewrite run_ret.
    rewrite (run_known _ _ _ _ _ _ Hthru3). unfold ret. cbn [prepend app].
    do 2 eexists. split; [reflexivity |]. rewrite Hm4. sim.
    repeat split; try reflexivity.
    rewrite !filter_app, Hn0, Hn3, Hn5. reflexivity.
  - rewrite (read_of_parse MIDI_CHANNEL_OMNI _ _ _ _ _ _ _ Hoffo Hs Hparse).
    cbn [fst snd].
    rewrite (run_known _ _ _ _ _ _ Hrr), (run_known _ _ _ _ _ _ Hnull).
    unfold inputFilter. rewrite !bind_assoc, run_gets. cbv beta.
    rewrite Hrange, Z.eqb_refl, orb_true_r, run_ret.
    change (when true launchCallback) with launchCallback.
    destruct rewritten eqn:Hrw.
    + rewrite run_launchCallback_NoteOff by (rewrite Hm4; reflexivity).
      cbv beta. rewrite (run_known _ _ _ _ _ _ Hthruo). unfold ret.
      cbn [prepend app]. do 2 eexists. split; [reflexivity |].
      rewrite Hm4, Hc4. sim. repeat split; try reflexivity.
      * destruct (mNoteOffCallback (callbacks s));
          rewrite ?app_nil_r, !filter_app, Hn0, Hn3; cbn [app];
          rewrite !filter_cons_False by (intros []);
          rewrite ?filter_app; exact Hn6.
      * intros _ Hcb. rewrite Hcb. rewrite !in_app_iff. cbn. tauto.
    + rewrite run_launchCallback_NoteOn by (rewrite Hm4; reflexivity).
      cbv beta. rewrite (run_known _ _ _ _ _ _ Hthruo). unfold ret.
      cbn [prepend app]. do 2 eexists. split; [reflexivity |].
      rewrite Hm4, Hc4. sim. repeat split; try reflexivity.
      * destruct (mNoteOnCallback (callbacks s));
          rewrite ?app_nil_r, !filter_app, Hn0, Hn3; cbn [app];
          rewrite !filter_cons_False by (intros []);
          try rewrite filter_cons_True by exact I;
          rewrite Hn6; reflexivity.
      * intros Hf. discriminate Hf.
Qed.

End ChannelFilter.

(** ** Status bytes *)

Lemma byte_cases (P : Z -> bool) :
  forallb P (map Z.of_nat (seq 0 256)) = true ->
  forall b, 0 <= b < 256 -> P b = true.
Proof.
  intros Hall b Hb. rewrite forallb_forall in Hall. apply Hall.
  rewrite <- (Z2Nat.id b) by lia. apply in_map, in_seq. lia.
Qed.

Lemma land_f0_cases (b : Z) :
  0x80 <= b < 0xf0 ->
  In (Z.land b 0xf0) [0x80; 0x90; 0xA0; 0xB0; 0xC0; 0xD0; 0xE0].
Proof.
  intros Hb.
  pose proof (byte_cases
    (fun b => negb ((0x80 <=? b) && (b <? 0xf0))
              || existsb (Z.eqb (Z.land b 0xf0))
                   [0x80; 0x90; 0xA0; 0xB0; 0xC0; 0xD0; 0xE0])
    ltac:(vm_compute; reflexivity) b ltac:(lia)) as Hc.
  cbv beta in Hc.
  destruct (Z.leb_spec 0x80 b); [| lia].
  destruct (Z.ltb_spec b 0xf0); [| lia].
  cbn [andb negb orb] in Hc. apply existsb_exists in Hc.
  destruct Hc as (x & Hin & Hx). apply Z.eqb_eq in Hx. rewrite Hx. exact Hin.
Qed.

Lemma getTypeFromStatusByte_cases (b : Z) :
  getTypeFromStatusByte b = InvalidType \/
  (0x80 <= b < 0xf0 /\ getTypeFromStatusByte b = Z.land b 0xf0 /\
   In (getTypeFromStatusByte b) [0x80; 0x90; 0xA0; 0xB0; 0xC0; 0xD0; 0xE0]) \/
  (0xf0 <= b /\ getTypeFromStatusByte b = b).
Proof.
  unfold getTypeFromStatusByte.
  destruct (Z.ltb_spec b 0x80); [left; reflexivity |]. cbn [orb].
  destruct (_ || _); [left; reflexivity |].
  destruct (Z.ltb_spec b 0xf0); [| right; right; split; [lia | reflexivity]].
  right; left. split; [lia |]. split; [reflexivity |].
  apply land_f0_cases. lia.
Qed.

Lemma getTypeFromStatusByte_sysex (b : Z) :
  getTypeFromStatusByte b = SystemExclusiveStart \/
  getTypeFromStatusByte b = SystemExclusiveEnd ->
  getTypeFromStatusByte b = b.
Proof.
  destruct (getTypeFromStatusByte_cases b) as [E | [(_ & _ & Hin) | [_ E]]].
  - rewrite E. intros [E' | E']; discriminate E'.
  - intros [E' | E']; rewrite E' in Hin; cbv in Hin; intuition discriminate.
  - intros _. exact E.
Qed.

(** ** The parser never leaves its buffers *)

Lemma case_of_In (x : Z) (l : list Z) : case_of x l = true <-> In x l.
Proof.
  unfold case_of. rewrite existsb_exists. split.
  - intros (y & Hin & Hy). apply Z.eqb_eq in Hy. subst y. exact Hin.
  - intros Hin. exists x. split; [exact Hin | apply Z.eqb_refl].
Qed.

Lemma case_of_incl (x : Z) (l l' : list Z) :
  forallb (fun y => case_of y l') l = true ->
  case_of x l = true -> case_of x l' = true.
Proof.
  intros Hall Hx. rewrite forallb_forall in Hall.
  apply Hall, case_of_In, Hx.
Qed.

Lemma isChannelMessage_cases (t : Z) :
  isChannelMessage t = true ->
  In t [NoteOff; NoteOn; ControlChange; AfterTouchPoly; AfterTouchChannel;
        PitchBend; ProgramChange].
Proof.
  unfold isChannelMessage. rewrite !orb_true_iff, !Z.eqb_eq. cbn.
  intuition congruence.
Qed.

Lemma multi_byte_not_sysex (p0 : Z) :
  two_bytes p0 = true \/ three_bytes p0 = true ->
  (p0 =? SystemExclusiveStart) || (p0 =? SystemExclusiveEnd) = false.
Proof.
  intros Hp.
  destruct (Z.eqb_spec p0 SystemExclusiveStart) as [-> | _];
    [destruct Hp as [Hp | Hp]; discriminate Hp |].
  destruct (Z.eqb_spec p0 SystemExclusiveEnd) as [-> | _];
    [destruct Hp as [Hp | Hp]; discriminate Hp |].
  reflexivity.
Qed.

(** Symbolic execution on an opened state. *)
Ltac simx :=
  cbn -[isChannelMessage getTypeFromStatusByte getChannelFromStatusByte
        to_int8 to_byte uadd usub uwrap Z.lor Z.land Z.lnot Z.shiftl
        Z.shiftr Z.testbit prepend bind when case_of two_bytes three_bytes
        known_type Z.to_nat Z.of_nat write_sysex read_sysex write_pending
        read_pending launchCallback signalParseError resetInput].

Ltac xstep :=
  first
    [ rewrite bind_assoc
    | rewrite run_ret
    | rewrite run_gets
    | rewrite run_modify
    | rewrite run_put_message
    | rewrite run_emit
    | rewrite run_resetInput
    | rewrite run_signalParseError
    | rewrite run_write_pending by (cbn; rewrite ?length_insert; cbn; lia)
    | erewrite run_read_pending by (cbn; reflexivity)
    | rewrite run_write_sysex by (cbn; rewrite ?length_insert; cbn; lia) ].

Ltac xrun := repeat (xstep; simx).

(** Closes a run that has been executed to its end. *)
Ltac xdone :=
  unfold ret; do 3 eexists; split; [reflexivity |];
  unfold parse_byte_post;
  split; [split; [split; [reflexivity
                        | cbn; rewrite ?length_insert; assumption] |] |
  split; [repeat split |
  split; [repeat constructor; try assumption |
  split; [reflexivity |
  split; [reflexivity |]]]]].

Section ParserOk.

Context `{Defs} `{Settings} `{Platform}.

Lemma parse_start_ok (b : Z) (s : State) :
  3 <= SysExMaxSize < UINT_MOD ->
  well_formed s ->
  mPendingMessageIndex s = 0 ->
  exists o s' t,
    parse_start b s = Some (o, s', t) /\ parse_byte_post s o s' t.
Proof.
  intros HC [Hlp Hls] Hidx.
  destruct s as [ic rs tx pend exp idx rpn nrpn ta tm msg st rt per act err cb].
  destruct msg as [ch ty d1 d2 arr v ln].
  cbn in Hlp, Hls, Hidx. subst idx.
  destruct pend as [|p0 [|p1 [|p2 [|]]]]; try discriminate. clear Hlp.
  assert (Hlen2 : usub 2 1 = 1) by reflexivity.
  assert (Hlen3 : usub 3 1 = 2) by reflexivity.
  assert (Hinc1 : uadd 0 1 = 1) by reflexivity.
  assert (Hinc2 : uadd 1 1 = 2) by reflexivity.
  unfold parse_start. xrun.
  destruct (isChannelMessage (getTypeFromStatusByte rs) && (b <? 128)) eqn:Hrs;
    unfold when at 1; xrun.
  - (* running status *)
    apply andb_true_iff in Hrs as [Hch _].
    apply isChannelMessage_cases in Hch. cbn [In] in Hch.
    decompose [or] Hch; try contradiction;
      match goal with E : _ = getTypeFromStatusByte _ |- _ =>
        rewrite <- E; simx
      end;
      change (case_of ?x ?l) with (existsb (Z.eqb x) l); cbn [existsb Z.eqb orb
        NoteOff NoteOn ControlChange AfterTouchPoly AfterTouchChannel PitchBend
        ProgramChange Start Continue Stop Clock Tick ActiveSensing SystemReset
        TuneRequest TimeCodeQuarterFrame SongSelect SongPosition
        SystemExclusiveStart SystemExclusiveEnd SystemExclusive Pos.eqb];
      xrun; unfold parse_start_check; xrun; rewrite ?Hlen2, ?Hlen3; simx; xrun;
      rewrite ?Hinc2; xdone.
    all: try (intros _; split; reflexivity).
    all: try (intros Hf; discriminate Hf).
    all: try (left; reflexivity).
    all: right; exists rs; (split; [reflexivity |]);
      rewrite multi_byte_not_sysex
        by (right; unfold three_bytes;
            match goal with E : _ = getTypeFromStatusByte _ |- _ =>
              rewrite <- E end; reflexivity);
      right; (split; [unfold three_bytes;
            match goal with E : _ = getTypeFromStatusByte _ |- _ =>
              rewrite <- E end; reflexivity |]);
      split; [reflexivity | cbn; lia].
  - (* the byte starts a message *)
    clear Hrs.
    destruct (case_of (getTypeFromStatusByte b)
                [Start; Continue; Stop; Clock; Tick; ActiveSensing;
                 SystemReset; TuneRequest]) eqn:H1b.
    { xrun. xdone; [left; reflexivity |].
      intros _. split; [reflexivity |].
      revert H1b. apply case_of_incl. reflexivity. }
    destruct (case_of (getTypeFromStatusByte b)
                [ProgramChange; AfterTouchChannel; TimeCodeQuarterFrame;
                 SongSelect]) eqn:H2b.
    { xrun. unfold parse_start_check. xrun. rewrite Hlen2. simx. xrun.
      rewrite Hinc1. xdone; [| intros Hf; discriminate Hf].
      right. exists b. split; [reflexivity |].
      rewrite multi_byte_not_sysex by (left; exact H2b).
      left. split; [exact H2b |]. split; reflexivity. }
    destruct (case_of (getTypeFromStatusByte b)
                [NoteOn; NoteOff; ControlChange; PitchBend; AfterTouchPoly;
                 SongPosition]) eqn:H3b.
    { xrun. unfold parse_start_check. xrun. rewrite Hlen3. simx. xrun.
      rewrite Hinc1. xdone; [| intros Hf; discriminate Hf].
      right. exists b. split; [reflexivity |].
      rewrite multi_byte_not_sysex by (right; exact H3b).
      right. split; [exact H3b |]. split; [reflexivity | cbn; lia]. }
    destruct (case_of (getTypeFromStatusByte b)
                [SystemExclusiveStart; SystemExclusiveEnd]) eqn:H4b.
    { assert (Hb : getTypeFromStatusByte b = b).
      { apply getTypeFromStatusByte_sysex.
        apply case_of_In in H4b. cbn in H4b. intuition congruence. }
      rewrite Hb in *. xrun. unfold parse_start_check. xrun.
      rewrite (usub_small SysExMaxSize 1) by lia.
      assert (Hlt : (0 >=? SysExMaxSize - 1) = false)
        by (destruct (Z.geb_spec 0 (SysExMaxSize - 1)); [lia | reflexivity]).
      rewrite Hlt. xrun. rewrite Hinc1.
      xdone; [| intros Hf; discriminate Hf].
      right. exists b. split; [reflexivity |].
      apply case_of_In in H4b. cbn in H4b.
      assert (Hsx : (b =? SystemExclusiveStart) || (b =? SystemExclusiveEnd)
                    = true)
        by (apply sysex_status; intuition congruence).
      rewrite Hsx. split; [reflexivity | cbn; lia]. }
    xrun. destruct (mErrorCallback cb) eqn:Hcb; cbn [prepend app];
      (xdone; [left; reflexivity | intros Hf; discriminate Hf]).
Qed.

Lemma parse_continue_ok (b : Z) (s : State) :
  3 <= SysExMaxSize < UINT_MOD ->
  parser_ok s ->
  mPendingMessageIndex s <> 0 ->
  exists o s' t,
    parse_continue b s = Some (o, s', t) /\ parse_byte_post s o s' t.
Proof.
  intros HC [[Hlp Hls] [Hz | (p0 & Hp0 & Hp)]] Hidx; [contradiction |].
  destruct s as [ic rs tx pend exp idx rpn nrpn ta tm msg st rt per act err cb].
  destruct msg as [ch ty d1 d2 arr v ln].
  cbn in Hlp, Hls, Hidx. cbn -[two_bytes three_bytes] in Hp0, Hp.
  destruct pend as [|q0 [|p1 [|p2 [|]]]]; try discriminate. clear Hlp.
  injection Hp0 as ->.
  destruct arr as [|a0 arr]; [cbn in Hls; lia |].
  cbn [length] in Hls.
  assert (Hlen2 : usub 2 1 = 1) by reflexivity.
  assert (Hlen3 : usub 3 1 = 2) by reflexivity.
  assert (Hinc2 : uadd 1 1 = 2) by reflexivity.
  unfold parse_continue.
  destruct ((b >=? 128)
            && case_of b [Clock; Start; Tick; Continue; Stop; ActiveSensing;
                          SystemReset]) eqn:Hrt.
  { (* a real-time byte *)
    xrun. xdone.
    - right. exists p0. split; [reflexivity | exact Hp].
    - intros _. split; [reflexivity |].
      apply andb_true_iff in Hrt as [_ Hrt]. revert Hrt.
      apply case_of_incl. reflexivity. }
  destruct ((b >=? 128)
            && case_of b [SystemExclusiveStart; SystemExclusiveEnd]) eqn:Heox.
  { (* 0xF0 or 0xF7 *)
    erewrite run_read_sysex by reflexivity.
    destruct ((a0 =? SystemExclusiveStart) || (a0 =? SystemExclusiveEnd)).
    - assert (Hroom : 1 <= idx <= SysExMaxSize - 1).
      { destruct ((p0 =? SystemExclusiveStart) || (p0 =? SystemExclusiveEnd));
          lia. }
      xrun. rewrite (uadd_small idx 1) by lia. xrun.
      xdone; [left; reflexivity |]. intros _. split; reflexivity.
    - xrun. destruct (mErrorCallback cb) eqn:Hcb; cbn [prepend app];
        (xdone; [left; reflexivity | intros Hf; discriminate Hf]). }
  (* the byte is stored *)
  clear Hrt Heox. unfold parse_data. xrun.
  destruct ((p0 =? SystemExclusiveStart) || (p0 =? SystemExclusiveEnd)) eqn:Hsx.
  - (* into the SysEx buffer *)
    destruct Hp as [-> Hroom]. xrun.
    rewrite (usub_small SysExMaxSize 1) by lia.
    destruct (Z.geb_spec idx (SysExMaxSize - 1)) as [Hfull | Hmore].
    + assert (idx = SysExMaxSize - 1) as -> by lia.
      erewrite run_read_sysex
        by (cbn -[Z.to_nat]; apply list_lookup_insert_eq; cbn; lia).
      xrun. rewrite run_launchCallback_sysex by reflexivity. simx. xrun.
      destruct (mSystemExclusiveCallback cb) eqn:Hcb; cbn [prepend app];
        (xdone; [| intros Hf; discriminate Hf];
         right; exists p0; (split; [reflexivity |]); rewrite Hsx;
         split; [reflexivity | cbn; lia]).
    + xrun. rewrite (uadd_small idx 1) by lia.
      xdone; [| intros Hf; discriminate Hf].
      right. exists p0. split; [reflexivity |]. rewrite Hsx.
      split; [reflexivity | cbn; lia].
  - (* into the pending message *)
    assert (Hknown : known_type (getTypeFromStatusByte p0) = true).
    { destruct Hp as [[Hty _] | [Hty _]]; revert Hty;
        apply case_of_incl; reflexivity. }
    destruct Hp as [(Hty & -> & ->) | (Hty & -> & Hi)].
    + xrun. rewrite Hlen2. simx. xrun.
      xdone; [left; reflexivity |]. intros _. split; [reflexivity | exact Hknown].
    + assert (idx = 1 \/ idx = 2) as [-> | ->] by lia.
      * xrun. rewrite Hlen3. simx. xrun. rewrite Hinc2.
        xdone; [| intros Hf; discriminate Hf].
        right. exists p0. split; [reflexivity |]. rewrite Hsx.
        right. split; [exact Hty |]. split; [reflexivity | cbn; lia].
      * xrun. rewrite Hlen3. simx. xrun.
        xdone; [left; reflexivity |].
        intros _. split; [reflexivity | exact Hknown].
Qed.

(** One byte, whatever it is, keeps a parser that satisfies [parser_ok]
    within its two buffers. *)
Lemma parse_byte_ok (b : Z) (s : State) :
  3 <= SysExMaxSize < UINT_MOD ->
  parser_ok s ->
  exists o s' t,
    parse_byte b s = Some (o, s', t) /\ parse_byte_post s o s' t.
Proof.
  intros HC Hok. unfold parse_byte.
  destruct (b =? Undefined_FD).
  - unfold ret. do 3 eexists. split; [reflexivity |].
    split; [exact Hok |]. split; [repeat split |].
    split; [constructor |]. split; [reflexivity |]. split; [reflexivity |].
    intros Hf. discriminate Hf.
  - rewrite run_gets. destruct (Z.eqb_spec (mPendingMessageIndex s) 0) as [Hz | Hnz].
    + apply parse_start_ok; [exact HC | apply Hok | exact Hz].
    + apply parse_continue_ok; assumption.
Qed.

End ParserOk.

(** ** The receive path never leaves the buffers *)

Lemma same_config_refl (s : State) : same_config s s.
Proof. repeat split. Qed.

Lemma same_config_trans (s1 s2 s3 : State) :
  same_config s1 s2 -> same_config s2 s3 -> same_config s1 s3.
Proof.
  unfold same_config. intros (a1 & a2 & a3 & a4 & a5 & a6 & a7 & a8)
    (b1 & b2 & b3 & b4 & b5 & b6 & b7 & b8).
  repeat split; congruence.
Qed.

Lemma same_config_callbacks (s s' : State) :
  same_config s s' -> callbacks s' = callbacks s.
Proof. intros (_ & _ & _ & _ & _ & _ & _ & Hcb). exact Hcb. Qed.

Lemma thru_ok_nil (s : State) (t : list Event) :
  filter is_thru_send t = [] -> thru_ok s t.
Proof. intros Ht. left. exact Ht. Qed.

Lemma thru_ok_app (s : State) (t1 t2 : list Event) :
  thru_ok s t1 -> thru_ok s t2 -> thru_ok s (t1 ++ t2).
Proof.
  intros [H1 | H1] [H2 | H2]; try (right; assumption).
  left. rewrite filter_app, H1, H2. reflexivity.
Qed.

Lemma thru_ok_config (s s' : State) (t : list Event) :
  same_config s s' -> thru_ok s' t -> thru_ok s t.
Proof.
  intros (_ & _ & _ & _ & Ha & Hm & _) [Ht | [Hon Hmode]].
  - left. exact Ht.
  - right. rewrite <- Ha, <- Hm. split; assumption.
Qed.

Section RunOk.

Context `{Defs} `{Settings} `{Platform}.

Lemma parser_ok_frame (s s' : State) :
  mPendingMessage s' = mPendingMessage s ->
  mPendingMessageIndex s' = mPendingMessageIndex s ->
  mPendingMessageExpectedLength s' = mPendingMessageExpectedLength s ->
  sysexArray (mMessage s') = sysexArray (mMessage s) ->
  parser_ok s -> parser_ok s'.
Proof.
  intros Hp Hi He Ha [[Hlp Hls] Hpend].
  split; [split; rewrite ?Hp, ?Ha; assumption |].
  unfold pending_ok. rewrite Hp, Hi, He. exact Hpend.
Qed.

Lemma run_ok_step (s s1 s2 : State) (t1 t2 : list Event) :
  run_ok s s1 t1 -> run_ok s1 s2 t2 -> run_ok s s2 (t1 ++ t2).
Proof.
  intros (_ & Hc1 & Hd1 & Ht1) (Hok & Hc2 & Hd2 & Ht2).
  split; [exact Hok |]. split; [exact (same_config_trans _ _ _ Hc1 Hc2) |].
  split; [apply Forall_app; split; [assumption |];
          rewrite <- (same_config_callbacks _ _ Hc1); assumption |].
  apply thru_ok_app; [exact Ht1 | exact (thru_ok_config _ _ _ Hc1 Ht2)].
Qed.

(** [parse] on any queue. *)
Lemma parse_ok (rx : list Z) :
  3 <= SysExMaxSize < UINT_MOD ->
  forall s : State,
    parser_ok s ->
    exists r s' t,
      parse rx s = Some (r, s', t) /\
      run_ok s s' t /\
      filter is_thru_send t = [] /\
      (exists taken, rx = taken ++ snd r /\ (rx <> [] -> taken <> [])) /\
      (fst r = true ->
       valid (mMessage s') = true /\ known_type (type (mMessage s')) = true).
Proof.
  intros HC. induction rx as [|b rx IH]; intros s Hok.
  - do 3 eexists. split; [reflexivity |].
    split; [split; [exact Hok |]; split; [apply same_config_refl |];
            split; [repeat constructor | left; reflexivity] |].
    split; [reflexivity |].
    split; [exists []; split; [reflexivity | congruence] |].
    intros Hf. discriminate Hf.
  - set (sc := set_mLastError
                 (to_int8 (Z.land (mLastError s) (Z.lnot (Z.shiftl 1 ErrorParse))))
                 s).
    assert (Hokc : parser_ok sc)
      by (apply (parser_ok_frame s); [reflexivity .. | exact Hok]).
    destruct (parse_byte_ok b sc HC Hokc)
      as (o & s1 & t1 & Hrun & Hok1 & Hc1 & Hd1 & Hs1 & _ & Hv1).
    rewrite (parse_cons _ rx _ _ _ _ Hrun).
    assert (Hone : run_ok s s1 ([TransportAvailable; TransportRead b] ++ t1)).
    { split; [exact Hok1 |]. split; [exact Hc1 |].
      split; [repeat constructor; exact Hd1 |].
      left. cbn. exact Hs1. }
    assert (Hone' : filter is_thru_send
                      ([TransportAvailable; TransportRead b] ++ t1) = [])
      by (cbn; exact Hs1).
    assert (Hstop : forall r : bool,
              (r = true ->
               valid (mMessage s1) = true /\
               known_type (type (mMessage s1)) = true) ->
              exists r' s' t,
                prepend ([TransportAvailable; TransportRead b] ++ t1)
                  (Some ((r, rx), s1, [])) = Some (r', s', t) /\
                run_ok s s' t /\
                filter is_thru_send t = [] /\
                (exists taken, b :: rx = taken ++ snd r' /\
                               (b :: rx <> [] -> taken <> [])) /\
                (fst r' = true ->
                 valid (mMessage s') = true /\
                 known_type (type (mMessage s')) = true)).
    { intros r Hr. cbn [prepend]. rewrite app_nil_r.
      do 3 eexists. split; [reflexivity |].
      split; [exact Hone |]. split; [exact Hone' |].
      split; [exists [b]; split; [reflexivity | discriminate] |].
      exact Hr. }
    destruct o as [r |].
    + apply Hstop. intros ->. apply Hv1. reflexivity.
    + destruct Use1ByteParsing.
      * apply Hstop. intros Hf. discriminate Hf.
      * destruct (IH s1 Hok1)
          as (r' & s' & t' & Hrun' & Hrun2 & Hs2 & (taken & Htk & _) & Hv2).
        rewrite Hrun'. cbn [prepend]. do 3 eexists. split; [reflexivity |].
        split; [exact (run_ok_step _ _ _ _ _ Hone Hrun2) |].
        split; [rewrite filter_app, Hone', Hs2; reflexivity |].
        split; [exists (b :: taken); split;
                [rewrite Htk at 1; reflexivity | discriminate] |].
        exact Hv2.
Qed.

Lemma read_sensing_ok (s : State) :
  exists s' t,
    read_sensing s = Some (tt, s', t) /\
    mPendingMessage s' = mPendingMessage s /\
    mPendingMessageIndex s' = mPendingMessageIndex s /\
    mPendingMessageExpectedLength s' = mPendingMessageExpectedLength s /\
    mMessage s' = mMessage s /\
    same_config s s' /\
    Forall (dispatch_ok (callbacks s)) t /\
    filter is_thru_send t = [].
Proof.
  unfold read_sensing. mrun.
  destruct (UseSenderActiveSensing && _ && _); unfold when at 1; mrun;
    (destruct (UseReceiverActiveSensing && _ && _); unfold when at 1; mrun;
     [ destruct (mErrorCallback (callbacks s)) eqn:Hcb; unfold when; mrun | ]);
    unfold ret; cbn [prepend app];
    do 2 eexists; (split; [reflexivity|]); simc;
    repeat split; repeat constructor; try assumption.
Qed.

Lemma read_received_ok (s : State) :
  exists s' t,
    read_received s = Some (tt, s', t) /\
    mPendingMessage s' = mPendingMessage s /\
    mPendingMessageIndex s' = mPendingMessageIndex s /\
    mPendingMessageExpectedLength s' = mPendingMessageExpectedLength s /\
    mMessage s' = mMessage s /\
    same_config s s' /\
    Forall (dispatch_ok (callbacks s)) t /\
    filter is_thru_send t = [].
Proof.
  unfold read_received. mrun.
  destruct UseReceiverActiveSensing; cbn [andb].
  - destruct (type (mMessage s) =? ActiveSensing); unfold when at 1; mrun.
    + destruct (negb _); unfold when at 1; mrun;
        [ destruct (mErrorCallback (callbacks s)) eqn:Hcb;
          unfold when at 1; mrun | ];
        unfold when, ret; mrun; cbn [prepend app];
        do 2 eexists; (split; [reflexivity |]); simc;
        repeat split; repeat constructor; try assumption.
    + destruct (mReceiverActiveSensingActivated s); unfold when, ret; mrun;
        do 2 eexists; (split; [reflexivity |]); simc;
        repeat split; repeat constructor.
  - unfold when, ret. mrun.
    do 2 eexists. (split; [reflexivity |]). simc.
    repeat split; repeat constructor.
Qed.

(** The dispatcher calls at most one handler and changes nothing. *)
Lemma launchCallback_ok (s : State) :
  exists hs,
    launchCallback s = Some (tt, s, LaunchCallback (mMessage s) :: hs) /\
    Forall (dispatch_ok (callbacks s)) hs /\
    filter is_thru_send hs = [] /\
    (length hs <= 1)%nat.
Proof.
  unfold launchCallback. mrun.
  repeat match goal with
         | |- context [if ?c then _ else _] => destruct c
         end;
    unfold when, emit, ret; cbn [prepend app];
    try (match goal with
         | |- context [if ?c then _ else _] => destruct c eqn:Hcb
         end);
    cbn [prepend app].
  all: eexists; (split; [reflexivity |]).
  all: split; [repeat (constructor; try exact I; try exact Hcb) |].
  all: split; [reflexivity |].
  all: cbn [length]; lia.
Qed.

Lemma thruFilter_ok (inChannel : Z) (s : State) :
  exists t,
    thruFilter inChannel s = Some (tt, s, t) /\
    Forall (dispatch_ok (callbacks s)) t /\
    thru_ok s t.
Proof.
  unfold thruFilter. mrun.
  destruct (mThruActivated s) eqn:Ha; cbn [negb orb];
    [| exists []; split; [reflexivity |]; split; [constructor | left; reflexivity]].
  destruct (mThruFilterMode s) eqn:Hm;
    [exists []; split; [reflexivity |]; split; [constructor | left; reflexivity]
    | ..].
  all: repeat match goal with
              | |- context [if ?c then _ else _] => destruct c
              end;
    unfold when; cbn [negb];
    repeat match goal with
           | |- context [if ?c then _ else _] => destruct c
           end.
  all: eexists; (split; [reflexivity |]).
  all: split; [repeat (constructor; try exact I) |].
  all: right; rewrite Hm; split; [exact Ha | discriminate].
Qed.

Lemma handleNullVelocity_ok (s : State) :
  exists s',
    handleNullVelocityNoteOnAsNoteOff s = Some (tt, s', []) /\
    mPendingMessage s' = mPendingMessage s /\
    mPendingMessageIndex s' = mPendingMessageIndex s /\
    mPendingMessageExpectedLength s' = mPendingMessageExpectedLength s /\
    sysexArray (mMessage s') = sysexArray (mMessage s) /\
    same_config s s' /\
    valid (mMessage s') = valid (mMessage s) /\
    (known_type (type (mMessage s)) = true ->
     known_type (type (mMessage s')) = true).
Proof.
  unfold handleNullVelocityNoteOnAsNoteOff. mrun.
  destruct (_ && _ && _); unfold when; mrun;
    eexists; (split; [reflexivity |]); simc; repeat split; auto.
Qed.

Lemma inputFilter_ok (inChannel : Z) (s : State) :
  exists channelMatch, inputFilter inChannel s = Some (channelMatch, s, []).
Proof.
  unfold inputFilter. mrun.
  destruct (_ && _); [destruct (_ || _) |]; eexists; reflexivity.
Qed.

(** One call of [read]. *)
Lemma read_ok (inChannel : Z) (rx : list Z) (s : State) :
  3 <= SysExMaxSize < UINT_MOD ->
  parser_ok s ->
  exists r s' t,
    read inChannel rx s = Some (r, s', t) /\
    run_ok s s' t /\
    (exists taken,
       rx = taken ++ snd r /\
       (inChannel < MIDI_CHANNEL_OFF -> rx <> [] -> taken <> [])).
Proof.
  intros HC Hok.
  destruct (read_sensing_ok s)
    as (s1 & t0 & Hs & Hp1 & Hi1 & He1 & Hm1 & Hc1 & Hd0 & Ht0).
  assert (Hok1 : parser_ok s1)
    by (apply (parser_ok_frame s); [assumption .. | rewrite Hm1; reflexivity
                                    | exact Hok]).
  assert (Hrun1 : run_ok s s1 t0).
  { split; [exact Hok1 |]. split; [exact Hc1 |]. split; [exact Hd0 |].
    left. exact Ht0. }
  destruct (Z.lt_ge_cases inChannel MIDI_CHANNEL_OFF) as [Hon | Hoff].
  - destruct (parse_ok rx HC s1 Hok1)
      as (r & s2 & t & Hparse & Hrun2 & Ht & (taken & Htk & Hne) & Hv).
    rewrite (read_of_parse _ _ _ _ _ _ _ _ Hon Hs Hparse).
    pose proof (run_ok_step _ _ _ _ _ Hrun1 Hrun2) as Hrun12.
    destruct (fst r) eqn:Hr.
    + destruct (Hv eq_refl) as [Hvalid Hknown].
      destruct (read_received_ok s2)
        as (s3 & t3 & Hrr & Hp3 & Hi3 & He3 & Hm3 & Hc3 & Hd3 & Ht3).
      destruct (handleNullVelocity_ok s3)
        as (s4 & Hnull & Hp4 & Hi4 & He4 & Ha4 & Hc4 & Hv4 & Hk4).
      destruct (inputFilter_ok inChannel s4) as (channelMatch & Hfilter).
      destruct (launchCallback_ok s4) as (hs & Hlaunch & Hdh & Hth & _).
      destruct (thruFilter_ok inChannel s4) as (t5 & Hthru & Hd5 & Ht5).
      rewrite (run_known _ _ _ _ _ _ Hrr), (run_known _ _ _ _ _ _ Hnull),
        (run_known _ _ _ _ _ _ Hfilter).
      assert (Hok4 : parser_ok s4).
      { apply (parser_ok_frame s3); [assumption .. |].
        apply (parser_ok_frame s2); [assumption .. | rewrite Hm3; reflexivity |].
        apply Hrun2. }
      assert (Hc24 : same_config s2 s4)
        by exact (same_config_trans _ _ _ Hc3 Hc4).
      assert (Hlast : forall tl : list Event,
                Forall (dispatch_ok (callbacks s4)) tl ->
                filter is_thru_send tl = [] ->
                run_ok s2 s4 (t3 ++ [] ++ [] ++ tl ++ t5 ++ [])).
      { intros tl Hdl Htl. split; [exact Hok4 |]. split; [exact Hc24 |].
        cbn [app]. rewrite app_nil_r.
        rewrite (same_config_callbacks _ _ Hc24) in Hdl, Hd5. split.
        - repeat (apply Forall_app; split); assumption.
        - apply thru_ok_app; [left; exact Ht3 |].
          apply thru_ok_app; [left; exact Htl |].
          exact (thru_ok_config _ _ _ Hc24 Ht5). }
      destruct channelMatch; unfold when.
      * rewrite (run_known _ _ _ _ _ _ Hlaunch),
          (run_known _ _ _ _ _ _ Hthru).
        unfold ret. cbn [prepend]. do 3 eexists. split; [reflexivity |].
        split; [| exists taken; split; [exact Htk | intros _; exact Hne]].
        apply (run_ok_step _ _ _ _ _ Hrun12).
        apply Hlast; [| cbn; exact Hth].
        constructor; [| exact Hdh]. cbn. split; [| apply Hk4].
        -- rewrite Hv4, Hm3. exact Hvalid.
        -- rewrite Hm3. exact Hknown.
      * rewrite run_ret, (run_known _ _ _ _ _ _ Hthru).
        unfold ret. cbn [prepend]. do 3 eexists. split; [reflexivity |].
        split; [| exists taken; split; [exact Htk | intros _; exact Hne]].
        apply (run_ok_step _ _ _ _ _ Hrun12).
        apply (Hlast []); [constructor | reflexivity].
    + cbn [prepend]. rewrite app_nil_r. do 3 eexists. split; [reflexivity |].
      split; [exact Hrun12 |].
      exists taken. split; [exact Htk | intros _; exact Hne].
  - unfold read. rewrite (run_known _ _ _ _ _ _ Hs).
    assert (Hge : (inChannel >=? MIDI_CHANNEL_OFF) = true)
      by (apply Z.geb_le; lia).
    rewrite Hge. unfold ret. cbn [prepend]. rewrite app_nil_r.
    do 3 eexists. split; [reflexivity |]. split; [exact Hrun1 |].
    exists []. split; [reflexivity | lia].
Qed.

(** Polling a queue to its end. *)
Lemma poll_loop_ok (inChannel : Z) :
  3 <= SysExMaxSize < UINT_MOD ->
  forall (fuel : nat) (rx : list Z) (s : State),
    parser_ok s ->
    exists rest s' t,
      poll_loop fuel inChannel rx s = Some (rest, s', t) /\
      run_ok s s' t /\
      (inChannel < MIDI_CHANNEL_OFF -> (length rx <= fuel)%nat -> rest = []).
Proof.
  intros HC. induction fuel as [|fuel IH]; intros rx s Hok.
  - do 3 eexists. split; [reflexivity |].
    split; [split; [exact Hok |]; split; [apply same_config_refl |];
            split; [constructor | left; reflexivity] |].
    intros _ Hlen. destruct rx; [reflexivity | cbn in Hlen; lia].
  - destruct rx as [|b rx].
    + do 3 eexists. split; [reflexivity |].
      split; [split; [exact Hok |]; split; [apply same_config_refl |];
              split; [constructor | left; reflexivity] |].
      reflexivity.
    + rewrite poll_loop_step by discriminate.
      destruct (read_ok inChannel (b :: rx) s HC Hok)
        as (r & s1 & t1 & Hread & Hrun1 & (taken & Htk & Hne)).
      rewrite (run_known _ _ _ _ _ _ Hread).
      destruct (IH (snd r) s1 ltac:(apply Hrun1))
        as (rest & s2 & t2 & Hpoll & Hrun2 & Hrest).
      rewrite Hpoll. cbn [prepend]. do 3 eexists. split; [reflexivity |].
      split; [exact (run_ok_step _ _ _ _ _ Hrun1 Hrun2) |].
      intros Hon Hlen. apply Hrest; [exact Hon |].
      specialize (Hne Hon ltac:(discriminate)).
      apply (f_equal length) in Htk. rewrite length_app in Htk.
      destruct taken; [congruence |]. cbn [length] in *. lia.
Qed.

End RunOk.

(** ** What the receive path keeps, on every byte stream *)

Section ReceivePath.

Context `{Defs} `{Settings} `{Platform}.

(** [begin] establishes the parser's invariant. *)
Lemma begin_parser_ok (inChannel : Z) (s : State) :
  well_formed s ->
  exists s',
    begin inChannel s = Some (tt, s', [TransportBegin]) /\
    parser_ok s' /\
    mThruActivated s' = true /\
    mThruFilterMode s' = Thru.Full.
Proof.
  intros [Hlp Hls]. unfold begin. mrun. eexists. split; [reflexivity |].
  split; [| split; reflexivity].
  split; [split; sim; assumption | left; reflexivity].
Qed.

(** X1: from a state that satisfies the parser's invariant (the state
    [begin] leaves does), polling any queue of bytes, on any listening
    channel, never indexes outside [mPendingMessage] or [sysexArray]
    when the SysEx buffer has at least three cells: the run is defined,
    the invariant holds again afterwards, and unless the input is
    switched off every byte of the queue has been consumed. *)
Theorem poll_stays_in_bounds (inChannel : Z) (rx : list Z) (s : State) :
  3 <= SysExMaxSize < UINT_MOD ->
  parser_ok s ->
  exists rest s' t,
    poll inChannel rx s = Some (rest, s', t) /\
    parser_ok s' /\
    (inChannel < MIDI_CHANNEL_OFF -> rest = []).
Proof.
  intros HC Hok.
  destruct (poll_loop_ok inChannel HC (length rx) rx s Hok)
    as (rest & s' & t & Hpoll & Hrun & Hrest).
  exists rest, s', t. split; [exact Hpoll |]. split; [apply Hrun |].
  intros Hon. apply Hrest; [exact Hon | lia].
Qed.

(** X2: polling never changes the configuration of the interface: the
    input channel, the soft-thru switch and mode, the attached handlers,
    the RPN and NRPN numbers and the active-sensing period are after any
    queue of bytes what they were before.  The sender's running status
    is not among them: soft thru calls the send functions, which keep
    it and are not part of this model. *)
Theorem poll_keeps_configuration (inChannel : Z) (rx : list Z) (s : State) :
  3 <= SysExMaxSize < UINT_MOD ->
  parser_ok s ->
  exists rest s' t,
    poll inChannel rx s = Some (rest, s', t) /\
    mInputChannel s' = mInputChannel s /\
    mThruActivated s' = mThruActivated s /\
    mThruFilterMode s' = mThruFilterMode s /\
    callbacks s' = callbacks s /\
    mCurrentRpnNumber s' = mCurrentRpnNumber s /\
    mCurrentNrpnNumber s' = mCurrentNrpnNumber s /\
    mSenderActiveSensingPeriodicity s' = mSenderActiveSensingPeriodicity s.
Proof.
  intros HC Hok.
  destruct (poll_loop_ok inChannel HC (length rx) rx s Hok)
    as (rest & s' & t & Hpoll & (_ & Hc & _) & _).
  destruct Hc as (c1 & c2 & c3 & c4 & c5 & c6 & c7 & c8).
  exists rest, s', t. split; [exact Hpoll |].
  repeat split; assumption.
Qed.

(** X3: every message handed to the dispatcher is complete ([valid]) and
    has one of the nineteen types [launchCallback] has a case for: the
    [default] branch of its [switch] is never taken. *)
Theorem poll_dispatches_known_types (inChannel : Z) (rx : list Z) (s : State) :
  3 <= SysExMaxSize < UINT_MOD ->
  parser_ok s ->
  exists rest s' t,
    poll inChannel rx s = Some (rest, s', t) /\
    forall m, In (LaunchCallback m) t ->
      valid m = true /\ known_type (type m) = true.
Proof.
  intros HC Hok.
  destruct (poll_loop_ok inChannel HC (length rx) rx s Hok)
    as (rest & s' & t & Hpoll & (_ & _ & Hd & _) & _).
  exists rest, s', t. split; [exact Hpoll |].
  intros m Hin. rewrite List.Forall_forall in Hd.
  exact (Hd _ Hin).
Qed.

(** X17: polling never calls a handler that is not attached: whatever
    the bytes, each call of a handler in the trace, the error handler
    included, goes through a slot that holds a function and not
    [nullptr]. *)
Theorem poll_calls_attached_handlers_only
    (inChannel : Z) (rx : list Z) (s : State) :
  3 <= SysExMaxSize < UINT_MOD ->
  parser_ok s ->
  exists rest s' t,
    poll inChannel rx s = Some (rest, s', t) /\
    forall e slot,
      In e t -> handler_slot e = Some slot -> slot (callbacks s) = true.
Proof.
  intros HC Hok.
  destruct (poll_loop_ok inChannel HC (length rx) rx s Hok)
    as (rest & s' & t & Hpoll & (_ & _ & Hd & _) & _).
  exists rest, s', t. split; [exact Hpoll |].
  intros e slot Hin Hslot. rewrite List.Forall_forall in Hd.
  specialize (Hd _ Hin).
  destruct e; try discriminate Hslot; cbn in Hd, Hslot;
    injection Hslot as <-; exact Hd.
Qed.

(** X4: once soft thru is switched off, by [turnThruOff()], by
    [setThruFilterMode(Thru::Off)] or by [turnThruOn(Thru::Off)], no
    byte stream makes the interface call a send function of the thru
    filter. *)
Theorem thru_off_forwards_nothing (inChannel : Z) (rx : list Z) (s : State) :
  3 <= SysExMaxSize < UINT_MOD ->
  parser_ok s ->
  forall switch : M unit,
    In switch [turnThruOff; setThruFilterMode Thru.Off; turnThruOn Thru.Off] ->
    exists rest s' t,
      (switch ;; poll inChannel rx) s = Some (rest, s', t) /\
      filter is_thru_send t = [].
Proof.
  intros HC Hok switch Hin.
  assert (Hsw : exists s0,
            switch s = Some (tt, s0, []) /\ parser_ok s0 /\
            mThruFilterMode s0 = Thru.Off).
  { cbn [In] in Hin. decompose [or] Hin; try contradiction; subst switch;
      eexists; (split; [reflexivity |]);
      (split; [apply (parser_ok_frame s); [reflexivity .. | exact Hok]
              | reflexivity]). }
  destruct Hsw as (s0 & Hs0 & Hok0 & Hoff).
  destruct (poll_loop_ok inChannel HC (length rx) rx s0 Hok0)
    as (rest & s' & t & Hpoll & (_ & _ & _ & Hthru) & _).
  rewrite (run_known _ _ _ _ _ _ Hs0). unfold poll. rewrite Hpoll.
  cbn [prepend app]. exists rest, s', t. split; [reflexivity |].
  destruct Hthru as [Hnone | [_ Hmode]]; [exact Hnone | congruence].
Qed.

End ReceivePath.

(** ** Channel messages and running status *)

Section ChannelMessages.

Context `{Defs} `{Settings} `{Platform}.

Lemma data_byte_tests (d : Z) :
  data_byte d ->
  (d =? Undefined_FD) = false /\ (d >=? 128) = false /\ (d <? 128) = true.
Proof.
  unfold data_byte, Undefined_FD. intros Hd.
  split; [apply Z.eqb_neq; lia |].
  split; [destruct (Z.geb_spec d 128); [lia | reflexivity] |].
  apply Z.ltb_lt. lia.
Qed.

Lemma channel_status_tests (st : Z) :
  0x80 <= st < 0xf0 ->
  (st =? Undefined_FD) = false /\ (st <? 128) = false /\
  (st =? SystemExclusiveStart) || (st =? SystemExclusiveEnd) = false /\
  isChannelMessage (getTypeFromStatusByte st) = true.
Proof.
  intros Hst. split; [apply Z.eqb_neq; unfold Undefined_FD; lia |].
  split; [destruct (Z.ltb_spec st 128); [lia | reflexivity] |].
  split.
  - apply orb_false_intro; apply Z.eqb_neq;
      unfold SystemExclusiveStart, SystemExclusive, SystemExclusiveEnd; lia.
  - destruct (getTypeFromStatusByte_cases st) as [E | [(_ & _ & Hin) | [Hge _]]];
      [| | lia].
    + unfold getTypeFromStatusByte in E.
      destruct (Z.ltb_spec st 128); [lia |]. cbn [orb] in E.
      destruct (Z.eqb_spec st Undefined_F4); [unfold Undefined_F4 in *; lia |].
      destruct (Z.eqb_spec st Undefined_F5); [unfold Undefined_F5 in *; lia |].
      destruct (Z.eqb_spec st Undefined_FD); [unfold Undefined_FD in *; lia |].
      cbn [orb] in E. destruct (Z.ltb_spec st 0xf0); [| lia].
      pose proof (land_f0_cases st Hst) as Hin. rewrite E in Hin.
      cbv in Hin. intuition discriminate.
    + cbn [In] in Hin.
      decompose [or] Hin; try contradiction;
        match goal with E : _ = getTypeFromStatusByte _ |- _ =>
          rewrite <- E end; reflexivity.
Qed.

(** The status byte of a channel message, with no message pending. *)
Lemma parse_byte_channel_status (st : Z) (s : State) :
  0x80 <= st < 0xf0 ->
  length (mPendingMessage s) = 3%nat ->
  mPendingMessageIndex s = 0 ->
  exists s',
    parse_byte st s = Some (Recurse, s', []) /\
    mPendingMessage s' = <[0%nat := st]> (mPendingMessage s) /\
    mPendingMessageIndex s' = 1 /\
    mPendingMessageExpectedLength s' = (if two_bytes st then 2 else 3) /\
    mRunningStatus_RX s' = mRunningStatus_RX s /\
    mMessage s' = mMessage s /\
    mLastError s' = mLastError s /\
    same_config s s'.
Proof.
  intros Hst Hlp Hidx.
  destruct (channel_status_tests st Hst) as (Hfd & Hlt & Hsx & Hch).
  destruct s as [ic rs tx pend exp idx rpn nrpn ta tm msg st' rt per act err cb].
  cbn in Hlp, Hidx. subst idx.
  destruct pend as [|p0 [|p1 [|p2 [|]]]]; try discriminate. clear Hlp.
  unfold parse_byte. rewrite Hfd. xrun. unfold parse_start. xrun.
  rewrite Hlt, andb_false_r. unfold when at 1. xrun.
  apply isChannelMessage_cases in Hch. cbn [In] in Hch.
  unfold two_bytes.
  decompose [or] Hch; try contradiction;
    match goal with E : _ = getTypeFromStatusByte _ |- _ => rewrite <- E end;
    change (case_of ?x ?l) with (existsb (Z.eqb x) l);
    cbn [existsb Z.eqb orb
      NoteOff NoteOn ControlChange AfterTouchPoly AfterTouchChannel PitchBend
      ProgramChange Start Continue Stop Clock Tick ActiveSensing SystemReset
      TuneRequest TimeCodeQuarterFrame SongSelect SongPosition
      SystemExclusiveStart SystemExclusiveEnd SystemExclusive Pos.eqb];
    xrun; unfold parse_start_check; xrun;
    change (usub 2 1) with 1; change (usub 3 1) with 2; simx; xrun;
    change (uadd 0 1) with 1; unfold ret;
    eexists; (split; [reflexivity |]); repeat split.
Qed.

(** The first data byte of a message of three bytes. *)
Lemma parse_byte_first_data (st d : Z) (s : State) :
  data_byte d ->
  length (mPendingMessage s) = 3%nat ->
  mPendingMessage s !! 0%nat = Some st ->
  (st =? SystemExclusiveStart) || (st =? SystemExclusiveEnd) = false ->
  mPendingMessageIndex s = 1 ->
  mPendingMessageExpectedLength s = 3 ->
  exists s',
    parse_byte d s = Some (Recurse, s', []) /\
    mPendingMessage s' = <[1%nat := d]> (mPendingMessage s) /\
    mPendingMessageIndex s' = 2 /\
    mPendingMessageExpectedLength s' = 3 /\
    mRunningStatus_RX s' = mRunningStatus_RX s /\
    mMessage s' = mMessage s /\
    mLastError s' = mLastError s /\
    same_config s s'.
Proof.
  intros Hd Hlp Hp0 Hsx Hidx Hexp.
  destruct (data_byte_tests d Hd) as (Hfd & Hge & _).
  destruct s as [ic rs tx pend exp idx rpn nrpn ta tm msg st' rt per act err cb].
  cbn in Hlp, Hidx, Hexp, Hp0. subst idx exp.
  destruct pend as [|p0 [|p1 [|p2 [|]]]]; try discriminate. clear Hlp.
  injection Hp0 as ->.
  unfold parse_byte. rewrite Hfd. xrun. unfold parse_continue.
  rewrite Hge. cbn [andb]. unfold parse_data. xrun. rewrite Hsx. xrun.
  change (usub 3 1) with 2. simx. xrun. change (uadd 1 1) with 2.
  unfold ret. eexists. split; [reflexivity |]. repeat split.
Qed.

(** The last data byte of a channel message. *)
Lemma parse_byte_last_data (st d1 d : Z) (s : State) :
  0x80 <= st < 0xf0 ->
  data_byte d ->
  length (mPendingMessage s) = 3%nat ->
  mPendingMessage s !! 0%nat = Some st ->
  mPendingMessage s !! 1%nat = Some d1 ->
  (mPendingMessageExpectedLength s = 3 /\ mPendingMessageIndex s = 2) \/
  (mPendingMessageExpectedLength s = 2 /\ mPendingMessageIndex s = 1) ->
  exists s',
    parse_byte d s = Some (Return true, s', []) /\
    mMessage s'
    = mkMessage (getChannelFromStatusByte st) (getTypeFromStatusByte st)
        (if mPendingMessageExpectedLength s =? 3 then d1 else d)
        (if mPendingMessageExpectedLength s =? 3 then d else 0)
        (sysexArray (mMessage s)) true (len (mMessage s)) /\
    mPendingMessageIndex s' = 0 /\
    mPendingMessageExpectedLength s' = 0 /\
    mRunningStatus_RX s' = st /\
    length (mPendingMessage s') = 3%nat /\
    mLastError s' = mLastError s /\
    same_config s s'.
Proof.
  intros Hst Hd Hlp Hp0 Hp1 Hcase.
  destruct (data_byte_tests d Hd) as (Hfd & Hge & _).
  destruct (channel_status_tests st Hst) as (_ & _ & Hsx & Hch).
  assert (Hrs : case_of (getTypeFromStatusByte st)
                  [NoteOff; NoteOn; AfterTouchPoly; ControlChange;
                   ProgramChange; AfterTouchChannel; PitchBend] = true).
  { apply case_of_In. apply isChannelMessage_cases in Hch.
    cbn [In] in *. intuition. }
  destruct s as [ic rs tx pend exp idx rpn nrpn ta tm msg st' rt per act err cb].
  destruct msg as [ch ty m1 m2 arr v ln].
  cbn in Hlp, Hp0, Hp1, Hcase.
  destruct pend as [|p0 [|p1 [|p2 [|]]]]; try discriminate. clear Hlp.
  injection Hp0 as ->. injection Hp1 as ->.
  unfold parse_byte. rewrite Hfd. xrun.
  destruct Hcase as [[-> ->] | [-> ->]]; simx;
    unfold parse_continue; rewrite Hge; cbn [andb]; unfold parse_data; xrun;
    rewrite Hsx; xrun;
    change (usub 2 1) with 1; change (usub 3 1) with 2; simx; xrun;
    rewrite Hch, Hrs; unfold ret;
    eexists; (split; [reflexivity |]); repeat split.
Qed.








End ChannelMessages.

(** ** Single bytes *)

Section SingleBytes.

Context `{Defs} `{Settings} `{Platform}.

Lemma realtime_tests (b : Z) :
  In b [Clock; Start; Tick; Continue; Stop; ActiveSensing; SystemReset] ->
  (b =? Undefined_FD) = false /\ (b <? 128) = false /\
  getTypeFromStatusByte b = b /\
  case_of b [Start; Continue; Stop; Clock; Tick; ActiveSensing; SystemReset;
             TuneRequest] = true /\
  (b >=? 128)
  && case_of b [Clock; Start; Tick; Continue; Stop; ActiveSensing;
                SystemReset] = true.
Proof.
  cbn [In]. intros Hb.
  decompose [or] Hb; try contradiction; subst b; repeat split.
Qed.

(** X6: a real-time byte (0xF8, 0xF9, 0xFA, 0xFB, 0xFC, 0xFE, 0xFF) is
    a message of its own wherever it arrives: [parse] returns true with
    a valid message of that type, calls nothing, and leaves the running
    status and the SysEx buffer as they were; when a message is in
    progress, the pending bytes, the index and the expected length are
    left as they were too. *)
Theorem realtime_byte_is_transparent (b : Z) (rx' : list Z) (s : State) :
  In b [Clock; Start; Tick; Continue; Stop; ActiveSensing; SystemReset] ->
  length (mPendingMessage s) = 3%nat ->
  exists s',
    parse (b :: rx') s
    = Some ((true, rx'), s', [TransportAvailable; TransportRead b]) /\
    is_message (mMessage s') b 0 0 0 /\
    mRunningStatus_RX s' = mRunningStatus_RX s /\
    sysexArray (mMessage s') = sysexArray (mMessage s) /\
    (mPendingMessageIndex s <> 0 ->
     mPendingMessage s' = mPendingMessage s /\
     mPendingMessageIndex s' = mPendingMessageIndex s /\
     mPendingMessageExpectedLength s' = mPendingMessageExpectedLength s).
Proof.
  intros Hb Hlp.
  destruct (realtime_tests b Hb) as (Hfd & Hlt & Hty & Hone & Hrt).
  assert (Hrun : exists s',
    parse_byte b (cleared s) = Some (Return true, s', []) /\
    is_message (mMessage s') b 0 0 0 /\
    mRunningStatus_RX s' = mRunningStatus_RX s /\
    sysexArray (mMessage s') = sysexArray (mMessage s) /\
    (mPendingMessageIndex s <> 0 ->
     mPendingMessage s' = mPendingMessage s /\
     mPendingMessageIndex s' = mPendingMessageIndex s /\
     mPendingMessageExpectedLength s' = mPendingMessageExpectedLength s)).
  { destruct s as [ic rs tx pend exp idx rpn nrpn ta tm msg st rt per act err cb].
    destruct msg as [ch ty d1 d2 arr v ln].
    cbn in Hlp. destruct pend as [|p0 [|p1 [|p2 [|]]]]; try discriminate.
    unfold cleared, parse_byte. rewrite Hfd. xrun.
    destruct (Z.eqb_spec idx 0) as [-> | Hnz].
    - unfold parse_start. xrun. rewrite Hlt, andb_false_r. unfold when. xrun.
      rewrite Hty, Hone. xrun. unfold ret.
      eexists. split; [reflexivity |]. split; [repeat split |].
      split; [reflexivity |]. split; [reflexivity |].
      intros Hf. contradiction.
    - unfold parse_continue. rewrite Hrt. xrun. unfold ret.
      eexists. split; [reflexivity |]. split; [repeat split |].
      split; [reflexivity |]. split; [reflexivity |].
      intros _. repeat split. }
  destruct Hrun as (s' & Hrun & Hpost).
  exists s'. rewrite (parse_cons _ _ _ _ _ _ Hrun). cbn [prepend app].
  split; [reflexivity | exact Hpost].
Qed.

(** X7: with no message in progress and no running status, a byte that
    is no status byte (a data byte, or the undefined 0xF4 and 0xF5) is a
    parse error: [parse] returns false, the parse-error bit is set, the
    error handler is called when one is attached, the input state is
    reset and the stored message is as before. *)
Theorem stray_byte_is_parse_error (b : Z) (rx' : list Z) (s : State) :
  0 <= ErrorParse < 8 ->
  getTypeFromStatusByte b = InvalidType ->
  b <> Undefined_FD ->
  length (mPendingMessage s) = 3%nat ->
  mPendingMessageIndex s = 0 ->
  isChannelMessage (getTypeFromStatusByte (mRunningStatus_RX s)) = false ->
  exists s' t,
    parse (b :: rx') s = Some ((false, rx'), s', t) /\
    t = [TransportAvailable; TransportRead b]
        ++ (if mErrorCallback (callbacks s)
            then [ErrorCallback (mLastError s')] else []) /\
    Z.testbit (mLastError s') ErrorParse = true /\
    mPendingMessageIndex s' = 0 /\
    mPendingMessageExpectedLength s' = 0 /\
    mRunningStatus_RX s' = InvalidType /\
    mMessage s' = mMessage s.
Proof.
  intros He Hty Hfd Hlp Hidx Hrs. apply Z.eqb_neq in Hfd.
  destruct s as [ic rs tx pend exp idx rpn nrpn ta tm msg st rt per act err cb].
  cbn in Hlp, Hidx, Hrs. subst idx.
  destruct pend as [|p0 [|p1 [|p2 [|]]]]; try discriminate.
  cbn [parse]. unfold clearParseError, parse_byte. rewrite Hfd. xrun.
  unfold parse_start. xrun. rewrite Hrs. unfold when at 1. simx. xrun.
  rewrite Hty. simc. xrun. unfold ret.
  destruct (mErrorCallback cb); cbn [prepend app];
    (do 2 eexists; split; [reflexivity |]; simc;
     split; [reflexivity |];
     split; [apply testbit_set_bit; exact He | repeat split]).
Qed.

End SingleBytes.

(** ** A SysEx buffer of two cells *)

Section SmallBuffer.

Context `{Defs} `{Settings} `{Platform}.

Lemma run_write_sysex_overrun {B} (i v : Z) (k : unit -> M B) s :
  (length (sysexArray (mMessage s)) <= Z.to_nat i)%nat ->
  bind (write_sysex i v) k s = None.
Proof.
  intros Hi. unfold write_sysex. rewrite bind_assoc, run_gets, bind_assoc.
  unfold store. apply Nat.ltb_ge in Hi. rewrite Hi. reflexivity.
Qed.

(** A data byte for the cell after the last one. *)
Lemma parse_byte_sysex_overrun (b : Z) (s : State) (p0 : Z) :
  data_byte b ->
  mPendingMessage s !! 0%nat = Some p0 ->
  p0 = SystemExclusiveStart \/ p0 = SystemExclusiveEnd ->
  0 < mPendingMessageIndex s ->
  (length (sysexArray (mMessage s)) <= Z.to_nat (mPendingMessageIndex s))%nat ->
  parse_byte b s = None.
Proof.
  intros Hb Hp0 Hsx Hidx Hover.
  unfold parse_byte. rewrite (data_byte_not_FD b Hb). mrun.
  assert (Hnz : (mPendingMessageIndex s =? 0) = false)
    by (apply Z.eqb_neq; lia).
  rewrite Hnz. unfold parse_continue.
  rewrite (data_byte_not_status b Hb). simc.
  unfold parse_data. mrun.
  rewrite (run_read_pending 0 p0) by exact Hp0.
  rewrite (sysex_status p0 Hsx). mrun.
  apply run_write_sysex_overrun. exact Hover.
Qed.

Lemma parse_undefined (b : Z) (rx' : list Z) (s : State) :
  parse_byte b (cleared s) = None -> parse (b :: rx') s = None.
Proof.
  intros Hb. cbn [parse]. mrun. rewrite run_clearParseError. mrun.
  unfold bind. fold (cleared s). rewrite Hb. reflexivity.
Qed.

Lemma read_undefined (inChannel : Z) (rx : list Z) (s s1 : State) t0 :
  inChannel < MIDI_CHANNEL_OFF ->
  read_sensing s = Some (tt, s1, t0) ->
  parse rx s1 = None ->
  read inChannel rx s = None.
Proof.
  intros Hon Hs Hp. unfold read. rewrite (run_known _ _ _ _ _ _ Hs).
  assert (Hge : (inChannel >=? MIDI_CHANNEL_OFF) = false)
    by (destruct (Z.geb_spec inChannel MIDI_CHANNEL_OFF); [lia | reflexivity]).
  rewrite Hge. unfold bind at 1. rewrite Hp. reflexivity.
Qed.

Lemma parse_byte_first_cell (s : State) :
  SysExMaxSize = 2 ->
  well_formed s ->
  mPendingMessageIndex s = 0 ->
  exists s',
    parse_byte SystemExclusiveStart (cleared s) = Some (Recurse, s', []) /\
    sysex_started s'.
Proof.
  intros HC Hwf Hidx.
  assert (HC2 : 2 <= SysExMaxSize < UINT_MOD)
    by (rewrite HC, UINT_MOD_eq; lia).
  pose proof (parse_byte_sysex_begin (cleared s) HC2 Hwf Hidx) as Hrun.
  eexists. split; [exact Hrun |].
  destruct Hwf as [Hlp Hls].
  split; [split; sim; rewrite length_insert; assumption |].
  split; [sim; apply list_lookup_insert_eq; lia |].
  split; reflexivity.
Qed.

Lemma parse_second_cell (d : Z) (rx : list Z) (s : State) :
  SysExMaxSize = 2 ->
  data_byte d ->
  sysex_started s ->
  exists s' t,
    parse (d :: rx) s = Some ((false, rx), s', t) /\ sysex_overfull s'.
Proof.
  intros HC Hd (Hwf & Hp0 & Hexp & Hidx).
  assert (HC2 : 2 <= SysExMaxSize < UINT_MOD)
    by (rewrite HC, UINT_MOD_eq; lia).
  pose proof (parse_byte_sysex_full d (cleared s) SystemExclusiveStart HC2
                Hwf Hp0 ltac:(left; reflexivity) Hexp
                ltac:(unfold cleared; sim; lia)) as Hrun.
  specialize (Hrun Hd). cbv zeta in Hrun.
  rewrite (parse_cons _ _ _ _ _ _ Hrun). cbn [prepend].
  do 2 eexists. split; [reflexivity |].
  destruct Hwf as [Hlp Hls].
  split; [sim; rewrite !length_insert, Hls, HC; reflexivity |].
  split; [exact Hp0 | reflexivity].
Qed.

Lemma parse_third_cell (d : Z) (rx : list Z) (s : State) :
  data_byte d ->
  sysex_overfull s ->
  parse (d :: rx) s = None.
Proof.
  intros Hd (Hls & Hp0 & Hidx).
  apply parse_undefined.
  apply (parse_byte_sysex_overrun d (cleared s) SystemExclusiveStart Hd Hp0);
    [left; reflexivity | unfold cleared; sim; lia |].
  unfold cleared. sim. rewrite Hls, Hidx. reflexivity.
Qed.

(** X8: a SysEx buffer of two cells is too small for the chunking of
    [parse]: after 0xF0 and one data byte the buffer is flushed and the
    index of the next byte is set to 2, so that the next data byte is
    written to [sysexArray[2]], outside the buffer.  Polling a queue
    that starts with 0xF0 and two data bytes is undefined there. *)
Theorem sysex_buffer_of_two_overruns (inChannel : Z) (d1 d2 : Z)
    (rx : list Z) (s : State) :
  SysExMaxSize = 2 ->
  inChannel < MIDI_CHANNEL_OFF ->
  well_formed s ->
  mPendingMessageIndex s = 0 ->
  data_byte d1 -> data_byte d2 ->
  poll inChannel (SystemExclusiveStart :: d1 :: d2 :: rx) s = None.
Proof.
  intros HC Hon Hwf Hidx Hd1 Hd2.
  (* the last of the three reads *)
  assert (Hlast : forall fuel s2,
            sysex_overfull s2 ->
            poll_loop (S fuel) inChannel (d2 :: rx) s2 = None).
  { intros fuel s2 (Hls & Hp0 & Hi).
    destruct (read_sensing_frame s2)
      as (s3 & t0 & Hs & _ & Hp & Hi3 & _ & Hm & _).
    rewrite poll_loop_step by discriminate.
    unfold bind.
    rewrite (read_undefined inChannel _ _ _ _ Hon Hs); [reflexivity |].
    apply parse_third_cell; [exact Hd2 |].
    split; [rewrite Hm; exact Hls |]. split; [rewrite Hp; exact Hp0 |].
    rewrite Hi3. exact Hi. }
  destruct (read_sensing_frame s)
    as (s1 & t0 & Hs & _ & Hp & Hi1 & He1 & Hm & _).
  assert (Hwf1 : well_formed s1)
    by (destruct Hwf; split; rewrite ?Hp, ?Hm; assumption).
  destruct (parse_byte_first_cell s1 HC Hwf1
              ltac:(rewrite Hi1; exact Hidx))
    as (sa & Hfirst & Hstarted).
  unfold poll. cbn [length]. rewrite poll_loop_step by discriminate.
  destruct Use1ByteParsing eqn:Hmode.
  - (* one byte per call *)
    assert (Hparse : parse (SystemExclusiveStart :: d1 :: d2 :: rx) s1
                     = Some ((false, d1 :: d2 :: rx), sa,
                             [TransportAvailable;
                              TransportRead SystemExclusiveStart] ++ []))
      by (rewrite (parse_cons _ _ _ _ _ _ Hfirst), Hmode; reflexivity).
    rewrite (run_known _ _ _ _ _ _
               (eq_trans (read_of_parse _ _ _ _ _ _ _ _ Hon Hs Hparse)
                         eq_refl)).
    cbn [snd]. rewrite poll_loop_step by discriminate.
    destruct (read_sensing_frame sa)
      as (sb & tb & Hsb & _ & Hpb & Hib & Heb & Hmb & _).
    assert (Hstarted' : sysex_started sb).
    { destruct Hstarted as ([Hl1 Hl2] & Hq0 & Hqe & Hqi).
      split; [split; rewrite ?Hpb, ?Hmb; assumption |].
      rewrite Hpb, Heb, Hib. repeat split; assumption. }
    destruct (parse_second_cell d1 (d2 :: rx) sb HC Hd1 Hstarted')
      as (sc & tc & Hparse2 & Hover).
    rewrite (run_known _ _ _ _ _ _
               (eq_trans (read_of_parse _ _ _ _ _ _ _ _ Hon Hsb Hparse2)
                         eq_refl)).
    cbn [snd]. rewrite (Hlast _ sc Hover). reflexivity.
  - (* as many bytes as it takes *)
    destruct (parse_second_cell d1 (d2 :: rx) sa HC Hd1 Hstarted)
      as (sc & tc & Hparse2 & Hover).
    assert (Hparse : exists t,
              parse (SystemExclusiveStart :: d1 :: d2 :: rx) s1
              = Some ((false, d2 :: rx), sc, t))
      by (rewrite (parse_cons _ _ _ _ _ _ Hfirst), Hmode, Hparse2;
          eexists; reflexivity).
    destruct Hparse as (t & Hparse).
    rewrite (run_known _ _ _ _ _ _
               (eq_trans (read_of_parse _ _ _ _ _ _ _ _ Hon Hs Hparse)
                         eq_refl)).
    cbn [snd]. rewrite (Hlast _ sc Hover). reflexivity.
Qed.

End SmallBuffer.

(** ** Status bytes, handlers and switches *)

(** X9: a channel status byte (0x80 to 0xEF) splits into the type
    [getTypeFromStatusByte] gives, one of the seven channel message
    types, and the channel [getChannelFromStatusByte] gives, between 1
    and 16, and the byte is the type with the channel less one in its
    low four bits. *)
Theorem status_byte_splits (st : Z) :
  0x80 <= st < 0xf0 ->
  In (getTypeFromStatusByte st)
     [NoteOff; NoteOn; AfterTouchPoly; ControlChange; ProgramChange;
      AfterTouchChannel; PitchBend] /\
  1 <= getChannelFromStatusByte st <= 16 /\
  Z.lor (getTypeFromStatusByte st) (getChannelFromStatusByte st - 1) = st.
Proof.
  intros Hst.
  pose proof (byte_cases
    (fun b =>
       negb ((0x80 <=? b) && (b <? 0xf0))
       || (case_of (getTypeFromStatusByte b)
             [NoteOff; NoteOn; AfterTouchPoly; ControlChange; ProgramChange;
              AfterTouchChannel; PitchBend]
           && (1 <=? getChannelFromStatusByte b)
           && (getChannelFromStatusByte b <=? 16)
           && (Z.lor (getTypeFromStatusByte b)
                 (getChannelFromStatusByte b - 1) =? b)))
    ltac:(vm_compute; reflexivity) st ltac:(lia)) as Hc.
  cbv beta in Hc.
  destruct (Z.leb_spec 0x80 st); [| lia].
  destruct (Z.ltb_spec st 0xf0); [| lia].
  cbn [andb negb orb] in Hc.
  apply andb_true_iff in Hc as [Hc Heq].
  apply andb_true_iff in Hc as [Hc Hhi].
  apply andb_true_iff in Hc as [Hty Hlo].
  split; [apply case_of_In; exact Hty |].
  split; [split; [apply Z.leb_le; exact Hlo | apply Z.leb_le; exact Hhi] |].
  apply Z.eqb_eq. exact Heq.
Qed.

(** X10: the two tests the code has for a channel message agree on
    every type [getTypeFromStatusByte] returns: the range test of
    [inputFilter] and [thruFilter] ([type >= NoteOff && type <=
    PitchBend]) holds exactly when [isChannelMessage] does. *)
Theorem channel_message_tests_agree (inStatus : Z) :
  let t := getTypeFromStatusByte inStatus in
  (t >=? NoteOff) && (t <=? PitchBend) = isChannelMessage t.
Proof.
  cbv zeta.
  destruct (getTypeFromStatusByte_cases inStatus)
    as [E | [(_ & _ & Hin) | [Hge E]]].
  - rewrite E. reflexivity.
  - cbn [In] in Hin. decompose [or] Hin; try contradiction;
      match goal with E : _ = getTypeFromStatusByte _ |- _ =>
        rewrite <- E end; reflexivity.
  - rewrite E. unfold isChannelMessage, NoteOff, NoteOn, ControlChange,
      AfterTouchPoly, AfterTouchChannel, PitchBend, ProgramChange.
    destruct (Z.leb_spec inStatus 224); [lia |]. rewrite andb_false_r.
    symmetry. repeat (apply orb_false_intro); apply Z.eqb_neq; lia.
Qed.

Section Handlers.

Context `{Defs} `{Settings} `{Platform}.

(** X11: [disconnectCallbackFromType(inType)] detaches the handler of
    [inType] and no other: afterwards the dispatcher calls no handler
    for a message of that type, and calls for a message of any other
    type what it called before.  Nothing else in the interface
    changes. *)
Theorem disconnect_detaches_one_handler (inType : Z) (s : State) :
  exists s',
    disconnectCallbackFromType inType s = Some (tt, s', []) /\
    (forall m, type m = inType -> dispatched m s' = [LaunchCallback m]) /\
    (forall m, type m <> inType -> dispatched m s' = dispatched m s) /\
    mErrorCallback (callbacks s') = mErrorCallback (callbacks s) /\
    set_callbacks (callbacks s) s' = s.
Proof.
  destruct s as [ic rs tx pend exp idx rpn nrpn ta tm msg st rt per act err cb].
  destruct cb.
  unfold disconnectCallbackFromType.
  repeat match goal with
         | |- context [if ?x =? ?y then _ else _] =>
             destruct (Z.eqb_spec x y)
         end.
  all: eexists; (split; [reflexivity |]).
  all: split; [| split; [| split; reflexivity]].
  all: intros m Hm; unfold dispatched, launchCallback; mrun.
  all: try (rewrite Hm; subst; reflexivity).
  all: try (rewrite Hm;
            repeat match goal with
                   | Hn : _ <> _ |- _ =>
                       apply Z.eqb_neq in Hn; rewrite Hn; clear Hn
                   end; reflexivity).
  all: subst.
  all: repeat match goal with
              | |- context [if ?x =? ?y then _ else _] =>
                  destruct (Z.eqb_spec x y); [try congruence |]
              end; try reflexivity.
  all: match goal with
       | |- context [when ?b _] => destruct b; reflexivity
       end.
Qed.

(** X12: [setThruFilterMode(mode)] does what [turnThruOn(mode)] does,
    except for [Thru::Off], where it does what [turnThruOff()] does;
    [turnThruOn(Thru::Off)] is neither: it leaves [getThruState()]
    true with the filter mode Off. *)
Theorem setThruFilterMode_is_on_or_off (inThruFilterMode : Thru.Mode)
    (s : State) :
  setThruFilterMode inThruFilterMode s
  = match inThruFilterMode with
    | Thru.Off => turnThruOff s
    | _ => turnThruOn inThruFilterMode s
    end /\
  (turnThruOn Thru.Off ;; getThruState) s
  = Some (true, set_mThruFilterMode Thru.Off (set_mThruActivated true s), []) /\
  (turnThruOff ;; getThruState) s
  = Some (false, set_mThruFilterMode Thru.Off (set_mThruActivated false s), []).
Proof.
  split; [destruct inThruFilterMode; reflexivity |]. split; reflexivity.
Qed.

End Handlers.

(** ** The calls of the SystemExclusive handler *)

Section SysExCallsProofs.
Context `{Defs} `{Settings} `{Platform}.

Lemma sysex_calls_app (t1 t2 : list Event) :
  sysex_calls (t1 ++ t2) = sysex_calls t1 ++ sysex_calls t2.
Proof. apply omap_app. Qed.

Lemma read_sensing_calls (s : State) :
  exists s' t,
    read_sensing s = Some (tt, s', t) /\
    mPendingMessage s' = mPendingMessage s /\
    mPendingMessageIndex s' = mPendingMessageIndex s /\
    mPendingMessageExpectedLength s' = mPendingMessageExpectedLength s /\
    mMessage s' = mMessage s /\
    callbacks s' = callbacks s /\
    sysex_calls t = [] /\
    filter is_message_handler t = [].
Proof.
  unfold read_sensing. mrun.
  destruct (UseSenderActiveSensing && _ && _); unfold when at 1; mrun;
    (destruct (UseReceiverActiveSensing && _ && _); unfold when at 1; mrun;
     [ destruct (mErrorCallback (callbacks s)) eqn:Hcb; unfold when; mrun | ]);
    unfold ret; cbn [prepend app];
    do 2 eexists; (split; [reflexivity|]); simc;
    repeat split; reflexivity.
Qed.

Lemma read_received_calls (s : State) :
  exists s' t,
    read_received s = Some (tt, s', t) /\
    mMessage s' = mMessage s /\
    callbacks s' = callbacks s /\
    sysex_calls t = [] /\
    filter is_message_handler t = [].
Proof.
  unfold read_received. mrun.
  destruct UseReceiverActiveSensing; cbn [andb].
  - destruct (type (mMessage s) =? ActiveSensing); unfold when at 1; mrun.
    + destruct (negb _); unfold when at 1; mrun;
        [ destruct (mErrorCallback (callbacks s)); unfold when at 1; mrun | ];
        unfold when, ret; mrun; cbn [prepend app];
        do 2 eexists; (split; [reflexivity |]); simc;
        repeat split; reflexivity.
    + destruct (mReceiverActiveSensingActivated s); unfold when, ret; mrun;
        do 2 eexists; (split; [reflexivity |]); simc;
        repeat split; reflexivity.
  - unfold when, ret. mrun.
    do 2 eexists. (split; [reflexivity |]). simc. repeat split; reflexivity.
Qed.

Lemma thruFilter_calls (inChannel : Z) (s : State) :
  exists t,
    thruFilter inChannel s = Some (tt, s, t) /\ sysex_calls t = [] /\
    filter is_message_handler t = [].
Proof.
  unfold thruFilter. mrun.
  destruct (negb _ || _); [eexists; repeat split; reflexivity |].
  destruct (_ && _).
  - destruct (mThruFilterMode s); try destruct (_ || _); cbn;
      eexists; (repeat split; reflexivity).
  - repeat (match goal with
            | |- context [if ?c then _ else _] => destruct c
            end);
      eexists; (repeat split; reflexivity).
Qed.

(** The buffer up to the cell just written. *)
Lemma buffer_filled (a : list Z) (f b : Z) (pre : list Z) :
  a !! 0%nat = Some f ->
  take (length pre) (drop 1 a) = pre ->
  (S (length pre) < length a)%nat ->
  take (S (S (length pre))) (<[S (length pre) := b]> a) = f :: pre ++ [b].
Proof.
  intros Hf Hpre Hlen.
  destruct a as [|a0 a]; [discriminate |].
  cbn in Hf. injection Hf as ->. cbn [length] in Hlen.
  change (drop 1 (f :: a)) with a in Hpre.
  change (<[S (length pre) := b]> (f :: a)) with (f :: <[length pre := b]> a).
  rewrite firstn_cons. f_equal.
  rewrite (take_S_r _ _ b) by (apply list_lookup_insert_eq; lia).
  rewrite take_insert_ge by lia. rewrite Hpre. reflexivity.
Qed.

Lemma Receiving_view (s : State) (f b : Z) (pre : list Z) :
  Receiving s f pre ->
  call_view (<[Z.to_nat (mPendingMessageIndex s) := b]>
               (sysexArray (mMessage s)),
             mPendingMessageIndex s + 1)
  = with_length (f :: pre ++ [b]).
Proof.
  intros ([[Hlp Hls] Hp0 Ha0 Hexp Hidx Hroom Hst] & Hf & _).
  unfold call_view, with_length, payload. cbn [fst snd].
  replace (Z.to_nat (mPendingMessageIndex s + 1)) with (S (S (length pre)))
    by lia.
  replace (Z.to_nat (mPendingMessageIndex s)) with (S (length pre)) by lia.
  rewrite (buffer_filled _ f b pre Hf Hst) by lia.
  f_equal. cbn [length]. rewrite length_app. cbn [length]. lia.
Qed.

Lemma Receiving_frame (s s' : State) (f : Z) (pre : list Z) :
  mPendingMessage s' = mPendingMessage s ->
  mPendingMessageIndex s' = mPendingMessageIndex s ->
  mPendingMessageExpectedLength s' = mPendingMessageExpectedLength s ->
  mMessage s' = mMessage s ->
  callbacks s' = callbacks s ->
  Receiving s f pre -> Receiving s' f pre.
Proof.
  intros Hp Hi He Hm Hc (Hinv & Hf & Hcb).
  split; [exact (InSysEx_frame s s' pre Hp Hi He Hm Hinv) |].
  rewrite Hm, Hc. split; assumption.
Qed.

Lemma Receiving_cleared (s : State) (f : Z) (pre : list Z) :
  Receiving s f pre -> Receiving (cleared s) f pre.
Proof. apply Receiving_frame; reflexivity. Qed.

Lemma sysex_split_room (C f d : Z) (pre ds : list Z) :
  Z.of_nat (length pre) < C - 2 ->
  sysex_split C f pre (d :: ds) = sysex_split C f (pre ++ [d]) ds.
Proof.
  intros Hlt. cbn [sysex_split].
  destruct (Z.ltb_spec (Z.of_nat (length pre)) (C - 2)); [reflexivity | lia].
Qed.

Lemma sysex_split_full (C f d : Z) (pre ds : list Z) :
  C - 2 <= Z.of_nat (length pre) ->
  sysex_split C f pre (d :: ds)
  = (f :: pre ++ [SystemExclusiveStart])
    :: sysex_split C SystemExclusiveEnd [d] ds.
Proof.
  intros Hge. cbn [sysex_split].
  destruct (Z.ltb_spec (Z.of_nat (length pre)) (C - 2)); [lia | reflexivity].
Qed.

(** The last byte of a stream. *)
Lemma parse_calls_end (s : State) (f : Z) (pre : list Z) :
  3 <= SysExMaxSize < 65536 ->
  Receiving s f pre ->
  exists s',
    parse [SystemExclusiveEnd] s
    = Some ((true, []), s',
            [TransportAvailable; TransportRead SystemExclusiveEnd]) /\
    calls_done f pre [] s'.
Proof.
  intros HC Hrec.
  pose proof (Receiving_cleared s f pre Hrec) as Hrecc.
  pose proof Hrecc as ([Hwf Hp0 Ha0 Hexp Hidx Hroom Hst] & Hf & Hcb).
  pose proof Hidx as Hidx0. unfold cleared in Hidx0. simh Hidx0.
  assert (Hsx : f = SystemExclusiveStart \/ f = SystemExclusiveEnd)
    by (rewrite Hf in Ha0; destruct Ha0 as [Ha0 | Ha0];
        injection Ha0 as ->; tauto).
  pose proof (parse_byte_sysex_end SystemExclusiveEnd (cleared s) f
                ltac:(rewrite UINT_MOD_eq; lia) Hwf Hf Hsx
                ltac:(lia) ltac:(right; reflexivity)) as Hrun.
  cbv zeta in Hrun.
  rewrite (parse_cons _ _ _ _ _ _ Hrun). cbn [prepend app].
  eexists. split; [reflexivity |].
  unfold calls_done. sim.
  split; [reflexivity |]. split; [exact Hcb |].
  cbn [sysex_split map]. f_equal.
  rewrite <- (Receiving_view (cleared s) f SystemExclusiveEnd pre Hrecc).
  f_equal. f_equal.
  apply getSysExSize_coded; try reflexivity; try lia.
  exact [].
Qed.

Lemma parse_calls_stream (ds : list Z) :
  3 <= SysExMaxSize < 65536 ->
  Forall data_byte ds ->
  forall (s : State) (f : Z) (pre : list Z),
    Receiving s f pre ->
    exists r s' t,
      parse (ds ++ [SystemExclusiveEnd]) s = Some (r, s', t) /\
      parse_calls_post f pre ds (ds ++ [SystemExclusiveEnd]) r s' t.
Proof.
  intros HC Hds. induction Hds as [|d ds Hd Hds IH]; intros s f pre Hrec.
  - (* the terminator *)
    destruct (parse_calls_end s f pre HC Hrec) as (s' & Hparse & Hdone).
    cbn [app]. rewrite Hparse. do 3 eexists. split; [reflexivity |].
    split; [cbn; lia |]. right. repeat split; try reflexivity; apply Hdone.
  - (* a data byte *)
    pose proof (Receiving_cleared s f pre Hrec) as Hrecc.
    pose proof Hrecc as (Hinvc & Hf & Hcb).
    pose proof Hinvc as [Hwf Hp0 Ha0 Hexp Hidx Hroom Hst].
    pose proof Hidx as Hidx0. unfold cleared in Hidx0. simh Hidx0.
    pose proof (proj2 Hwf) as Hls0. unfold cleared in Hls0. simh Hls0.
    assert (Hp : exists p0, mPendingMessage (cleared s) !! 0%nat = Some p0 /\
                   (p0 = SystemExclusiveStart \/ p0 = SystemExclusiveEnd)).
    { destruct Hp0 as [Hp0 | Hp0]; eexists; (split; [exact Hp0 | tauto]). }
    destruct Hp as (p0 & Hp0' & Hsx).
    assert (HU : SysExMaxSize < UINT_MOD) by (rewrite UINT_MOD_eq; lia).
    unfold parse_calls_post, calls_pending, calls_done.
    destruct (Z.ltb_spec (Z.of_nat (length pre)) (SysExMaxSize - 2))
      as [Hroom' | Hfull];
      [ rewrite (sysex_split_room _ f d pre ds Hroom')
      | rewrite (sysex_split_full _ f d pre ds Hfull) ].
    + (* there is room *)
      pose proof (parse_byte_sysex_store d _ p0 HU Hwf Hp0' Hsx Hexp
                    ltac:(lia) Hd) as Hrun.
      pose proof (InSysEx_store d _ pre Hinvc ltac:(lia)) as Hinv'.
      assert (Hrec' : Receiving
                (set_mPendingMessageIndex (mPendingMessageIndex (cleared s) + 1)
                   (set_mMessage
                      (set_sysexArray
                         (<[Z.to_nat (mPendingMessageIndex (cleared s)) := d]>
                            (sysexArray (mMessage (cleared s))))
                         (mMessage (cleared s))) (cleared s)))
                f (pre ++ [d])).
      { split; [exact Hinv' |]. sim. split; [| exact Hcb].
        rewrite list_lookup_insert_ne by lia. exact Hf. }
      cbn [app]. rewrite (parse_cons _ _ _ _ _ _ Hrun).
      destruct Use1ByteParsing.
      * cbn [prepend app]. do 3 eexists. split; [reflexivity |].
        split; [cbn; lia |]. left. split; [reflexivity |].
        exists f, (pre ++ [d]), ds. split; [reflexivity |].
        split; [exact Hds |]. split; [exact Hrec' |]. reflexivity.
      * destruct (IH _ _ _ Hrec') as (r & s' & t & Hparse & Hlen & Hpost).
        rewrite Hparse. cbn [prepend app]. do 3 eexists.
        split; [reflexivity |].
        split; [cbn [length]; lia |]. exact Hpost.
    + (* the buffer is full *)
      assert (Hidx' : mPendingMessageIndex (cleared s) = SysExMaxSize - 1)
        by lia.
      assert (HC2 : 2 <= SysExMaxSize < UINT_MOD) by lia.
      pose proof (parse_byte_sysex_full d _ p0 HC2
                    Hwf Hp0' Hsx Hexp Hidx' Hd) as Hrun.
      cbv zeta in Hrun. rewrite Hcb in Hrun.
      cbn [app]. rewrite (parse_cons _ _ _ _ _ _ Hrun). cbn [prepend app].
      do 3 eexists. split; [reflexivity |].
      destruct (InSysEx_full d _ pre
                  (mkMessage 0 SystemExclusive (Z.land SysExMaxSize 0xff)
                     (to_byte (Z.shiftr SysExMaxSize 8))
                     (<[Z.to_nat (SysExMaxSize - 1) := SystemExclusiveStart]>
                        (sysexArray (mMessage (cleared s))))
                     true SysExMaxSize)
                  (proj1 HC) Hinvc Hidx') as [Hinv' _].
      cbv zeta in Hinv'.
      split; [cbn; lia |]. left. split; [reflexivity |].
      exists SystemExclusiveEnd, [d], ds. split; [reflexivity |].
      split; [exact Hds |]. split.
      * split; [exact Hinv' |]. sim. split; [| exact Hcb].
        rewrite list_lookup_insert_ne by lia.
        apply list_lookup_insert_eq. rewrite length_insert, Hls0. lia.
      * pose proof (Receiving_view (cleared s) f SystemExclusiveStart pre Hrecc)
          as Hview.
        rewrite Hidx' in Hview.
        replace (SysExMaxSize - 1 + 1) with SysExMaxSize in Hview by lia.
        cbn [map]. rewrite <- Hview.
        rewrite (getSysExSize_coded SysExMaxSize []) by (try reflexivity; lia).
        reflexivity.
Qed.

Lemma parse_calls_begin (ds : list Z) (s : State) :
  3 <= SysExMaxSize < 65536 ->
  Forall data_byte ds ->
  well_formed s ->
  mPendingMessageIndex s = 0 ->
  mSystemExclusiveCallback (callbacks s) = true ->
  exists r s' t,
    parse (SystemExclusiveStart :: ds ++ [SystemExclusiveEnd]) s
    = Some (r, s', t) /\
    parse_calls_post SystemExclusiveStart [] ds
      (SystemExclusiveStart :: ds ++ [SystemExclusiveEnd]) r s' t.
Proof.
  intros HC Hds Hwf Hidx Hcb.
  assert (HU : 2 <= SysExMaxSize < UINT_MOD) by (rewrite UINT_MOD_eq; lia).
  pose proof (parse_byte_sysex_begin (cleared s) HU Hwf Hidx) as Hrun.
  pose proof (InSysEx_begin (cleared s) (proj1 HU) Hwf) as Hinv.
  assert (Hrec : Receiving
            (set_mPendingMessageIndex 1
               (set_mMessage
                  (set_sysexArray
                     (<[0%nat := SystemExclusiveStart]>
                        (sysexArray (mMessage (cleared s))))
                     (mMessage (cleared s)))
                  (set_mRunningStatus_RX InvalidType
                     (set_mPendingMessageExpectedLength SysExMaxSize
                        (set_mPendingMessage
                           (<[0%nat := SystemExclusiveStart]>
                              (mPendingMessage (cleared s)))
                           (cleared s))))))
            SystemExclusiveStart []).
  { split; [exact Hinv |]. sim. split; [| exact Hcb].
    apply list_lookup_insert_eq. destruct Hwf as [_ Hls]. sim.
    rewrite Hls. lia. }
  rewrite (parse_cons _ _ _ _ _ _ Hrun).
  destruct Use1ByteParsing.
  - cbn [prepend app]. do 3 eexists. split; [reflexivity |].
    split; [cbn; lia |]. left. split; [reflexivity |].
    exists SystemExclusiveStart, [], ds. split; [reflexivity |].
    split; [exact Hds |]. split; [exact Hrec |]. reflexivity.
  - destruct (parse_calls_stream ds HC Hds _ _ _ Hrec)
      as (r & s' & t & Hparse & Hlen & Hpost).
    rewrite Hparse. cbn [prepend app]. do 3 eexists.
    split; [reflexivity |].
    split; [cbn [length]; lia |]. exact Hpost.
Qed.

(** One call of [read] on a SysEx stream, given what [parse] does. *)
Lemma read_calls_finish (inChannel : Z) (f : Z) (pre ds rx : list Z)
    (s s1 s2 : State) t0 r t :
  inChannel < MIDI_CHANNEL_OFF ->
  read_sensing s = Some (tt, s1, t0) ->
  sysex_calls t0 = [] ->
  parse rx s1 = Some (r, s2, t) ->
  parse_calls_post f pre ds rx r s2 t ->
  exists r' s' t',
    read inChannel rx s = Some (r', s', t') /\
    read_calls_post f pre ds rx r' s' t'.
Proof.
  intros Hon Hs Ht0 Hp (Hlen & Hpost).
  rewrite (read_of_parse _ _ _ _ _ _ _ _ Hon Hs Hp).
  destruct Hpost as [[Hr Hpend] | (Hr & Hrest & Hem & Hty & Hcb & Hview)];
    rewrite Hr.
  - cbn [prepend]. do 3 eexists. split; [reflexivity |].
    rewrite app_nil_r.
    split; [exact Hlen |]. left.
    destruct Hpend as (f' & pre' & ds' & Hrest & Hds' & Hrec & Hsum).
    exists f', pre', ds'. cbn [fst snd].
    rewrite sysex_calls_app, Ht0. cbn [app].
    repeat (split; [assumption |]). exact Hsum.
  - destruct (read_received_calls s2) as (s3 & t3 & Hrr & Hm3 & Hc3 & Hem3 & _).
    rewrite (run_known _ _ _ _ _ _ Hrr).
    assert (Hty3 : type (mMessage s3) = SystemExclusive)
      by (rewrite Hm3; exact Hty).
    rewrite (run_known _ _ _ _ _ _
               (handleNullVelocity_other s3 ltac:(rewrite Hty3; discriminate))).
    rewrite (run_known _ _ _ _ _ _
               (inputFilter_system inChannel s3 ltac:(rewrite Hty3; reflexivity))).
    change (when true launchCallback) with launchCallback.
    rewrite run_launchCallback_sysex by exact Hty3.
    rewrite Hc3, Hcb. cbv beta.
    destruct (thruFilter_calls inChannel s3) as (t4 & Hthru & Hem4 & _).
    rewrite (run_known _ _ _ _ _ _ Hthru). unfold ret.
    cbn [prepend app]. do 3 eexists. split; [reflexivity |].
    unfold read_calls_post. cbn [fst snd]. rewrite Hrest in *.
    split; [exact Hlen |]. right. split; [reflexivity |].
    rewrite ?app_nil_r, !sysex_calls_app, Ht0, Hem, Hem3. cbn [app].
    change (sysex_calls (LaunchCallback (mMessage s3)
                         :: SystemExclusiveCallback (sysexArray (mMessage s3))
                              (getSysExSize (mMessage s3)) :: t4))
      with ((sysexArray (mMessage s3), getSysExSize (mMessage s3))
            :: sysex_calls t4).
    rewrite Hem4, Hm3. exact Hview.
Qed.

Lemma read_calls_stream (inChannel : Z) (f : Z) (pre ds : list Z) (s : State) :
  3 <= SysExMaxSize < 65536 ->
  inChannel < MIDI_CHANNEL_OFF ->
  Forall data_byte ds ->
  Receiving s f pre ->
  exists r s' t,
    read inChannel (ds ++ [SystemExclusiveEnd]) s = Some (r, s', t) /\
    read_calls_post f pre ds (ds ++ [SystemExclusiveEnd]) r s' t.
Proof.
  intros HC Hon Hds Hrec.
  destruct (read_sensing_calls s)
    as (s1 & t0 & Hs & Hp & Hi & He & Hm & Hc & Hem & _).
  pose proof (Receiving_frame s s1 f pre Hp Hi He Hm Hc Hrec) as Hrec1.
  destruct (parse_calls_stream ds HC Hds s1 f pre Hrec1)
    as (r & s2 & t & Hparse & Hpost).
  exact (read_calls_finish _ _ _ _ _ _ _ _ _ _ _ Hon Hs Hem Hparse Hpost).
Qed.

Lemma read_calls_begin (inChannel : Z) (ds : list Z) (s : State) :
  3 <= SysExMaxSize < 65536 ->
  inChannel < MIDI_CHANNEL_OFF ->
  Forall data_byte ds ->
  well_formed s ->
  mPendingMessageIndex s = 0 ->
  mSystemExclusiveCallback (callbacks s) = true ->
  exists r s' t,
    read inChannel (SystemExclusiveStart :: ds ++ [SystemExclusiveEnd]) s
    = Some (r, s', t) /\
    read_calls_post SystemExclusiveStart [] ds
      (SystemExclusiveStart :: ds ++ [SystemExclusiveEnd]) r s' t.
Proof.
  intros HC Hon Hds [Hlp Hls] Hidx Hcb.
  destruct (read_sensing_calls s)
    as (s1 & t0 & Hs & Hp & Hi & He & Hm & Hc & Hem & _).
  assert (Hwf1 : well_formed s1) by (split; rewrite ?Hp, ?Hm; assumption).
  destruct (parse_calls_begin ds s1 HC Hds Hwf1
              ltac:(rewrite Hi; exact Hidx) ltac:(rewrite Hc; exact Hcb))
    as (r & s2 & t & Hparse & Hpost).
  exact (read_calls_finish _ _ _ _ _ _ _ _ _ _ _ Hon Hs Hem Hparse Hpost).
Qed.

Lemma poll_calls_continue (inChannel : Z) :
  3 <= SysExMaxSize < 65536 ->
  inChannel < MIDI_CHANNEL_OFF ->
  forall (fuel : nat) (f : Z) (pre ds rx : list Z) r (s : State) t,
    read_calls_post f pre ds rx r s t ->
    (length rx <= S fuel)%nat ->
    exists s' t',
      poll_loop fuel inChannel (snd r) s = Some ([], s', t') /\
      map call_view (sysex_calls (t ++ t'))
      = map with_length (sysex_split SysExMaxSize f pre ds).
Proof.
  intros HC Hon. induction fuel as [|fuel IH];
    intros f pre ds rx r s t (Hlen & Hpost) Hfuel.
  - destruct Hpost as [(f' & pre' & ds' & Hrest & _) | [Hrest Hsum]].
    + rewrite Hrest, length_app in Hlen. cbn in Hlen. lia.
    + rewrite Hrest. exists s, []. rewrite app_nil_r.
      split; [reflexivity | exact Hsum].
  - destruct Hpost
      as [(f' & pre' & ds' & Hrest & Hds' & Hrec & Hsum) | [Hrest Hsum]].
    + rewrite Hrest.
      rewrite poll_loop_step by (destruct ds'; discriminate).
      destruct (read_calls_stream inChannel f' pre' ds' s HC Hon Hds' Hrec)
        as (r1 & s1 & t1 & Hread & Hpost1).
      rewrite (run_known _ _ _ _ _ _ Hread).
      destruct (IH f' pre' ds' _ r1 s1 t1 Hpost1
                  ltac:(rewrite <- Hrest; lia))
        as (s' & t' & Hpoll & Hsum').
      rewrite Hpoll. cbn [prepend]. exists s', (t1 ++ t').
      split; [reflexivity |].
      rewrite sysex_calls_app, map_app, Hsum'. exact Hsum.
    + rewrite Hrest, poll_loop_nil. exists s, []. rewrite app_nil_r.
      split; [reflexivity | exact Hsum].
Qed.

(** A whole SysEx stream: the calls of the handler are the messages
    [sysex_split] lists. *)
Lemma poll_sysex_calls (inChannel : Z) (ds : list Z) (s : State) :
  3 <= SysExMaxSize < 65536 ->
  inChannel < MIDI_CHANNEL_OFF ->
  well_formed s ->
  mPendingMessageIndex s = 0 ->
  mSystemExclusiveCallback (callbacks s) = true ->
  Forall data_byte ds ->
  exists s' t,
    poll inChannel (SystemExclusiveStart :: ds ++ [SystemExclusiveEnd]) s
    = Some ([], s', t) /\
    map call_view (sysex_calls t)
    = map with_length (sysex_split SysExMaxSize SystemExclusiveStart [] ds).
Proof.
  intros HC Hon Hwf Hidx Hcb Hds.
  unfold poll. cbn [length]. rewrite poll_loop_step by discriminate.
  destruct (read_calls_begin inChannel ds s HC Hon Hds Hwf Hidx Hcb)
    as (r1 & s1 & t1 & Hread & Hpost1).
  rewrite (run_known _ _ _ _ _ _ Hread).
  destruct (poll_calls_continue inChannel HC Hon
              (length (ds ++ [SystemExclusiveEnd])) _ _ _ _ _ _ _ Hpost1
              (le_n _))
    as (s' & t' & Hpoll & Hsum).
  rewrite Hpoll. cbn [prepend]. exists s', (t1 ++ t').
  split; [reflexivity | exact Hsum].
Qed.

End SysExCallsProofs.

(** ** Channel messages, from the queue to the handler *)

Section ChannelDeliveryProofs.
Context `{Defs} `{Settings} `{Platform}.

(** The two data bytes of a PitchBend as one number. *)
Lemma pitch_bend_value (d1 d2 : Z) :
  data_byte d1 -> data_byte d2 ->
  Z.lor (Z.land d1 0x7f) (Z.shiftl (Z.land d2 0x7f) 7) = d1 + 128 * d2.
Proof.
  unfold data_byte. intros Hd1 Hd2.
  pose proof (byte_cases
    (fun a => forallb
       (fun b => Z.lor (Z.land a 0x7f) (Z.shiftl (Z.land b 0x7f) 7)
                 =? Z.land a 0x7f + 128 * b)
       (map Z.of_nat (seq 0 128)))
    ltac:(vm_compute; reflexivity) d1 ltac:(lia)) as Hall.
  cbv beta in Hall. rewrite forallb_forall in Hall.
  specialize (Hall d2).
  assert (Hin : In d2 (map Z.of_nat (seq 0 128))).
  { rewrite <- (Z2Nat.id d2) by lia. apply in_map, in_seq. lia. }
  apply Hall, Z.eqb_eq in Hin. rewrite Hin. f_equal.
  change 0x7f with (Z.ones 7). rewrite Z.land_ones by lia.
  apply Z.mod_small. change (2 ^ 7) with 128. lia.
Qed.

Lemma handleNullVelocity_run (s : State) :
  handleNullVelocityNoteOnAsNoteOff s
  = Some (tt,
          (if HandleNullVelocityNoteOnAsNoteOff
              && (type (mMessage s) =? NoteOn) && (data2 (mMessage s) =? 0)
           then set_mMessage (set_type NoteOff (mMessage s)) s else s),
          []).
Proof.
  unfold handleNullVelocityNoteOnAsNoteOff. mrun.
  destruct (_ && _ && _); unfold when; mrun; reflexivity.
Qed.

Lemma channel_type_in_range (ty : Z) :
  isChannelMessage ty = true ->
  (ty >=? NoteOff) && (ty <=? PitchBend) = true.
Proof.
  intros Hty. apply isChannelMessage_cases in Hty. cbn [In] in Hty.
  decompose [or] Hty; try contradiction; subst ty; reflexivity.
Qed.

Lemma inputFilter_channel (inChannel : Z) (s : State) :
  isChannelMessage (type (mMessage s)) = true ->
  inputFilter inChannel s
  = Some ((channel (mMessage s) =? inChannel)
          || (inChannel =? MIDI_CHANNEL_OMNI), s, []).
Proof.
  intros Hty. unfold inputFilter. mrun.
  rewrite (channel_type_in_range _ Hty).
  destruct (_ || _); reflexivity.
Qed.

(** The dispatcher on a channel message. *)
Lemma launchCallback_channel (s : State) (ty ch d1 d2 : Z) :
  is_message (mMessage s) ty ch d1 d2 ->
  isChannelMessage ty = true ->
  data_byte d1 -> data_byte d2 ->
  exists t,
    launchCallback s = Some (tt, s, t) /\
    filter is_message_handler t = channel_calls (callbacks s) ty ch d1 d2.
Proof.
  intros (_ & Hty & Hch & Hd1 & Hd2) Hcm Hb1 Hb2.
  apply isChannelMessage_cases in Hcm. cbn [In] in Hcm.
  unfold launchCallback, channel_calls, call_if. mrun.
  rewrite Hty, Hch, Hd1, Hd2.
  decompose [or] Hcm; try contradiction;
    match goal with E : _ = ty |- _ => rewrite <- E end; simc;
    rewrite ?pitch_bend_value by assumption;
    match goal with
    | |- context [when ?c _] => destruct c
    end;
    unfold when, emit, ret; cbn [prepend app];
    eexists; (split; reflexivity).
Qed.

Lemma waiting_frame (st d1 d2 : Z) (rx : list Z) (s s' : State) :
  mPendingMessage s' = mPendingMessage s ->
  mPendingMessageIndex s' = mPendingMessageIndex s ->
  mPendingMessageExpectedLength s' = mPendingMessageExpectedLength s ->
  waiting st d1 d2 rx s -> waiting st d1 d2 rx s'.
Proof.
  intros Hp Hi He. unfold waiting. rewrite Hp, Hi, He. tauto.
Qed.

(** What is left of [read] once [parse] has completed the message. *)
Lemma read_tail_channel (inChannel st d1 d2 : Z) (rx : list Z) (s2 : State) :
  0x80 <= st < 0xf0 ->
  data_byte d1 -> data_byte d2 ->
  channel_done st d1 d2 s2 ->
  exists b s' t,
    (read_received ;;
     handleNullVelocityNoteOnAsNoteOff ;;
     channelMatch <- inputFilter inChannel ;;
     when channelMatch launchCallback ;;
     thruFilter inChannel ;;
     ret (channelMatch, rx)) s2 = Some ((b, rx), s', t) /\
    callbacks s' = callbacks s2 /\
    filter is_message_handler t
    = delivered inChannel st d1 d2 (callbacks s2).
Proof.
  intros Hst Hb1 Hb2 (Hv & Hty & Hch & Hd1 & Hd2).
  destruct (channel_status_tests st Hst) as (_ & _ & _ & Hcm).
  assert (Hb2' : data_byte (if two_bytes st then 0 else d2))
    by (destruct (two_bytes st); [unfold data_byte; lia | exact Hb2]).
  destruct (read_received_calls s2) as (s3 & t3 & Hrr & Hm3 & Hc3 & _ & Hq3).
  rewrite (run_known _ _ _ _ _ _ Hrr).
  rewrite (run_known _ _ _ _ _ _ (handleNullVelocity_run s3)).
  rewrite Hm3, Hty, Hd2.
  set (ty' := if HandleNullVelocityNoteOnAsNoteOff
                 && (getTypeFromStatusByte st =? NoteOn)
                 && ((if two_bytes st then 0 else d2) =? 0)
              then NoteOff else getTypeFromStatusByte st).
  set (s4 := if HandleNullVelocityNoteOnAsNoteOff
                && (getTypeFromStatusByte st =? NoteOn)
                && ((if two_bytes st then 0 else d2) =? 0)
             then set_mMessage (set_type NoteOff (mMessage s2)) s3 else s3).
  assert (Hm4 : is_message (mMessage s4) ty' (getChannelFromStatusByte st) d1
                  (if two_bytes st then 0 else d2)).
  { unfold s4, ty'. destruct (_ && _ && _); sim; rewrite ?Hm3;
      repeat split; assumption. }
  assert (Hc4 : callbacks s4 = callbacks s2)
    by (unfold s4; destruct (_ && _ && _); sim; exact Hc3).
  assert (Hcm' : isChannelMessage ty' = true)
    by (unfold ty'; destruct (_ && _ && _); [reflexivity | exact Hcm]).
  pose proof Hm4 as (_ & Hty4 & Hch4 & _).
  rewrite (run_known _ _ _ _ _ _
             (inputFilter_channel inChannel s4
                ltac:(rewrite Hty4; exact Hcm'))).
  rewrite Hch4.
  destruct (thruFilter_calls inChannel s4) as (t5 & Hthru & _ & Hq5).
  unfold delivered. fold ty'.
  destruct ((getChannelFromStatusByte st =? inChannel)
            || (inChannel =? MIDI_CHANNEL_OMNI)); unfold when.
  - destruct (launchCallback_channel s4 _ _ _ _ Hm4 Hcm' Hb1 Hb2')
      as (tl & Hl & Hql).
    rewrite (run_known _ _ _ _ _ _ Hl), (run_known _ _ _ _ _ _ Hthru).
    unfold ret. cbn [prepend]. do 3 eexists. split; [reflexivity |].
    split; [exact Hc4 |].
    rewrite !filter_app, Hq3, Hql, Hq5, Hc4. cbn [app filter].
    rewrite app_nil_r. reflexivity.
  - rewrite run_ret, (run_known _ _ _ _ _ _ Hthru).
    unfold ret. cbn [prepend]. do 3 eexists. split; [reflexivity |].
    split; [exact Hc4 |].
    rewrite !filter_app, Hq3, Hq5. reflexivity.
Qed.

(** The last byte of the message. *)
Lemma parse_last_byte (st d1 d : Z) (s : State) :
  0x80 <= st < 0xf0 ->
  data_byte d ->
  length (mPendingMessage s) = 3%nat ->
  mPendingMessage s !! 0%nat = Some st ->
  mPendingMessage s !! 1%nat = Some d1 ->
  (mPendingMessageExpectedLength s = 3 /\ mPendingMessageIndex s = 2) \/
  (mPendingMessageExpectedLength s = 2 /\ mPendingMessageIndex s = 1) ->
  exists s',
    parse [d] s
    = Some ((true, []), s', [TransportAvailable; TransportRead d]) /\
    callbacks s' = callbacks s /\
    is_message (mMessage s') (getTypeFromStatusByte st)
      (getChannelFromStatusByte st)
      (if mPendingMessageExpectedLength s =? 3 then d1 else d)
      (if mPendingMessageExpectedLength s =? 3 then d else 0).
Proof.
  intros Hst Hd Hlp Hp0 Hp1 Hexp.
  destruct (parse_byte_last_data st d1 d (cleared s) Hst Hd Hlp Hp0 Hp1 Hexp)
    as (s' & Hrun & Hm & _ & _ & _ & _ & _ & Hc).
  rewrite (parse_cons _ _ _ _ _ _ Hrun). cbn [prepend app].
  exists s'. split; [reflexivity |].
  split; [exact (same_config_callbacks _ _ Hc) |].
  rewrite Hm. unfold cleared. sim. repeat split.
Qed.

(** One call of [parse] on what is left of the message. *)
Lemma parse_waiting (st d1 d2 : Z) (rx : list Z) (s : State) :
  0x80 <= st < 0xf0 ->
  data_byte d1 -> data_byte d2 ->
  waiting st d1 d2 rx s ->
  exists r s' t,
    parse rx s = Some (r, s', t) /\
    parse_channel_post st d1 d2 rx s r s' t.
Proof.
  intros Hst Hb1 Hb2.
  destruct (channel_status_tests st Hst) as (_ & _ & Hsx & _).
  (* after the first of two data bytes *)
  assert (Last2 : forall s : State,
            two_bytes st = false ->
            length (mPendingMessage s) = 3%nat ->
            mPendingMessage s !! 0%nat = Some st ->
            mPendingMessage s !! 1%nat = Some d1 ->
            mPendingMessageIndex s = 2 ->
            mPendingMessageExpectedLength s = 3 ->
            exists r s' t,
              parse [d2] s = Some (r, s', t) /\
              parse_channel_post st d1 d2 [d2] s r s' t).
  { intros s0 Htwo Hlp Hp0 Hp1 Hidx Hexp.
    destruct (parse_last_byte st d1 d2 s0 Hst Hb2 Hlp Hp0 Hp1
                ltac:(left; split; assumption))
      as (s' & Hrun & Hc & Hm).
    rewrite Hexp in Hm. cbn [Z.eqb Pos.eqb] in Hm.
    do 3 eexists. split; [exact Hrun |].
    split; [exact Hc |]. split; [reflexivity |]. split; [cbn; lia |].
    right. split; [reflexivity |]. split; [reflexivity |].
    unfold channel_done. rewrite Htwo. exact Hm. }
  (* after the status byte *)
  assert (Data : forall s : State,
            length (mPendingMessage s) = 3%nat ->
            mPendingMessage s !! 0%nat = Some st ->
            mPendingMessageIndex s = 1 ->
            mPendingMessageExpectedLength s = (if two_bytes st then 2 else 3) ->
            exists r s' t,
              parse (if two_bytes st then [d1] else [d1; d2]) s
              = Some (r, s', t) /\
              parse_channel_post st d1 d2
                (if two_bytes st then [d1] else [d1; d2]) s r s' t).
  { intros s0 Hlp Hp0 Hidx Hexp.
    destruct (two_bytes st) eqn:Htwo.
    - destruct (lookup_lt_is_Some_2 (mPendingMessage s0) 1%nat ltac:(lia))
        as (q1 & Hq1).
      destruct (parse_last_byte st q1 d1 s0 Hst Hb1 Hlp Hp0 Hq1
                  ltac:(right; split; assumption))
        as (s' & Hrun & Hc & Hm).
      rewrite Hexp in Hm. cbn [Z.eqb Pos.eqb] in Hm.
      do 3 eexists. split; [exact Hrun |].
      split; [exact Hc |]. split; [reflexivity |]. split; [cbn; lia |].
      right. split; [reflexivity |]. split; [reflexivity |].
      unfold channel_done. rewrite Htwo. exact Hm.
    - destruct (parse_byte_first_data st d1 (cleared s0) Hb1 Hlp Hp0 Hsx
                  Hidx Hexp)
        as (s1 & Hrun & Hp1 & Hi1 & He1 & _ & _ & _ & Hc1).
      assert (Hl1 : length (mPendingMessage s1) = 3%nat)
        by (rewrite Hp1, length_insert; exact Hlp).
      assert (Hst1 : mPendingMessage s1 !! 0%nat = Some st)
        by (rewrite Hp1, list_lookup_insert_ne by lia; exact Hp0).
      assert (Hd1 : mPendingMessage s1 !! 1%nat = Some d1)
        by (rewrite Hp1; apply list_lookup_insert_eq;
            unfold cleared; sim; lia).
      rewrite (parse_cons _ _ _ _ _ _ Hrun).
      destruct Use1ByteParsing.
      + cbn [prepend app]. do 3 eexists. split; [reflexivity |].
        split; [exact (same_config_callbacks _ _ Hc1) |].
        split; [reflexivity |]. split; [cbn; lia |].
        left. split; [reflexivity |]. split; [exact Hl1 |].
        right. right. repeat split; assumption.
      + destruct (Last2 s1 eq_refl Hl1 Hst1 Hd1 Hi1 He1)
          as (r & s' & t & Hparse & Hc & Hq & Hlen & Hpost).
        rewrite Hparse. cbn [prepend app]. do 3 eexists.
        split; [reflexivity |].
        split; [rewrite Hc; exact (same_config_callbacks _ _ Hc1) |].
        split; [cbn [filter is_message_handler handler_slot]; exact Hq |].
        split; [cbn [length] in *; lia |]. exact Hpost. }
  intros (Hlp & [(Hrx & Hidx)
                | [(Hrx & Hp0 & Hidx & Hexp)
                  | (Htwo & Hrx & Hp0 & Hp1 & Hidx & Hexp)]]); subst rx.
  - (* before the status byte *)
    destruct (parse_byte_channel_status st (cleared s) Hst Hlp Hidx)
      as (s1 & Hrun & Hp1 & Hi1 & He1 & _ & _ & _ & Hc1).
    assert (Hl1 : length (mPendingMessage s1) = 3%nat)
      by (rewrite Hp1, length_insert; exact Hlp).
    assert (Hst1 : mPendingMessage s1 !! 0%nat = Some st)
      by (rewrite Hp1; apply list_lookup_insert_eq; unfold cleared; sim; lia).
    rewrite (parse_cons _ _ _ _ _ _ Hrun).
    destruct Use1ByteParsing.
    + cbn [prepend app]. do 3 eexists. split; [reflexivity |].
      split; [exact (same_config_callbacks _ _ Hc1) |].
      split; [reflexivity |].
      split; [cbn [snd length]; lia |].
      left. split; [reflexivity |]. split; [exact Hl1 |].
      right. left. repeat split; assumption.
    + destruct (Data s1 Hl1 Hst1 Hi1 He1)
        as (r & s' & t & Hparse & Hc & Hq & Hlen & Hpost).
      rewrite Hparse. cbn [prepend app]. do 3 eexists.
      split; [reflexivity |].
      split; [rewrite Hc; exact (same_config_callbacks _ _ Hc1) |].
      split; [cbn [filter is_message_handler handler_slot]; exact Hq |].
      split; [cbn [length] in *; lia |]. exact Hpost.
  - exact (Data s Hlp Hp0 Hidx Hexp).
  - exact (Last2 s Htwo Hlp Hp0 Hp1 Hidx Hexp).
Qed.

(** One call of [read] on what is left of the message. *)
Lemma read_waiting (inChannel st d1 d2 : Z) (rx : list Z) (s : State) :
  inChannel < MIDI_CHANNEL_OFF ->
  0x80 <= st < 0xf0 ->
  data_byte d1 -> data_byte d2 ->
  waiting st d1 d2 rx s ->
  exists r s' t,
    read inChannel rx s = Some (r, s', t) /\
    read_channel_post inChannel st d1 d2 rx s r s' t.
Proof.
  intros Hon Hst Hb1 Hb2 Hw.
  destruct (read_sensing_calls s)
    as (s1 & t0 & Hs & Hp & Hi & He & Hm & Hc & _ & Hq0).
  pose proof (waiting_frame st d1 d2 rx s s1 Hp Hi He Hw) as Hw1.
  destruct (parse_waiting st d1 d2 rx s1 Hst Hb1 Hb2 Hw1)
    as (r & s2 & t & Hparse & Hc2 & Hq & Hlen & Hpost).
  rewrite (read_of_parse _ _ _ _ _ _ _ _ Hon Hs Hparse).
  destruct Hpost as [[Hr Hw2] | (Hr & Hrest & Hdone)]; rewrite Hr.
  - cbn [prepend]. do 3 eexists. split; [reflexivity |].
    split; [rewrite Hc2; exact Hc |]. split; [exact Hlen |].
    left. split; [exact Hw2 |].
    rewrite app_nil_r, filter_app, Hq0, Hq. reflexivity.
  - destruct (read_tail_channel inChannel st d1 d2 (snd r) s2 Hst Hb1 Hb2 Hdone)
      as (b & s' & t' & Htail & Hc' & Hq').
    rewrite Htail. cbn [prepend]. do 3 eexists. split; [reflexivity |].
    split; [rewrite Hc', Hc2; exact Hc |].
    cbn [snd]. split; [exact Hlen |]. right. split; [exact Hrest |].
    rewrite !filter_app, Hq0, Hq, Hq', Hc2, Hc. reflexivity.
Qed.

Lemma poll_waiting (inChannel st d1 d2 : Z) :
  inChannel < MIDI_CHANNEL_OFF ->
  0x80 <= st < 0xf0 ->
  data_byte d1 -> data_byte d2 ->
  forall (fuel : nat) (rx : list Z) (s : State),
    waiting st d1 d2 rx s ->
    (length rx <= fuel)%nat ->
    exists s' t,
      poll_loop fuel inChannel rx s = Some ([], s', t) /\
      filter is_message_handler t = delivered inChannel st d1 d2 (callbacks s).
Proof.
  intros Hon Hst Hb1 Hb2. induction fuel as [|fuel IH]; intros rx s Hw Hfuel.
  - destruct Hw as (_ & [(-> & _) | [(-> & _) | (_ & -> & _)]]);
      destruct (two_bytes st); cbn in Hfuel; lia.
  - assert (Hne : rx <> []).
    { destruct Hw as (_ & [(-> & _) | [(-> & _) | (_ & -> & _)]]);
        destruct (two_bytes st); discriminate. }
    rewrite poll_loop_step by exact Hne.
    destruct (read_waiting inChannel st d1 d2 rx s Hon Hst Hb1 Hb2 Hw)
      as (r & s1 & t1 & Hread & Hc1 & Hlen & Hpost).
    rewrite (run_known _ _ _ _ _ _ Hread).
    destruct Hpost as [[Hw1 Hq1] | [Hrest Hq1]].
    + destruct (IH (snd r) s1 Hw1 ltac:(lia)) as (s' & t' & Hpoll & Hq').
      rewrite Hpoll. cbn [prepend]. do 2 eexists. split; [reflexivity |].
      rewrite filter_app, Hq1, Hq', Hc1. reflexivity.
    + rewrite Hrest, poll_loop_nil. cbn [prepend]. do 2 eexists.
      split; [reflexivity |]. rewrite app_nil_r. exact Hq1.
Qed.

(** X18: a channel message reaches the handler of its type.  For any
    status byte 0x80..0xEF and any data bytes, polling the bytes of the
    message from a parser with no message in progress consumes them and
    calls no message handler but, when the channel of the message is the
    one listened to or the input is OMNI, the handler of the message's
    type if one is attached, once, with the channel and the data bytes
    as arguments; the value given to the PitchBend handler is
    [d1 + 128 * d2 + MIDI_PITCHBEND_MIN].  A NoteOn of velocity 0 goes
    to the NoteOff handler when [HandleNullVelocityNoteOnAsNoteOff] is
    set.  Both parsing modes, whatever the active-sensing settings. *)
Theorem channel_message_reaches_its_handler
    (inChannel st d1 d2 : Z) (s : State) :
  inChannel < MIDI_CHANNEL_OFF ->
  0x80 <= st < 0xf0 ->
  data_byte d1 -> data_byte d2 ->
  length (mPendingMessage s) = 3%nat ->
  mPendingMessageIndex s = 0 ->
  let ty := getTypeFromStatusByte st in
  let ch := getChannelFromStatusByte st in
  let data2 := if two_bytes st then 0 else d2 in
  let ty' :=
    if HandleNullVelocityNoteOnAsNoteOff && (ty =? NoteOn) && (data2 =? 0)
    then NoteOff else ty in
  exists s' t,
    poll inChannel (st :: if two_bytes st then [d1] else [d1; d2]) s
    = Some ([], s', t) /\
    filter is_message_handler t
    = if (ch =? inChannel) || (inChannel =? MIDI_CHANNEL_OMNI)
      then channel_calls (callbacks s) ty' ch d1 data2
      else [].
Proof.
  intros Hon Hst Hb1 Hb2 Hlp Hidx. cbv zeta.
  apply (poll_waiting inChannel st d1 d2 Hon Hst Hb1 Hb2);
    [| apply le_n].
  split; [exact Hlp |]. left. split; [reflexivity | exact Hidx].
Qed.

End ChannelDeliveryProofs.

(** ** The sketch: [OnNoteOff] and [sleepMode] *)

Section Sketch.
Import PianoLED.
Context `{Arduino}.

Lemma set_cell_in {A} (a : list A) (i : Z) (v : A) :
  0 <= i < Z.of_nat (length a) ->
  set_cell a i v = Some (<[Z.to_nat i := v]> a).
Proof.
  intros Hi. unfold set_cell.
  destruct (Z.leb_spec 0 i); [| lia].
  destruct (Z.ltb_spec i (Z.of_nat (length a))); [reflexivity | lia].
Qed.

(** The first loop clears the cells [i .. i + (3 - x)] that exist. *)
Lemma unfade_up_cells (n : nat) :
  forall (i x : Z) (fade : list bool),
    0 <= i -> 1 <= x ->
    Z.of_nat n + i = Z.of_nat (length fade) ->
    exists fade',
      unfade_up n i x fade = Some fade' /\
      length fade' = length fade /\
      forall j : nat, (j < length fade)%nat ->
        fade' !! j
        = if (i <=? Z.of_nat j) && (Z.of_nat j <? i + (4 - x))
          then Some false else fade !! j.
Proof.
  induction n as [|n IH]; intros i x fade Hi Hx Hn; cbn [unfade_up].
  - exists fade. split; [reflexivity |]. split; [reflexivity |].
    intros j Hj. destruct (Z.leb_spec i (Z.of_nat j)); [lia | reflexivity].
  - destruct (Z.leb_spec (255 - x * 45) 100) as [Hbrk | Hgo].
    + exists fade. split; [reflexivity |]. split; [reflexivity |].
      intros j Hj.
      destruct (Z.leb_spec i (Z.of_nat j)); [| reflexivity].
      destruct (Z.ltb_spec (Z.of_nat j) (i + (4 - x))); [lia | reflexivity].
    + rewrite set_cell_in by lia. cbn [mbind option_bind].
      destruct (IH (i + 1) (x + 1) (<[Z.to_nat i := false]> fade))
        as (fade' & Hrun & Hlen & Hcells);
        [lia | lia | rewrite length_insert; lia |].
      rewrite length_insert in Hlen, Hcells.
      exists fade'. split; [exact Hrun |]. split; [exact Hlen |].
      intros j Hj. rewrite (Hcells j Hj).
      destruct (Nat.eq_dec j (Z.to_nat i)) as [-> | Hne].
      * rewrite list_lookup_insert_eq by lia.
        destruct (Z.leb_spec (i + 1) (Z.of_nat (Z.to_nat i)));
          destruct (Z.leb_spec i (Z.of_nat (Z.to_nat i)));
          destruct (Z.ltb_spec (Z.of_nat (Z.to_nat i)) (i + 1 + (4 - (x + 1))));
          destruct (Z.ltb_spec (Z.of_nat (Z.to_nat i)) (i + (4 - x)));
          cbn [andb]; try reflexivity; lia.
      * rewrite list_lookup_insert_ne by lia.
        destruct (Z.leb_spec (i + 1) (Z.of_nat j));
          destruct (Z.leb_spec i (Z.of_nat j));
          destruct (Z.ltb_spec (Z.of_nat j) (i + 1 + (4 - (x + 1))));
          destruct (Z.ltb_spec (Z.of_nat j) (i + (4 - x)));
          cbn [andb]; try reflexivity; lia.
Qed.

(** The second loop clears the cells [i - (3 - x) .. i] that exist. *)
Lemma unfade_down_cells (n : nat) :
  forall (i x : Z) (fade : list bool),
    1 <= x ->
    Z.of_nat n = i + 1 ->
    i < Z.of_nat (length fade) ->
    exists fade',
      unfade_down n i x fade = Some fade' /\
      length fade' = length fade /\
      forall j : nat, (j < length fade)%nat ->
        fade' !! j
        = if (i - (4 - x) <? Z.of_nat j) && (Z.of_nat j <=? i)
          then Some false else fade !! j.
Proof.
  induction n as [|n IH]; intros i x fade Hx Hn Hi; cbn [unfade_down].
  - exists fade. split; [reflexivity |]. split; [reflexivity |].
    intros j Hj. destruct (Z.leb_spec (Z.of_nat j) i); [lia |].
    rewrite andb_false_r. reflexivity.
  - destruct (Z.leb_spec (255 - x * 45) 100) as [Hbrk | Hgo].
    + exists fade. split; [reflexivity |]. split; [reflexivity |].
      intros j Hj.
      destruct (Z.ltb_spec (i - (4 - x)) (Z.of_nat j)); [| reflexivity].
      destruct (Z.leb_spec (Z.of_nat j) i); [lia | reflexivity].
    + rewrite set_cell_in by lia. cbn [mbind option_bind].
      destruct (IH (i - 1) (x + 1) (<[Z.to_nat i := false]> fade))
        as (fade' & Hrun & Hlen & Hcells);
        [lia | lia | rewrite length_insert; lia |].
      rewrite length_insert in Hlen, Hcells.
      exists fade'. split; [exact Hrun |]. split; [exact Hlen |].
      intros j Hj. rewrite (Hcells j Hj).
      destruct (Nat.eq_dec j (Z.to_nat i)) as [-> | Hne].
      * rewrite list_lookup_insert_eq by lia.
        destruct (Z.ltb_spec (i - 1 - (4 - (x + 1))) (Z.of_nat (Z.to_nat i)));
          destruct (Z.ltb_spec (i - (4 - x)) (Z.of_nat (Z.to_nat i)));
          destruct (Z.leb_spec (Z.of_nat (Z.to_nat i)) (i - 1));
          destruct (Z.leb_spec (Z.of_nat (Z.to_nat i)) i);
          cbn [andb]; try reflexivity; lia.
      * rewrite list_lookup_insert_ne by lia.
        destruct (Z.ltb_spec (i - 1 - (4 - (x + 1))) (Z.of_nat j));
          destruct (Z.ltb_spec (i - (4 - x)) (Z.of_nat j));
          destruct (Z.leb_spec (Z.of_nat j) (i - 1));
          destruct (Z.leb_spec (Z.of_nat j) i);
          cbn [andb]; try reflexivity; lia.
Qed.

(** X13: [OnNoteOff] never indexes [onLeds] or [fadeLeds] outside their
    88 cells, whatever the pitch, for any [constrain] that keeps its
    contract [constrain_ok]: with [led = 108 - constrain(pitch, 21,
    108)], which lies between 0 and 87 and is [108 - pitch] for the keys
    of the piano, it clears [onLeds[led]] and the cells of [fadeLeds]
    at distance 1 to 3 from [led] that exist, and nothing else;
    [fadeLeds[led]] itself is left as it was. *)
Theorem OnNoteOff_clears_key_and_neighbours
    (channel pitch velocity : Z) (g : Globals) :
  constrain_ok ->
  length (onLeds g) = Z.to_nat NUM_LEDS ->
  length (fadeLeds g) = Z.to_nat NUM_LEDS ->
  let led := 108 - constrain pitch 21 108 in
  exists g',
    OnNoteOff channel pitch velocity g = Some g' /\
    0 <= led <= 87 /\
    (21 <= pitch <= 108 -> led = 108 - pitch) /\
    onLeds g' = <[Z.to_nat led := false]> (onLeds g) /\
    length (fadeLeds g') = Z.to_nat NUM_LEDS /\
    (forall j : nat, (j < 88)%nat ->
       fadeLeds g' !! j
       = if (1 <=? Z.abs (Z.of_nat j - led)) && (Z.abs (Z.of_nat j - led) <=? 3)
         then Some false else fadeLeds g !! j) /\
    autoModeOn g' = autoModeOn g /\
    autoMode g' = autoMode g /\
    lastKeyPress g' = lastKeyPress g /\
    mode g' = mode g.
Proof.
  intros Hc Hon Hfade led.
  destruct (Hc pitch 21 108 ltac:(lia)) as [Hrange Hid].
  unfold OnNoteOff, NUM_LEDS in *. cbv zeta.
  assert (Hp : to_byte (constrain pitch 21 108) = constrain pitch 21 108)
    by (unfold to_byte; apply Z.mod_small; lia).
  rewrite Hp.
  assert (Hl : to_byte (- constrain pitch 21 108 + 88 + 21 - 1) = led)
    by (unfold to_byte, led; rewrite Z.mod_small; lia).
  rewrite Hl. fold led in Hrange.
  assert (Hled : 0 <= led <= 87) by (unfold led; lia).
  rewrite set_cell_in by lia. cbn [mbind option_bind].
  destruct (unfade_up_cells (Z.to_nat (88 - (led + 1))) (led + 1) 1 (fadeLeds g))
    as (fade1 & Hup & Hlen1 & Hcells1); [lia | lia | lia |].
  rewrite Hup. cbn [mbind option_bind].
  destruct (unfade_down_cells (Z.to_nat (led - 1 + 1)) (led - 1) 1 fade1)
    as (fade2 & Hdown & Hlen2 & Hcells2); [lia | lia | lia |].
  rewrite Hdown. cbn [mbind option_bind].
  eexists. split; [reflexivity |].
  split; [exact Hled |]. split; [intros Hk; unfold led; rewrite Hid; lia |].
  cbn [onLeds fadeLeds autoModeOn autoMode lastKeyPress mode
       set_fadeLeds set_onLeds].
  split; [reflexivity |]. split; [lia |].
  split; [| repeat split].
  intros j Hj. rewrite Hcells2 by lia. rewrite Hcells1 by lia.
  destruct (Z.ltb_spec (led - 1 - (4 - 1)) (Z.of_nat j));
    destruct (Z.leb_spec (Z.of_nat j) (led - 1));
    destruct (Z.leb_spec (led + 1) (Z.of_nat j));
    destruct (Z.ltb_spec (Z.of_nat j) (led + 1 + (4 - 1)));
    destruct (Z.leb_spec 1 (Z.abs (Z.of_nat j - led)));
    destruct (Z.leb_spec (Z.abs (Z.of_nat j - led)) 3);
    cbn [andb]; try reflexivity; lia.
Qed.

(** X14: the switch of [sleepMode] to the passive mode 1 never outlasts
    the call.  Its first test waits [SLEEP_TIMER * 1000] ms, that is
    10000 s, and its second one five minutes, so whenever the first
    branch saves the mode and selects mode 1, the second branch of the
    same call restores the saved mode and clears [autoModeOn]: all the
    call does then is copy [mode] into [autoMode].  In every case the
    mode afterwards is the mode or the saved mode from before.  (The
    time since the last key press, as [millis()] gives it, is no
    smaller at the second reading than at the first.) *)
Theorem sleepMode_undoes_its_switch (millis1 millis2 : Z) (g : Globals) :
  usub millis1 (lastKeyPress g) <= usub millis2 (lastKeyPress g) ->
  let g' := sleepMode millis1 millis2 g in
  (mode g' = mode g \/ mode g' = autoMode g) /\
  (autoModeOn g = false ->
   SLEEP_TIMER * 1000 < usub millis1 (lastKeyPress g) ->
   mode g <> 0 ->
   g' = set_autoMode (mode g) g).
Proof.
  intros Hmono. cbv zeta. unfold sleepMode, SLEEP_TIMER in *.
  assert (H1 : uwrap (10000 * 1000) = 10000000) by reflexivity.
  assert (H2 : uwrap (5 * 60 * 1000) = 300000) by reflexivity.
  rewrite H1, H2.
  destruct g as [on am last m onl fl].
  cbn [autoModeOn autoMode lastKeyPress mode] in *.
  destruct on; cbn [negb andb].
  - split.
    + destruct (_ && _); cbn; tauto.
    + discriminate.
  - destruct (Z.gtb_spec (usub millis1 last) 10000000) as [Hlong | Hshort];
      cbn [andb].
    + destruct (Z.eqb_spec m 0) as [-> | Hm]; cbn [negb].
      * cbn [lastKeyPress mode]. rewrite andb_false_r.
        split; [left; reflexivity | intros _ _ Hne; congruence].
      * cbn [lastKeyPress mode set_mode set_autoMode set_autoModeOn
             autoModeOn autoMode onLeds fadeLeds].
        destruct (Z.gtb_spec (usub millis2 last) 300000); [| lia].
        cbn [andb negb Z.eqb].
        split; [left; reflexivity | intros _ _ _; reflexivity].
    + split; [| intros _ Hl; lia].
      destruct (_ && _); cbn; tauto.
Qed.

End Sketch.

(** ** What the handler of the sketch is given *)

Section SysExLabels.
Context `{Defs} `{Settings} `{Platform}.

Lemma sysex_split_fits (C f : Z) (ds : list Z) :
  forall pre : list Z,
    Z.of_nat (length pre) + Z.of_nat (length ds) <= C - 2 ->
    sysex_split C f pre ds = [f :: pre ++ ds ++ [SystemExclusiveEnd]].
Proof.
  induction ds as [|d ds IH]; intros pre Hfit; [reflexivity |].
  cbn [length] in Hfit. rewrite sysex_split_room by lia.
  rewrite IH by (rewrite length_app; cbn [length]; lia).
  rewrite <- app_assoc. reflexivity.
Qed.

Lemma getSysExStatus_framed (f b : Z) (pre : list Z) :
  PianoLED.getSysExStatus (f :: pre ++ [b]) (Z.of_nat (length pre) + 2)
  = Some (if f =? 0xF0
          then if b =? 0xF7 then "F"%string else "S"%string
          else if b =? 0xF7 then "E"%string else "M"%string).
Proof.
  unfold PianoLED.getSysExStatus, PianoLED.get_cell.
  replace (Z.of_nat (length pre) + 2 - 1) with (Z.of_nat (S (length pre)))
    by lia.
  destruct (Z.leb_spec 0 (Z.of_nat (S (length pre)))); [| lia].
  rewrite Nat2Z.id.
  assert (Hl : (f :: pre ++ [b]) !! S (length pre) = Some b).
  { change ((f :: pre ++ [b]) !! S (length pre))
      with ((pre ++ [b]) !! length pre).
    apply list_lookup_middle. reflexivity. }
  rewrite Hl.
  change ((f :: pre ++ [b]) !! Z.to_nat 0) with (Some f).
  change (0 <=? 0) with true. cbv iota. cbn [mbind option_bind].
  destruct (f =? 240); destruct (b =? 247); reflexivity.
Qed.

(** A handler that reads no further than [size] sees the payload. *)
Lemma OnMidiSysEx_status_view (c : list Z * Z) :
  1 <= snd c ->
  PianoLED.OnMidiSysEx_status (fst c) (snd c) = view_status (call_view c).
Proof.
  destruct c as [a n]. cbn [fst snd]. intros Hn.
  unfold view_status, call_view, payload, PianoLED.OnMidiSysEx_status,
    PianoLED.getSysExStatus, PianoLED.get_cell.
  cbn [fst snd].
  assert (Hm : 0 <= n mod 65536 <= n).
  { pose proof (Z.mod_pos_bound n 65536 ltac:(lia)).
    pose proof (Z.mod_le n 65536 ltac:(lia) ltac:(lia)). lia. }
  assert (Hfst : take (Z.to_nat n) a !! Z.to_nat 0 = a !! Z.to_nat 0)
    by (apply lookup_take_lt; lia).
  rewrite Hfst.
  destruct (Z.leb_spec 0 (n mod 65536 - 1)) as [Hge | Hlt].
  - assert (Hl : take (Z.to_nat n) a !! Z.to_nat (n mod 65536 - 1)
                 = a !! Z.to_nat (n mod 65536 - 1))
      by (apply lookup_take_lt; lia).
    rewrite Hl. reflexivity.
  - reflexivity.
Qed.

Lemma calls_status (calls : list (list Z * Z)) :
  forall ps : list (list Z),
    map call_view calls = map with_length ps ->
    Forall (fun p => (1 <= length p)%nat) ps ->
    map (fun c => PianoLED.OnMidiSysEx_status (fst c) (snd c)) calls
    = map (fun p => view_status (with_length p)) ps.
Proof.
  induction calls as [|c calls IH]; intros [|p ps] Heq Hps;
    try discriminate; [reflexivity |].
  cbn [map] in *. unfold call_view at 1, with_length at 1 in Heq.
  injection Heq as Hpay Hsize Hrest.
  inversion Hps as [|? ? Hp Hps']; subst.
  rewrite (IH ps Hrest Hps'). f_equal.
  rewrite OnMidiSysEx_status_view by (rewrite Hsize; lia).
  unfold call_view, with_length. rewrite Hsize. reflexivity.
Qed.

Lemma view_status_framed (f b : Z) (pre : list Z) :
  Z.of_nat (length pre) + 2 < 65536 ->
  view_status (with_length (f :: pre ++ [b]))
  = Some (if f =? 0xF0
          then if b =? 0xF7 then "F"%string else "S"%string
          else if b =? 0xF7 then "E"%string else "M"%string).
Proof.
  intros Hlen. unfold view_status, with_length, PianoLED.OnMidiSysEx_status.
  cbn [fst snd length]. rewrite length_app. cbn [length].
  replace (Z.of_nat (S (length pre + 1))) with (Z.of_nat (length pre) + 2)
    by lia.
  rewrite Z.mod_small by lia.
  apply getSysExStatus_framed.
Qed.

Lemma sysex_split_nonempty (C : Z) (ds : list Z) :
  forall (f : Z) (pre : list Z),
    Forall (fun p => (1 <= length p)%nat) (sysex_split C f pre ds).
Proof.
  induction ds as [|d ds IH]; intros f pre; cbn [sysex_split].
  - constructor; [cbn; lia | constructor].
  - destruct (_ <? _); [apply IH |].
    constructor; [cbn; lia | apply IH].
Qed.

Lemma sysex_split_labels (C : Z) (ds : list Z) :
  3 <= C < 65536 ->
  forall (f : Z) (pre : list Z),
    f = SystemExclusiveStart \/ f = SystemExclusiveEnd ->
    Z.of_nat (length pre) <= C - 2 ->
    map (fun p => view_status (with_length p)) (sysex_split C f pre ds)
    = map Some
        (split_labels C f (Z.of_nat (length pre) + Z.of_nat (length ds))).
Proof.
  intros HC. induction ds as [|d ds IH]; intros f pre Hf Hpre.
  - cbn [sysex_split map length]. unfold split_labels.
    rewrite view_status_framed by lia.
    destruct (Z.leb_spec (Z.of_nat (length pre) + Z.of_nat 0) (C - 2));
      [| lia].
    destruct Hf as [-> | ->]; reflexivity.
  - destruct (Z.lt_ge_cases (Z.of_nat (length pre)) (C - 2)) as [Hroom | Hfull].
    + rewrite sysex_split_room by exact Hroom.
      rewrite (IH f (pre ++ [d]) Hf)
        by (rewrite length_app; cbn [length]; lia).
      rewrite length_app. cbn [length]. do 2 f_equal. lia.
    + rewrite sysex_split_full by exact Hfull.
      cbn [map]. rewrite view_status_framed by lia.
      rewrite (IH SystemExclusiveEnd [d]) by (try tauto; cbn [length]; lia).
      cbn [length].
      set (k := C - 2) in *.
      assert (Hk : 1 <= k) by (unfold k; lia).
      assert (Hn : Z.of_nat (length pre) = k) by lia.
      unfold split_labels. fold k.
      destruct (Z.leb_spec (Z.of_nat (length pre) + Z.of_nat (S (length ds))) k);
        [lia |].
      replace ((Z.of_nat (length pre) + Z.of_nat (S (length ds)) - 1) / k - 1)
        with (Z.of_nat (length ds) / k).
      2:{ replace (Z.of_nat (length pre) + Z.of_nat (S (length ds)) - 1)
            with (Z.of_nat (length ds) + 1 * k) by lia.
          rewrite Z.div_add by lia. lia. }
      change (SystemExclusiveStart =? 247) with false.
      change (SystemExclusiveEnd =? SystemExclusiveStart) with false.
      cbv iota. rewrite (map_cons Some). f_equal.
      destruct (Z.leb_spec (Z.of_nat 1 + Z.of_nat (length ds)) k) as [Hfit | Hmore].
      * rewrite Z.div_small by lia. reflexivity.
      * replace (Z.of_nat 1 + Z.of_nat (length ds) - 1)
          with (Z.of_nat (length ds)) by lia.
        assert (Hq : 1 <= Z.of_nat (length ds) / k)
          by (apply Z.div_le_lower_bound; lia).
        replace (Z.to_nat (Z.of_nat (length ds) / k))
          with (S (Z.to_nat (Z.of_nat (length ds) / k - 1))) by lia.
        reflexivity.
Qed.

(** X15: a SysEx message that fits the buffer (no more than
    [SysExMaxSize - 2] data bytes) reaches the SystemExclusive handler
    in one call: polling 0xF0, the data bytes and 0xF7 from an idle
    parser consumes them all and calls the handler exactly once, with
    the number of bytes received as size and, in the first cells of the
    buffer, these bytes with both framing bytes. *)
Theorem sysex_that_fits_is_handed_over_whole
    (inChannel : Z) (ds : list Z) (s : State) :
  3 <= SysExMaxSize < 65536 ->
  inChannel < MIDI_CHANNEL_OFF ->
  well_formed s ->
  mPendingMessageIndex s = 0 ->
  mSystemExclusiveCallback (callbacks s) = true ->
  Forall data_byte ds ->
  Z.of_nat (length ds) <= SysExMaxSize - 2 ->
  exists s' t a,
    poll inChannel (SystemExclusiveStart :: ds ++ [SystemExclusiveEnd]) s
    = Some ([], s', t) /\
    sysex_calls t = [(a, Z.of_nat (length ds) + 2)] /\
    take (length ds + 2) a = SystemExclusiveStart :: ds ++ [SystemExclusiveEnd].
Proof.
  intros HC Hon Hwf Hidx Hcb Hds Hfit.
  destruct (poll_sysex_calls inChannel ds s HC Hon Hwf Hidx Hcb Hds)
    as (s' & t & Hpoll & Hcalls).
  rewrite sysex_split_fits in Hcalls by (cbn [length]; lia).
  cbn [map app] in Hcalls.
  destruct (sysex_calls t) as [|[a n] [|c calls]] eqn:Hc; try discriminate.
  cbn [map] in Hcalls. injection Hcalls as Hpay Hn.
  cbn [snd length] in Hn. rewrite length_app in Hn. cbn [length] in Hn.
  exists s', t, a. split; [exact Hpoll |]. split.
  - rewrite Hc. do 2 f_equal. lia.
  - unfold payload in Hpay. cbn [fst snd] in Hpay.
    replace (length ds + 2)%nat with (Z.to_nat n) by lia. exact Hpay.
Qed.

(** X16: the labels [getSysExStatus] gives the calls of the sketch's
    SystemExclusive handler for one SysEx message of [n] data bytes
    received into a buffer of [C = SysExMaxSize] cells: one call
    labelled "F" when [n <= C - 2]; otherwise a call labelled "S", then
    [(n - 1) / (C - 2) - 1] calls labelled "M", then one labelled "E".
    No call makes [getSysExStatus] read outside the buffer. *)
Theorem sysex_calls_are_labelled (inChannel : Z) (ds : list Z) (s : State) :
  3 <= SysExMaxSize < 65536 ->
  inChannel < MIDI_CHANNEL_OFF ->
  well_formed s ->
  mPendingMessageIndex s = 0 ->
  mSystemExclusiveCallback (callbacks s) = true ->
  Forall data_byte ds ->
  let n := Z.of_nat (length ds) in
  exists s' t,
    poll inChannel (SystemExclusiveStart :: ds ++ [SystemExclusiveEnd]) s
    = Some ([], s', t) /\
    map (fun c => PianoLED.OnMidiSysEx_status (fst c) (snd c)) (sysex_calls t)
    = map Some
        (if n <=? SysExMaxSize - 2 then ["F"%string]
         else "S"%string
              :: repeat "M"%string
                   (Z.to_nat ((n - 1) / (SysExMaxSize - 2) - 1))
              ++ ["E"%string]).
Proof.
  intros HC Hon Hwf Hidx Hcb Hds n.
  destruct (poll_sysex_calls inChannel ds s HC Hon Hwf Hidx Hcb Hds)
    as (s' & t & Hpoll & Hcalls).
  exists s', t. split; [exact Hpoll |].
  rewrite (calls_status _ _ Hcalls (sysex_split_nonempty _ _ _ _)).
  rewrite (sysex_split_labels _ ds HC) by (try tauto; cbn [length]; lia).
  reflexivity.
Qed.

End SysExLabels.

(** ** Status bytes in the middle of a message *)

Section MidstreamStatus.
Context `{Defs} `{Settings} `{Platform}.

(** C1: a status byte in the middle of a message is not a parse error
    in the code, against the comment in [parse] ("Reception of status
    bytes in the middle of an uncompleted message are allowed only for
    interleaved Real Time message or EOX").  While a message of two or
    three bytes is in progress, a status byte that is neither a
    real-time byte nor 0xF0 or 0xF7 (nor 0xFD, which the guard of
    [parse] drops) falls through [default: break] and is stored as a
    data byte: the parse-error bit
    is clear afterwards, no handler is called, the byte is written to
    [mPendingMessage] at the pending index, and either the index moves
    on, with the expected length and the running status as they were,
    or the message is completed with that byte among its data and
    [parse] returns true. *)
Theorem parse_midstream_status_is_data
    (b : Z) (rx' : list Z) (s : State) (p0 : Z) :
  0 <= ErrorParse < 8 ->
  length (mPendingMessage s) = 3%nat ->
  mPendingMessage s !! 0%nat = Some p0 ->
  p0 <> SystemExclusiveStart ->
  p0 <> SystemExclusiveEnd ->
  mPendingMessageIndex s = 1 \/
  (mPendingMessageIndex s = 2 /\ mPendingMessageExpectedLength s = 3) ->
  0x80 <= b ->
  case_of b [Clock; Start; Tick; Continue; Stop; ActiveSensing; SystemReset]
  = false ->
  b <> SystemExclusiveStart ->
  b <> SystemExclusiveEnd ->
  b <> Undefined_FD ->
  exists o s1,
    parse (b :: rx') s
    = prepend [TransportAvailable; TransportRead b]
        (match o with
         | Return r => Some ((r, rx'), s1, [])
         | Recurse =>
             if Use1ByteParsing then Some ((false, rx'), s1, [])
             else parse rx' s1
         end) /\
    Z.testbit (mLastError s1) ErrorParse = false /\
    mPendingMessage s1
    = <[Z.to_nat (mPendingMessageIndex s) := b]> (mPendingMessage s) /\
    ((o = Recurse /\
      mPendingMessageIndex s1 = mPendingMessageIndex s + 1 /\
      mPendingMessageExpectedLength s1 = mPendingMessageExpectedLength s /\
      mRunningStatus_RX s1 = mRunningStatus_RX s) \/
     (o = Return true /\
      valid (mMessage s1) = true /\
      type (mMessage s1) = getTypeFromStatusByte p0 /\
      (data1 (mMessage s1) = b \/ data2 (mMessage s1) = b))).
Proof.
  intros He Hlp Hp0 Hns Hne Hidx Hst Hrt Hb0 Hb7 Hfd.
  assert (Hbit : Z.testbit (mLastError (cleared s)) ErrorParse = false)
    by (unfold cleared; sim; apply testbit_clear_bit; exact He).
  assert (Hrun : exists o s1,
            parse_byte b (cleared s) = Some (o, s1, []) /\
            mLastError s1 = mLastError (cleared s) /\
            mPendingMessage s1
            = <[Z.to_nat (mPendingMessageIndex s) := b]> (mPendingMessage s) /\
            ((o = Recurse /\
              mPendingMessageIndex s1 = mPendingMessageIndex s + 1 /\
              mPendingMessageExpectedLength s1
              = mPendingMessageExpectedLength s /\
              mRunningStatus_RX s1 = mRunningStatus_RX s) \/
             (o = Return true /\
              valid (mMessage s1) = true /\
              type (mMessage s1) = getTypeFromStatusByte p0 /\
              (data1 (mMessage s1) = b \/ data2 (mMessage s1) = b)))).
  { clear Hbit. unfold cleared.
    destruct s as [ic rs tx pend exp idx rpn nrpn ta tm msg st rt per act err cb].
    destruct msg as [ch ty d1 d2 arr v ln].
    cbn in Hlp, Hp0, Hidx.
    destruct pend as [|q0 [|p1 [|p2 [|]]]]; try discriminate. clear Hlp.
    injection Hp0 as ->.
    assert (Hsx : (p0 =? SystemExclusiveStart) || (p0 =? SystemExclusiveEnd)
                  = false)
      by (apply orb_false_intro; apply Z.eqb_neq; assumption).
    assert (Heox : case_of b [SystemExclusiveStart; SystemExclusiveEnd] = false).
    { unfold case_of. cbn [existsb].
      rewrite (proj2 (Z.eqb_neq _ _) Hb0), (proj2 (Z.eqb_neq _ _) Hb7).
      reflexivity. }
    assert (Hinc : uadd 1 1 = 2) by reflexivity.
    unfold parse_byte. rewrite (proj2 (Z.eqb_neq _ _) Hfd). xrun.
    destruct Hidx as [-> | [-> ->]]; simx; unfold parse_continue;
      rewrite Hrt, Heox, !andb_false_r; unfold parse_data; xrun;
      rewrite Hsx; xrun.
    - destruct (1 >=? usub exp 1); xrun.
      + destruct (exp =? 3); xrun; unfold ret; do 2 eexists;
          (split; [reflexivity |]); simx;
          (split; [reflexivity |]); (split; [reflexivity |]); right;
          (split; [reflexivity |]); (split; [reflexivity |]);
          (split; [reflexivity |]); left; reflexivity.
      + rewrite Hinc. unfold ret. do 2 eexists. split; [reflexivity |]. simx.
        split; [reflexivity |]. split; [reflexivity |]. left.
        repeat split; reflexivity.
    - change (2 >=? usub 3 1) with true. xrun.
      unfold ret. do 2 eexists. split; [reflexivity |]. simx.
      split; [reflexivity |]. split; [reflexivity |]. right.
      split; [reflexivity |]. split; [reflexivity |].
      split; [reflexivity |]. right. reflexivity. }
  destruct Hrun as (o & s1 & Hrun & Herr & Hpend & Hout).
  exists o, s1. split; [| split; [rewrite Herr; exact Hbit | split; assumption]].
  rewrite (parse_cons _ _ _ _ _ _ Hrun). rewrite app_nil_r.
  destruct o as [r |]; [| destruct Use1ByteParsing]; reflexivity.
Qed.

End MidstreamStatus.

(** ** A SysEx stream longer than the buffer, as the handler sees it *)

Section SysExOverflow.
Context `{Defs} `{Settings} `{Platform}.

Lemma payload_call_view (c : list Z * Z) : payload (call_view c) = payload c.
Proof.
  unfold call_view, payload. cbn [fst snd]. rewrite take_take.
  f_equal. lia.
Qed.

Lemma interior_call_view (c : list Z * Z) :
  interior (call_view c) = interior c.
Proof.
  destruct c as [a n]. unfold call_view, interior, payload. cbn [fst snd].
  destruct (Z.to_nat (n - 2)) as [|k] eqn:Hk; [reflexivity |].
  rewrite !take_drop_commute, take_take. do 2 f_equal. lia.
Qed.

Lemma interior_with_length (f b : Z) (pre : list Z) :
  interior (with_length (f :: pre ++ [b])) = pre.
Proof.
  unfold interior, with_length. cbn [fst snd length drop].
  rewrite length_app. cbn [length].
  replace (Z.to_nat (Z.of_nat (S (length pre + 1)) - 2)) with (length pre)
    by lia.
  apply take_app_length.
Qed.

(** The messages of a stream, without their framing bytes, are the data
    bytes of the stream. *)
Lemma sysex_split_interiors (C : Z) (ds : list Z) :
  forall (f : Z) (pre : list Z),
    concat (map (fun p => interior (with_length p)) (sysex_split C f pre ds))
    = pre ++ ds.
Proof.
  induction ds as [|d ds IH]; intros f pre; cbn [sysex_split].
  - cbn [map concat]. rewrite interior_with_length. reflexivity.
  - destruct (_ <? _).
    + rewrite IH, <- app_assoc. reflexivity.
    + cbn [map concat]. rewrite interior_with_length, IH. reflexivity.
Qed.

(** Every message of a stream fits the buffer. *)
Lemma sysex_split_sizes (C : Z) (ds : list Z) :
  3 <= C ->
  forall (f : Z) (pre : list Z),
    Z.of_nat (length pre) <= C - 2 ->
    Forall (fun p => 2 <= Z.of_nat (length p) <= C) (sysex_split C f pre ds).
Proof.
  intros HC. induction ds as [|d ds IH]; intros f pre Hpre; cbn [sysex_split].
  - constructor; [| constructor].
    cbn [length]. rewrite length_app. cbn [length]. lia.
  - destruct (Z.ltb_spec (Z.of_nat (length pre)) (C - 2)) as [Hlt | Hge].
    + apply IH. rewrite length_app. cbn [length]. lia.
    + constructor; [| apply IH; cbn [length]; lia].
      cbn [length]. rewrite length_app. cbn [length]. lia.
Qed.

(** A stream gives one message at least. *)
Lemma sysex_split_some (C : Z) (ds : list Z) :
  forall (f : Z) (pre : list Z), (1 <= length (sysex_split C f pre ds))%nat.
Proof.
  induction ds as [|d ds IH]; intros f pre; cbn [sysex_split].
  - cbn [length]. lia.
  - destruct (_ <? _); [apply IH | cbn [length]; lia].
Qed.

(** A stream with more data bytes than one message holds gives two
    messages or more. *)
Lemma sysex_split_overflows (C : Z) (ds : list Z) :
  forall (f : Z) (pre : list Z),
    C - 2 < Z.of_nat (length pre) + Z.of_nat (length ds) ->
    Z.of_nat (length pre) <= C - 2 ->
    (2 <= length (sysex_split C f pre ds))%nat.
Proof.
  induction ds as [|d ds IH]; intros f pre Hover Hpre.
  - cbn [length] in Hover. lia.
  - cbn [sysex_split].
    destruct (Z.ltb_spec (Z.of_nat (length pre)) (C - 2)) as [Hlt | Hge].
    + apply IH; rewrite length_app; cbn [length] in *; lia.
    + cbn [length].
      pose proof (sysex_split_some C ds SystemExclusiveEnd [d]). lia.
Qed.

(** What the calls of the handler and the messages they show have in
    common. *)
Lemma calls_shown (calls : list (list Z * Z)) :
  forall ps : list (list Z),
    map call_view calls = map with_length ps ->
    length calls = length ps /\
    Forall2 (fun c p => payload c = p /\ snd c = Z.of_nat (length p))
      calls ps /\
    concat (map interior calls)
    = concat (map (fun p => interior (with_length p)) ps).
Proof.
  induction calls as [|c calls IH]; intros [|p ps] Heq; try discriminate.
  - repeat split. constructor.
  - cbn [map] in Heq.
    assert (Hc : call_view c = with_length p) by congruence.
    assert (Hrest : map call_view calls = map with_length ps) by congruence.
    destruct (IH ps Hrest) as (Hlen & Hall & Hint).
    split; [cbn [length]; lia |]. split.
    + constructor; [| exact Hall].
      unfold call_view, with_length in Hc. injection Hc as Hpay Hsize.
      split; assumption.
    + cbn [map concat]. rewrite Hint, <- Hc, interior_call_view.
      reflexivity.
Qed.

(** C2, as amended: with a buffer of capacity [3 <= C < 65536] and a
    SystemExclusive handler attached, reading 0xF0, then [C + 2] data
    bytes, then 0xF7 from an idle parser consumes the whole queue and
    calls the handler at least twice; every call is given a size between
    2 and [C] and a buffer with that many bytes in it; each of the
    [C + 2] data bytes occurs in the concatenation of the payloads of
    the calls, and the payloads without their two framing bytes
    concatenate to exactly the data bytes, in order. *)
Theorem sysex_overflow_is_chunked_for_handler
    (inChannel : Z) (ds : list Z) (s : State) :
  3 <= SysExMaxSize < 65536 ->
  inChannel < MIDI_CHANNEL_OFF ->
  well_formed s ->
  mPendingMessageIndex s = 0 ->
  mSystemExclusiveCallback (callbacks s) = true ->
  Z.of_nat (length ds) = SysExMaxSize + 2 ->
  Forall data_byte ds ->
  exists s' t,
    poll inChannel (SystemExclusiveStart :: ds ++ [SystemExclusiveEnd]) s
    = Some ([], s', t) /\
    (2 <= length (sysex_calls t))%nat /\
    Forall (fun c => 2 <= snd c <= SysExMaxSize /\
                     Z.of_nat (length (payload c)) = snd c)
      (sysex_calls t) /\
    (forall d, In d ds -> In d (concat (map payload (sysex_calls t)))) /\
    concat (map interior (sysex_calls t)) = ds.
Proof.
  intros HC Hon Hwf Hidx Hcb Hlen Hds.
  destruct (poll_sysex_calls inChannel ds s HC Hon Hwf Hidx Hcb Hds)
    as (s' & t & Hpoll & Hcalls).
  exists s', t. split; [exact Hpoll |].
  destruct (calls_shown _ _ Hcalls) as (Hn & Hall & Hint).
  rewrite sysex_split_interiors in Hint. cbn [app] in Hint.
  split; [| split; [| split; [| exact Hint]]].
  - rewrite Hn. apply sysex_split_overflows; cbn [length]; lia.
  - assert (Hroom : Z.of_nat (length (@nil Z)) <= SysExMaxSize - 2)
      by (cbn [length]; lia).
    pose proof (sysex_split_sizes SysExMaxSize ds (proj1 HC)
                  SystemExclusiveStart [] Hroom) as Hsz.
    revert Hall Hsz.
    generalize (sysex_split SysExMaxSize SystemExclusiveStart [] ds).
    generalize (sysex_calls t).
    induction 1 as [|c p calls ps [Hpay Hsize] Hall IH]; intros Hsz;
      [constructor |].
    inversion Hsz as [|? ? Hp Hps]; subst.
    constructor; [| apply IH; exact Hps].
    rewrite Hsize. split; [exact Hp | reflexivity].
  - intros d Hd. rewrite <- Hint in Hd.
    apply in_concat in Hd. destruct Hd as (l & Hl & Hdl).
    apply in_map_iff in Hl. destruct Hl as (c & <- & Hc).
    apply in_concat. exists (payload c). split.
    + apply in_map. exact Hc.
    + apply interior_in_payload. exact Hdl.
Qed.

End SysExOverflow.

(** ** The claims on concrete runs *)

#[local] Existing Instance LibraryDefs.
#[local] Existing Instance OneByte3.
#[local] Existing Instance DefaultPlatform.

(** The byte the guard of [parse] drops: a NoteOn is in progress
    (index 1) and an error handler is attached; the status byte 0xFD
    sets no error bit, calls no handler and resets nothing. *)
Lemma parse_FD_midstream_no_error :
  let s := fed [0x90] (begun 1 0 all_callbacks) in
  mPendingMessageIndex s = 1 /\
  mPendingMessage s !! 0%nat = Some NoteOn /\
  mErrorCallback (callbacks s) = true /\
  exists s',
    parse [Undefined_FD] s
    = Some ((false, []), s', [TransportAvailable; TransportRead Undefined_FD])
    /\ Z.testbit (mLastError s') ErrorParse = false
    /\ mPendingMessageIndex s' = 1
    /\ mPendingMessageExpectedLength s' = 3
    /\ mPendingMessage s' = mPendingMessage s.
Proof.
  cbv zeta. repeat (split; [vm_compute; reflexivity |]).
  eexists. split; [vm_compute; reflexivity |].
  repeat split; vm_compute; reflexivity.
Qed.

(** A status byte in the middle of a whole message: 0x80 after the
    status byte of a NoteOn is stored as its first data byte, and the
    message completes with it; no error bit is set and the error
    handler, which is attached, is not called. *)
Lemma parse_status_midstream_is_stored :
  let s := fed [0x90] (begun 1 0 all_callbacks) in
  exists note s' t,
    feed [0x80; 100] s = Some (([note], []), s', t) /\
    type note = NoteOn /\ data1 note = 0x80 /\ data2 note = 100 /\
    valid note = true /\
    Z.testbit (mLastError s') ErrorParse = false /\
    filter is_ErrorCallback t = [].
Proof.
  cbv zeta. do 3 eexists. split; [vm_compute; reflexivity |].
  repeat split; vm_compute; reflexivity.
Qed.

Lemma parse_midstream_status_is_data_witness :
  0 <= ErrorParse < 8 /\
  length (mPendingMessage (fed [0x90] (begun 1 0 all_callbacks))) = 3%nat /\
  mPendingMessage (fed [0x90] (begun 1 0 all_callbacks)) !! 0%nat
  = Some NoteOn /\
  NoteOn <> SystemExclusiveStart /\
  NoteOn <> SystemExclusiveEnd /\
  mPendingMessageIndex (fed [0x90] (begun 1 0 all_callbacks)) = 1 /\
  0x80 <= NoteOff /\
  case_of NoteOff
    [Clock; Start; Tick; Continue; Stop; ActiveSensing; SystemReset] = false /\
  NoteOff <> SystemExclusiveStart /\
  NoteOff <> SystemExclusiveEnd /\
  NoteOff <> Undefined_FD /\
  mErrorCallback (callbacks (fed [0x90] (begun 1 0 all_callbacks))) = true /\
  exists s1,
    parse [NoteOff] (fed [0x90] (begun 1 0 all_callbacks))
    = Some ((false, []), s1, [TransportAvailable; TransportRead NoteOff]) /\
    Z.testbit (mLastError s1) ErrorParse = false /\
    mPendingMessage s1 !! 1%nat = Some NoteOff /\
    mPendingMessageIndex s1 = 2.
Proof.
  assert (He : 0 <= ErrorParse < 8) by (vm_compute; split; congruence).
  assert (Hlp : length (mPendingMessage (fed [0x90] (begun 1 0 all_callbacks)))
                = 3%nat) by (vm_compute; reflexivity).
  assert (Hp0 : mPendingMessage (fed [0x90] (begun 1 0 all_callbacks)) !! 0%nat
                = Some NoteOn) by (vm_compute; reflexivity).
  assert (Hns : NoteOn <> SystemExclusiveStart) by (vm_compute; congruence).
  assert (Hne : NoteOn <> SystemExclusiveEnd) by (vm_compute; congruence).
  assert (Hidx : mPendingMessageIndex (fed [0x90] (begun 1 0 all_callbacks)) = 1)
    by (vm_compute; reflexivity).
  assert (Hst : 0x80 <= NoteOff) by (vm_compute; congruence).
  assert (Hrt : case_of NoteOff
                  [Clock; Start; Tick; Continue; Stop; ActiveSensing;
                   SystemReset] = false) by (vm_compute; reflexivity).
  assert (Hb0 : NoteOff <> SystemExclusiveStart) by (vm_compute; congruence).
  assert (Hb7 : NoteOff <> SystemExclusiveEnd) by (vm_compute; congruence).
  assert (Hfd : NoteOff <> Undefined_FD) by (vm_compute; congruence).
  assert (Hcb : mErrorCallback
                  (callbacks (fed [0x90] (begun 1 0 all_callbacks))) = true)
    by (vm_compute; reflexivity).
  do 12 (split; [assumption |]).
  destruct (parse_midstream_status_is_data NoteOff []
              (fed [0x90] (begun 1 0 all_callbacks)) NoteOn
              He Hlp Hp0 Hns Hne (or_introl Hidx) Hst Hrt Hb0 Hb7 Hfd)
    as (o & s1 & Hparse & Hbit & Hpend & Hout).
  destruct Hout as [(-> & Hi1 & _) | (-> & _ & _ & _)].
  - exists s1. split; [exact Hparse |]. split; [exact Hbit |].
    split; [rewrite Hpend; vm_compute; reflexivity |].
    rewrite Hi1, Hidx. reflexivity.
  - exfalso. cbn [prepend app] in Hparse.
    assert (Hreal : exists s2,
              parse [NoteOff] (fed [0x90] (begun 1 0 all_callbacks))
              = Some ((false, []), s2,
                      [TransportAvailable; TransportRead NoteOff]))
      by (eexists; vm_compute; reflexivity).
    destruct Hreal as (s2 & Hreal). rewrite Hreal in Hparse.
    discriminate Hparse.
Defined.

Lemma sysex_overflow_is_chunked_for_handler_witness :
  3 <= SysExMaxSize < 65536 /\
  0 < MIDI_CHANNEL_OFF /\
  well_formed (begun 0 0 sketch_callbacks) /\
  mPendingMessageIndex (begun 0 0 sketch_callbacks) = 0 /\
  mSystemExclusiveCallback (callbacks (begun 0 0 sketch_callbacks)) = true /\
  Z.of_nat (length [1; 2; 3; 4; 5]) = SysExMaxSize + 2 /\
  Forall data_byte [1; 2; 3; 4; 5] /\
  exists s' t,
    poll 0 [0xF0; 1; 2; 3; 4; 5; 0xF7] (begun 0 0 sketch_callbacks)
    = Some ([], s', t) /\
    (2 <= length (sysex_calls t))%nat /\
    concat (map interior (sysex_calls t)) = [1; 2; 3; 4; 5].
Proof.
  assert (HC : 3 <= SysExMaxSize < 65536)
    by (vm_compute; split; congruence).
  assert (Hon : 0 < MIDI_CHANNEL_OFF) by (vm_compute; reflexivity).
  assert (Hwf : well_formed (begun 0 0 sketch_callbacks))
    by (split; vm_compute; reflexivity).
  assert (Hidx : mPendingMessageIndex (begun 0 0 sketch_callbacks) = 0)
    by (vm_compute; reflexivity).
  assert (Hcb : mSystemExclusiveCallback
                  (callbacks (begun 0 0 sketch_callbacks)) = true)
    by (vm_compute; reflexivity).
  assert (Hlen : Z.of_nat (length [1; 2; 3; 4; 5]) = SysExMaxSize + 2)
    by (vm_compute; reflexivity).
  assert (Hds : Forall data_byte [1; 2; 3; 4; 5])
    by (repeat constructor; unfold data_byte; lia).
  do 7 (split; [assumption |]).
  destruct (sysex_overflow_is_chunked_for_handler 0 [1; 2; 3; 4; 5]
              (begun 0 0 sketch_callbacks) HC Hon Hwf Hidx Hcb Hlen Hds)
    as (s' & t & Hrun & Hn & _ & _ & Hint).
  exists s', t. split; [exact Hrun |]. split; [exact Hn | exact Hint].
Defined.

(** C2, counterexample: the same stream with three cells and no handler
    attached.  The whole queue is consumed; the dispatcher is entered
    five times and calls nothing; of the five messages the stream is cut
    into, [read] returns true for one only, the last, whose payload is
    [0xF7; 5; 0xF7], and soft thru forwards that one only: the data
    bytes 1 to 4 are in no message a caller of [read] gets. *)
Lemma sysex_overflow_without_handler :
  Z.of_nat (length [1; 2; 3; 4; 5]) = SysExMaxSize + 2 /\
  Forall (fun d => 0 <= d < 0x80) [1; 2; 3; 4; 5] /\
  mPendingMessageIndex (begun 0 0 no_callbacks) = 0 /\
  (exists s' t,
     poll 0 [0xF0; 1; 2; 3; 4; 5; 0xF7] (begun 0 0 no_callbacks)
     = Some ([], s', t) /\
     sysex_calls t = [] /\
     filter (fun e => negb (is_poll e)) t
     = [LaunchCallback (mkMessage 0 0xF0 3 0 [0xF0; 1; 0xF0] true 3);
        LaunchCallback (mkMessage 0 0xF0 3 0 [0xF7; 2; 0xF0] true 3);
        LaunchCallback (mkMessage 0 0xF0 3 0 [0xF7; 3; 0xF0] true 3);
        LaunchCallback (mkMessage 0 0xF0 3 0 [0xF7; 4; 0xF0] true 3);
        LaunchCallback (mkMessage 0 0xF0 3 0 [0xF7; 5; 0xF7] true 3);
        SendSysEx 3 [0xF7; 5; 0xF7] true]) /\
  (exists last s' t,
     feed [0xF0; 1; 2; 3; 4; 5; 0xF7] (begun 0 0 no_callbacks)
     = Some (([last], []), s', t) /\
     type last = SystemExclusive /\
     payload (sysexArray last, getSysExSize last) = [0xF7; 5; 0xF7] /\
     ~ In 1 (payload (sysexArray last, getSysExSize last))).
Proof.
  split; [vm_compute; reflexivity |].
  split; [repeat constructor; lia |].
  split; [vm_compute; reflexivity |].
  split.
  - do 2 eexists. split; [vm_compute; reflexivity |].
    split; vm_compute; reflexivity.
  - do 3 eexists. split; [vm_compute; reflexivity |].
    split; [vm_compute; reflexivity |].
    split; [vm_compute; reflexivity |].
    vm_compute. intuition congruence.
Qed.

(** The same run with the sketch's handlers attached, event by event:
    four chunks are handed over from inside [parse], the last message
    from [read]. *)
Lemma sysex_overflow_reaches_handler :
  exists s',
    poll 0 [0xF0; 1; 2; 3; 4; 5; 0xF7] (begun 0 0 sketch_callbacks)
    = Some ([], s',
            [TransportAvailable; TransportRead 0xF0;
             TransportAvailable; TransportRead 1;
             TransportAvailable; TransportRead 2;
             LaunchCallback (mkMessage 0 0xF0 3 0 [0xF0; 1; 0xF0] true 3);
             SystemExclusiveCallback [0xF0; 1; 0xF0] 3;
             TransportAvailable; TransportRead 3;
             LaunchCallback (mkMessage 0 0xF0 3 0 [0xF7; 2; 0xF0] true 3);
             SystemExclusiveCallback [0xF7; 2; 0xF0] 3;
             TransportAvailable; TransportRead 4;
             LaunchCallback (mkMessage 0 0xF0 3 0 [0xF7; 3; 0xF0] true 3);
             SystemExclusiveCallback [0xF7; 3; 0xF0] 3;
             TransportAvailable; TransportRead 5;
             LaunchCallback (mkMessage 0 0xF0 3 0 [0xF7; 4; 0xF0] true 3);
             SystemExclusiveCallback [0xF7; 4; 0xF0] 3;
             TransportAvailable; TransportRead 0xF7;
             LaunchCallback (mkMessage 0 0xF0 3 0 [0xF7; 5; 0xF7] true 3);
             SystemExclusiveCallback [0xF7; 5; 0xF7] 3;
             SendSysEx 3 [0xF7; 5; 0xF7] true]).
Proof. eexists. vm_compute. reflexivity. Qed.

(** C3, counterexample: the buffer has three cells, two are filled; the
    data byte that fills the third makes [parse] call the SysEx handler
    with the chunk and return false. *)
Lemma parse_full_buffer_returns_false :
  let s := fed [0xF0; 1] (begun 1 0 sketch_callbacks) in
  mPendingMessageIndex s = SysExMaxSize - 1 /\
  mPendingMessage s !! 0%nat = Some SystemExclusiveStart /\
  exists s',
    parse [2] s
    = Some ((false, []), s',
            [TransportAvailable; TransportRead 2;
             LaunchCallback (mkMessage 0 0xF0 3 0 [0xF0; 1; 0xF0] true 3);
             SystemExclusiveCallback [0xF0; 1; 0xF0] 3]) /\
    valid (mMessage s') = true /\
    type (mMessage s') = SystemExclusive.
Proof.
  cbv zeta. repeat (split; [vm_compute; reflexivity |]).
  eexists. split; [vm_compute; reflexivity |].
  repeat split; vm_compute; reflexivity.
Qed.

Lemma parse_sysex_buffer_full_witness :
  let s := fed [0xF0; 1] (begun 1 0 sketch_callbacks) in
  2 <= SysExMaxSize < UINT_MOD /\
  well_formed s /\
  mPendingMessage s !! 0%nat = Some SystemExclusiveStart /\
  mPendingMessageExpectedLength s = SysExMaxSize /\
  mPendingMessageIndex s = SysExMaxSize - 1 /\
  data_byte 2 /\
  exists s' t,
    parse [2] s = Some ((false, []), s', t) /\
    mPendingMessageIndex s' = 2.
Proof.
  cbv zeta.
  assert (HC : 2 <= SysExMaxSize < UINT_MOD)
    by (vm_compute; split; congruence).
  assert (Hwf : well_formed (fed [0xF0; 1] (begun 1 0 sketch_callbacks)))
    by (split; vm_compute; reflexivity).
  assert (Hp : mPendingMessage (fed [0xF0; 1] (begun 1 0 sketch_callbacks))
               !! 0%nat = Some SystemExclusiveStart)
    by (vm_compute; reflexivity).
  assert (He : mPendingMessageExpectedLength
                 (fed [0xF0; 1] (begun 1 0 sketch_callbacks)) = SysExMaxSize)
    by (vm_compute; reflexivity).
  assert (Hi : mPendingMessageIndex
                 (fed [0xF0; 1] (begun 1 0 sketch_callbacks))
               = SysExMaxSize - 1) by (vm_compute; reflexivity).
  assert (Hd : data_byte 2) by (unfold data_byte; lia).
  repeat (split; [assumption |]).
  destruct (parse_sysex_buffer_full 2 []
              (fed [0xF0; 1] (begun 1 0 sketch_callbacks)) HC Hwf
              (or_introl Hp) He Hi Hd)
    as (s' & Hrun & _ & _ & Hidx & _).
  eexists s', _. split; [exact Hrun | exact Hidx].
Defined.

Lemma feed_realtime_interleaved_witness :
  length (mPendingMessage (constructed 0 no_callbacks)) = 3%nat /\
  exists s t0,
    begin 1 (constructed 0 no_callbacks) = Some (tt, s, t0) /\
    exists clock note s' t,
      feed [0x90; 0xF8; 60; 100] s = Some (([clock; note], []), s', t) /\
      type clock = Clock /\ type note = NoteOn /\ channel note = 1 /\
      data1 note = 60 /\ data2 note = 100.
Proof.
  assert (Hlen : length (mPendingMessage (constructed 0 no_callbacks)) = 3%nat)
    by (vm_compute; reflexivity).
  split; [exact Hlen |].
  destruct (feed_realtime_interleaved 1 (constructed 0 no_callbacks) Hlen)
    as (s & t0 & Hbegin & (clock & note & s' & t & Hfeed & Hc & _ & Hn & _
                           & Hch & Hd1 & Hd2) & _).
  exists s, t0. split; [exact Hbegin |].
  exists clock, note, s', t. repeat split; assumption.
Defined.

Lemma feed_running_status_witness :
  length (mPendingMessage (constructed 0 no_callbacks)) = 3%nat /\
  exists s t0,
    begin 1 (constructed 0 no_callbacks) = Some (tt, s, t0) /\
    exists first second s' t,
      feed ([0x90; 60; 100] ++ [61; 110]) s
      = Some (([first; second], []), s', t) /\
      data1 first = 60 /\ data2 first = 100 /\
      data1 second = 61 /\ data2 second = 110.
Proof.
  assert (Hlen : length (mPendingMessage (constructed 0 no_callbacks)) = 3%nat)
    by (vm_compute; reflexivity).
  split; [exact Hlen |].
  destruct (feed_running_status 1 (constructed 0 no_callbacks) Hlen)
    as (s & t0 & Hbegin & first & s1 & t1 & second & s2 & t2 & _ & _ & Hfeed
        & _ & _ & _ & Ha & Hb & _ & _ & _ & Hc & Hd).
  exists s, t0. split; [exact Hbegin |].
  exists first, second, s2, (t1 ++ t2). repeat split; assumption.
Defined.

(** C6, counterexample: in a freshly begun parser with an error handler
    attached, the byte 0xF4 sets the parse-error bit and the handler is
    called. *)
Lemma parse_F4_sets_error :
  let s := begun 1 0 all_callbacks in
  mPendingMessageIndex s = 0 /\
  isChannelMessage (getTypeFromStatusByte (mRunningStatus_RX s)) = false /\
  exists s',
    parse [Undefined_F4] s
    = Some ((false, []), s',
            [TransportAvailable; TransportRead Undefined_F4; ErrorCallback 1])
    /\ Z.testbit (mLastError s') ErrorParse = true.
Proof.
  cbv zeta. repeat (split; [vm_compute; reflexivity |]).
  eexists. split; vm_compute; reflexivity.
Qed.

Lemma parse_F4_is_parse_error_witness :
  let s := begun 1 0 all_callbacks in
  0 <= ErrorParse < 8 /\
  length (mPendingMessage s) = 3%nat /\
  mPendingMessageIndex s = 0 /\
  isChannelMessage (getTypeFromStatusByte (mRunningStatus_RX s)) = false /\
  exists s' t,
    parse [Undefined_F4] s = Some ((false, []), s', t) /\
    Z.testbit (mLastError s') ErrorParse = true.
Proof.
  cbv zeta.
  assert (He : 0 <= ErrorParse < 8) by (vm_compute; split; congruence).
  assert (Hl : length (mPendingMessage (begun 1 0 all_callbacks)) = 3%nat)
    by (vm_compute; reflexivity).
  assert (Hi : mPendingMessageIndex (begun 1 0 all_callbacks) = 0)
    by (vm_compute; reflexivity).
  assert (Hr : isChannelMessage
                 (getTypeFromStatusByte
                    (mRunningStatus_RX (begun 1 0 all_callbacks))) = false)
    by (vm_compute; reflexivity).
  repeat (split; [assumption |]).
  destruct (parse_F4_is_parse_error [] (begun 1 0 all_callbacks) He Hl Hi Hr)
    as (s' & t & Hrun & _ & Hbit & _).
  exists s', t. split; assumption.
Defined.

(** C7, counterexample: null-velocity handling is enabled, the input
    channel is OMNI and a NoteOn handler is attached; the complete
    NoteOn on channel 5 that [parse] stores has velocity 0, and [read]
    calls the NoteOff handler, not the NoteOn handler. *)
Lemma read_null_velocity_NoteOn_not_dispatched :
  let s := fed [0x94; 60] (begun MIDI_CHANNEL_OMNI 0 all_callbacks) in
  HandleNullVelocityNoteOnAsNoteOff = true /\
  mNoteOnCallback (callbacks s) = true /\
  (exists sp tp,
     parse [0] s = Some ((true, []), sp, tp) /\
     type (mMessage sp) = NoteOn /\ channel (mMessage sp) = 5 /\
     valid (mMessage sp) = true) /\
  exists s' t,
    read MIDI_CHANNEL_OMNI [0] s = Some ((true, []), s', t) /\
    filter is_NoteOnCallback t = [] /\
    In (NoteOffCallback 5 60 0) t.
Proof.
  cbv zeta. repeat (split; [vm_compute; reflexivity |]). split.
  - do 2 eexists. split; [vm_compute; reflexivity |].
    repeat split; vm_compute; reflexivity.
  - do 2 eexists. split; [vm_compute; reflexivity |].
    split; [vm_compute; reflexivity |]. vm_compute. tauto.
Qed.

Lemma read_channel_filter_witness :
  let s := fed [0x94; 60] (begun 3 0 all_callbacks) in
  3 < MIDI_CHANNEL_OFF /\
  MIDI_CHANNEL_OMNI < MIDI_CHANNEL_OFF /\
  MIDI_CHANNEL_OMNI <> 3 /\
  mPendingMessage s = [0x94; 60; 0] /\
  mPendingMessageIndex s = 2 /\
  mPendingMessageExpectedLength s = 3 /\
  data_byte 100 /\
  (exists s' t,
     read 3 [100] s = Some ((false, []), s', t) /\
     valid (mMessage s') = true /\
     filter is_NoteOnCallback t = []) /\
  (exists s' t,
     read MIDI_CHANNEL_OMNI [100] s = Some ((true, []), s', t) /\
     filter is_NoteOnCallback t = [NoteOnCallback 5 60 100]).
Proof.
  cbv zeta.
  assert (H3 : 3 < MIDI_CHANNEL_OFF) by (vm_compute; reflexivity).
  assert (Ho : MIDI_CHANNEL_OMNI < MIDI_CHANNEL_OFF)
    by (vm_compute; reflexivity).
  assert (Hn : MIDI_CHANNEL_OMNI <> 3) by (vm_compute; congruence).
  assert (Hp : mPendingMessage (fed [0x94; 60] (begun 3 0 all_callbacks))
               = [0x94; 60; 0]) by (vm_compute; reflexivity).
  assert (Hi : mPendingMessageIndex (fed [0x94; 60] (begun 3 0 all_callbacks))
               = 2) by (vm_compute; reflexivity).
  assert (He : mPendingMessageExpectedLength
                 (fed [0x94; 60] (begun 3 0 all_callbacks)) = 3)
    by (vm_compute; reflexivity).
  assert (Hd : data_byte 100) by (unfold data_byte; lia).
  repeat (split; [assumption |]).
  destruct (read_channel_filter 60 100 0 []
              (fed [0x94; 60] (begun 3 0 all_callbacks))
              H3 Ho Hn Hp Hi He Hd)
    as [(s3 & t3 & Hr3 & Hv3 & _ & _ & _ & _ & Hn3)
        (so & to & Hro & _ & _ & _ & _ & _ & Hno & _)].
  split.
  - exists s3, t3. repeat split; assumption.
  - exists so, to. split; [exact Hro | exact Hno].
Defined.

Lemma thruFilter_drops_Tick_witness :
  let s := fed [Tick] (begun 1 0 no_callbacks) in
  mThruActivated s = true /\
  mThruFilterMode s <> Thru.Off /\
  type (mMessage s) = Tick /\
  thruFilter 1 s = Some (tt, s, []).
Proof.
  cbv zeta.
  assert (Ha : mThruActivated (fed [Tick] (begun 1 0 no_callbacks)) = true)
    by (vm_compute; reflexivity).
  assert (Hm : mThruFilterMode (fed [Tick] (begun 1 0 no_callbacks))
               <> Thru.Off) by (vm_compute; congruence).
  assert (Ht : type (mMessage (fed [Tick] (begun 1 0 no_callbacks))) = Tick)
    by (vm_compute; reflexivity).
  do 3 (split; [assumption |]).
  exact (thruFilter_drops_Tick 1 (fed [Tick] (begun 1 0 no_callbacks))
           Ha Hm Ht).
Defined.

Lemma thruFilter_channel_message_witness :
  let s := fed [0x90; 60; 100] (begun 1 0 no_callbacks) in
  mThruActivated s = true /\
  NoteOff <= type (mMessage s) <= PitchBend /\
  mThruFilterMode s = Thru.Full /\
  thruFilter 3 s
  = Some (tt, s,
          [Send (type (mMessage s)) (data1 (mMessage s)) (data2 (mMessage s))
             (channel (mMessage s))]).
Proof.
  cbv zeta.
  assert (Ha : mThruActivated (fed [0x90; 60; 100] (begun 1 0 no_callbacks))
               = true) by (vm_compute; reflexivity).
  assert (Hr : NoteOff
               <= type (mMessage (fed [0x90; 60; 100] (begun 1 0 no_callbacks)))
               <= PitchBend) by (vm_compute; split; congruence).
  assert (Hm : mThruFilterMode (fed [0x90; 60; 100] (begun 1 0 no_callbacks))
               = Thru.Full) by (vm_compute; reflexivity).
  do 3 (split; [assumption |]).
  exact (proj1 (thruFilter_channel_message 3
                  (fed [0x90; 60; 100] (begun 1 0 no_callbacks)) Ha Hr) Hm).
Defined.

Lemma read_input_off_witness :
  MIDI_CHANNEL_OFF <= 17 /\
  exists s' t,
    read 17 [0x90; 60; 100] (begun 17 0 all_callbacks)
    = Some ((false, [0x90; 60; 100]), s', t) /\
    filter is_poll t = [].
Proof.
  assert (Hoff : MIDI_CHANNEL_OFF <= 17) by (vm_compute; congruence).
  split; [exact Hoff |].
  destruct (read_input_off 17 [0x90; 60; 100] (begun 17 0 all_callbacks) Hoff)
    as (s' & t & Hrun & Hpoll & _).
  exists s', t. split; assumption.
Defined.

(** ** The further properties on concrete runs *)

Lemma poll_stays_in_bounds_witness :
  3 <= SysExMaxSize < UINT_MOD /\
  parser_ok (begun 0 0 all_callbacks) /\
  exists rest s' t,
    poll 0 [0xF0; 1; 2; 0x90; 3; 0xF7; 0xF7] (begun 0 0 all_callbacks)
    = Some (rest, s', t) /\
    parser_ok s' /\
    (0 < MIDI_CHANNEL_OFF -> rest = []).
Proof.
  assert (HC : 3 <= SysExMaxSize < UINT_MOD)
    by (vm_compute; split; congruence).
  assert (Hok : parser_ok (begun 0 0 all_callbacks))
    by (split; [split; vm_compute; reflexivity | left; vm_compute; reflexivity]).
  split; [exact HC |]. split; [exact Hok |].
  exact (poll_stays_in_bounds 0 [0xF0; 1; 2; 0x90; 3; 0xF7; 0xF7]
           (begun 0 0 all_callbacks) HC Hok).
Defined.

Lemma poll_keeps_configuration_witness :
  3 <= SysExMaxSize < UINT_MOD /\
  parser_ok (begun 5 0 sketch_callbacks) /\
  exists rest s' t,
    poll 5 [0x94; 60; 0; 0xFF] (begun 5 0 sketch_callbacks)
    = Some (rest, s', t) /\
    mInputChannel s' = 5 /\
    callbacks s' = sketch_callbacks.
Proof.
  assert (HC : 3 <= SysExMaxSize < UINT_MOD)
    by (vm_compute; split; congruence).
  assert (Hok : parser_ok (begun 5 0 sketch_callbacks))
    by (split; [split; vm_compute; reflexivity | left; vm_compute; reflexivity]).
  split; [exact HC |]. split; [exact Hok |].
  destruct (poll_keeps_configuration 5 [0x94; 60; 0; 0xFF]
              (begun 5 0 sketch_callbacks) HC Hok)
    as (rest & s' & t & Hpoll & Hic & _ & _ & Hcb & _).
  exists rest, s', t. split; [exact Hpoll |].
  split; [exact Hic | exact Hcb].
Defined.

Lemma poll_dispatches_known_types_witness :
  3 <= SysExMaxSize < UINT_MOD /\
  parser_ok (begun 0 0 sketch_callbacks) /\
  exists rest s' t,
    poll 0 [0xF1; 2; 61; 0xF6] (begun 0 0 sketch_callbacks)
    = Some (rest, s', t) /\
    forall m, In (LaunchCallback m) t ->
      valid m = true /\ known_type (type m) = true.
Proof.
  assert (HC : 3 <= SysExMaxSize < UINT_MOD)
    by (vm_compute; split; congruence).
  assert (Hok : parser_ok (begun 0 0 sketch_callbacks))
    by (split; [split; vm_compute; reflexivity | left; vm_compute; reflexivity]).
  split; [exact HC |]. split; [exact Hok |].
  exact (poll_dispatches_known_types 0 [0xF1; 2; 61; 0xF6]
           (begun 0 0 sketch_callbacks) HC Hok).
Defined.

Lemma thru_off_forwards_nothing_witness :
  3 <= SysExMaxSize < UINT_MOD /\
  parser_ok (begun 0 0 sketch_callbacks) /\
  In turnThruOff
     [turnThruOff; setThruFilterMode Thru.Off; turnThruOn Thru.Off] /\
  exists rest s' t,
    (turnThruOff ;; poll 0 [0x90; 60; 100; 0xF8])%midi
      (begun 0 0 sketch_callbacks)
    = Some (rest, s', t) /\
    filter is_thru_send t = [].
Proof.
  assert (HC : 3 <= SysExMaxSize < UINT_MOD)
    by (vm_compute; split; congruence).
  assert (Hok : parser_ok (begun 0 0 sketch_callbacks))
    by (split; [split; vm_compute; reflexivity | left; vm_compute; reflexivity]).
  assert (Hin : In turnThruOff
                  [turnThruOff; setThruFilterMode Thru.Off;
                   turnThruOn Thru.Off])
    by (left; reflexivity).
  split; [exact HC |]. split; [exact Hok |]. split; [exact Hin |].
  exact (thru_off_forwards_nothing 0 [0x90; 60; 100; 0xF8]
           (begun 0 0 sketch_callbacks) HC Hok turnThruOff Hin).
Defined.


Lemma realtime_byte_is_transparent_witness :
  let s := fed [0x90; 60] (begun 0 0 no_callbacks) in
  In 0xF8 [Clock; Start; Tick; Continue; Stop; ActiveSensing; SystemReset] /\
  length (mPendingMessage s) = 3%nat /\
  exists s',
    parse [0xF8; 100] s
    = Some ((true, [100]), s', [TransportAvailable; TransportRead 0xF8]) /\
    is_message (mMessage s') 0xF8 0 0 0 /\
    mRunningStatus_RX s' = mRunningStatus_RX s /\
    sysexArray (mMessage s') = sysexArray (mMessage s) /\
    (mPendingMessageIndex s <> 0 ->
     mPendingMessage s' = mPendingMessage s /\
     mPendingMessageIndex s' = mPendingMessageIndex s /\
     mPendingMessageExpectedLength s' = mPendingMessageExpectedLength s).
Proof.
  intros s.
  assert (Hin : In 0xF8 [Clock; Start; Tick; Continue; Stop; ActiveSensing;
                         SystemReset]) by (left; reflexivity).
  assert (Hlp : length (mPendingMessage s) = 3%nat)
    by (vm_compute; reflexivity).
  split; [exact Hin |]. split; [exact Hlp |].
  exact (realtime_byte_is_transparent 0xF8 [100] s Hin Hlp).
Defined.

Lemma stray_byte_is_parse_error_witness :
  0 <= ErrorParse < 8 /\
  getTypeFromStatusByte 60 = InvalidType /\
  60 <> Undefined_FD /\
  length (mPendingMessage (begun 0 0 all_callbacks)) = 3%nat /\
  mPendingMessageIndex (begun 0 0 all_callbacks) = 0 /\
  isChannelMessage
    (getTypeFromStatusByte (mRunningStatus_RX (begun 0 0 all_callbacks)))
  = false /\
  exists s' t,
    parse [60] (begun 0 0 all_callbacks) = Some ((false, []), s', t) /\
    Z.testbit (mLastError s') ErrorParse = true.
Proof.
  assert (He : 0 <= ErrorParse < 8) by (vm_compute; split; congruence).
  assert (Hty : getTypeFromStatusByte 60 = InvalidType) by reflexivity.
  assert (Hfd : 60 <> Undefined_FD) by discriminate.
  assert (Hlp : length (mPendingMessage (begun 0 0 all_callbacks)) = 3%nat)
    by (vm_compute; reflexivity).
  assert (Hidx : mPendingMessageIndex (begun 0 0 all_callbacks) = 0)
    by (vm_compute; reflexivity).
  assert (Hrs : isChannelMessage
                  (getTypeFromStatusByte
                     (mRunningStatus_RX (begun 0 0 all_callbacks))) = false)
    by (vm_compute; reflexivity).
  do 6 (split; [assumption |]).
  destruct (stray_byte_is_parse_error 60 [] (begun 0 0 all_callbacks)
              He Hty Hfd Hlp Hidx Hrs)
    as (s' & t & Hrun & _ & Hbit & _).
  exists s', t. split; [exact Hrun | exact Hbit].
Defined.

Lemma sysex_buffer_of_two_overruns_witness :
  let two := settings false 2 in
  @SysExMaxSize two = 2 /\
  0 < MIDI_CHANNEL_OFF /\
  @well_formed two (@begun two DefaultPlatform 0 0 sketch_callbacks) /\
  mPendingMessageIndex (@begun two DefaultPlatform 0 0 sketch_callbacks) = 0 /\
  data_byte 1 /\ data_byte 2 /\
  @poll LibraryDefs two DefaultPlatform 0 [0xF0; 1; 2; 0xF7]
    (@begun two DefaultPlatform 0 0 sketch_callbacks) = None.
Proof.
  intros two.
  assert (HC : @SysExMaxSize two = 2) by reflexivity.
  assert (Hon : 0 < MIDI_CHANNEL_OFF) by (vm_compute; reflexivity).
  assert (Hwf : @well_formed two
                  (@begun two DefaultPlatform 0 0 sketch_callbacks))
    by (split; vm_compute; reflexivity).
  assert (Hidx : mPendingMessageIndex
                   (@begun two DefaultPlatform 0 0 sketch_callbacks) = 0)
    by (vm_compute; reflexivity).
  assert (Hd1 : data_byte 1) by (unfold data_byte; lia).
  assert (Hd2 : data_byte 2) by (unfold data_byte; lia).
  do 6 (split; [assumption |]).
  exact (@sysex_buffer_of_two_overruns LibraryDefs two DefaultPlatform
           0 1 2 [0xF7] _ HC Hon Hwf Hidx Hd1 Hd2).
Defined.

Lemma status_byte_splits_witness :
  0x80 <= 0x94 < 0xf0 /\
  getTypeFromStatusByte 0x94 = NoteOn /\
  getChannelFromStatusByte 0x94 = 5 /\
  Z.lor (getTypeFromStatusByte 0x94) (getChannelFromStatusByte 0x94 - 1)
  = 0x94.
Proof.
  assert (Hst : 0x80 <= 0x94 < 0xf0) by lia.
  split; [exact Hst |].
  destruct (status_byte_splits 0x94 Hst) as (_ & _ & Hsplit).
  split; [reflexivity |]. split; [reflexivity | exact Hsplit].
Defined.

Lemma ArduinoCore_ok : @PianoLED.constrain_ok PianoLED.ArduinoCore.
Proof.
  intros amt low high Hle. cbn [PianoLED.constrain PianoLED.ArduinoCore].
  destruct (Z.ltb_spec amt low); [split; lia |].
  destruct (Z.gtb_spec amt high); split; lia.
Qed.

Lemma OnNoteOff_clears_key_and_neighbours_witness :
  @PianoLED.constrain_ok PianoLED.ArduinoCore /\
  length (PianoLED.onLeds (PianoLED.all_lit true 6 2))
  = Z.to_nat PianoLED.NUM_LEDS /\
  length (PianoLED.fadeLeds (PianoLED.all_lit true 6 2))
  = Z.to_nat PianoLED.NUM_LEDS /\
  exists g',
    @PianoLED.OnNoteOff PianoLED.ArduinoCore 1 60 64
      (PianoLED.all_lit true 6 2) = Some g' /\
    PianoLED.onLeds g' = <[48%nat := false]> (repeat true 88) /\
    PianoLED.fadeLeds g' !! 45%nat = Some false /\
    PianoLED.fadeLeds g' !! 48%nat = Some true /\
    PianoLED.fadeLeds g' !! 52%nat = Some true.
Proof.
  assert (Hon : length (PianoLED.onLeds (PianoLED.all_lit true 6 2))
                = Z.to_nat PianoLED.NUM_LEDS)
    by (vm_compute; reflexivity).
  assert (Hfade : length (PianoLED.fadeLeds (PianoLED.all_lit true 6 2))
                  = Z.to_nat PianoLED.NUM_LEDS)
    by (vm_compute; reflexivity).
  split; [exact ArduinoCore_ok |]. split; [exact Hon |].
  split; [exact Hfade |].
  destruct (@OnNoteOff_clears_key_and_neighbours PianoLED.ArduinoCore
              1 60 64 (PianoLED.all_lit true 6 2) ArduinoCore_ok Hon Hfade)
    as (g' & Hrun & _ & _ & Honl & _ & Hcells & _).
  exists g'. split; [exact Hrun |]. split; [exact Honl |].
  split; [exact (Hcells 45%nat ltac:(lia)) |].
  split; [exact (Hcells 48%nat ltac:(lia)) |].
  exact (Hcells 52%nat ltac:(lia)).
Defined.

Lemma sleepMode_undoes_its_switch_witness :
  usub 20000000 (PianoLED.lastKeyPress (PianoLED.all_lit false 6 3))
  <= usub 20000001 (PianoLED.lastKeyPress (PianoLED.all_lit false 6 3)) /\
  PianoLED.sleepMode 20000000 20000001 (PianoLED.all_lit false 6 3)
  = PianoLED.set_autoMode 3 (PianoLED.all_lit false 6 3).
Proof.
  assert (Hmono :
            usub 20000000 (PianoLED.lastKeyPress (PianoLED.all_lit false 6 3))
            <= usub 20000001
                 (PianoLED.lastKeyPress (PianoLED.all_lit false 6 3)))
    by (vm_compute; congruence).
  split; [exact Hmono |].
  destruct (sleepMode_undoes_its_switch 20000000 20000001
              (PianoLED.all_lit false 6 3) Hmono)
    as [_ Hsw].
  apply Hsw; [reflexivity | vm_compute; reflexivity | cbn; lia].
Defined.

Lemma sysex_that_fits_is_handed_over_whole_witness :
  3 <= SysExMaxSize < 65536 /\
  0 < MIDI_CHANNEL_OFF /\
  well_formed (begun 0 0 sketch_callbacks) /\
  mPendingMessageIndex (begun 0 0 sketch_callbacks) = 0 /\
  mSystemExclusiveCallback (callbacks (begun 0 0 sketch_callbacks)) = true /\
  Forall data_byte [5] /\
  Z.of_nat (length [5]) <= SysExMaxSize - 2 /\
  exists s' t a,
    poll 0 [0xF0; 5; 0xF7] (begun 0 0 sketch_callbacks) = Some ([], s', t) /\
    sysex_calls t = [(a, 3)] /\
    take 3 a = [0xF0; 5; 0xF7].
Proof.
  assert (HC : 3 <= SysExMaxSize < 65536) by (vm_compute; split; congruence).
  assert (Hon : 0 < MIDI_CHANNEL_OFF) by (vm_compute; reflexivity).
  assert (Hwf : well_formed (begun 0 0 sketch_callbacks))
    by (split; vm_compute; reflexivity).
  assert (Hidx : mPendingMessageIndex (begun 0 0 sketch_callbacks) = 0)
    by reflexivity.
  assert (Hcb : mSystemExclusiveCallback
                  (callbacks (begun 0 0 sketch_callbacks)) = true)
    by reflexivity.
  assert (Hds : Forall data_byte [5])
    by (repeat constructor; unfold data_byte; lia).
  assert (Hfit : Z.of_nat (length [5]) <= SysExMaxSize - 2)
    by (vm_compute; congruence).
  do 7 (split; [assumption |]).
  exact (sysex_that_fits_is_handed_over_whole 0 [5]
           (begun 0 0 sketch_callbacks) HC Hon Hwf Hidx Hcb Hds Hfit).
Defined.

Lemma sysex_calls_are_labelled_witness :
  3 <= SysExMaxSize < 65536 /\
  0 < MIDI_CHANNEL_OFF /\
  well_formed (begun 0 0 sketch_callbacks) /\
  mPendingMessageIndex (begun 0 0 sketch_callbacks) = 0 /\
  mSystemExclusiveCallback (callbacks (begun 0 0 sketch_callbacks)) = true /\
  Forall data_byte [1; 2; 3] /\
  exists s' t,
    poll 0 [0xF0; 1; 2; 3; 0xF7] (begun 0 0 sketch_callbacks)
    = Some ([], s', t) /\
    map (fun c => PianoLED.OnMidiSysEx_status (fst c) (snd c)) (sysex_calls t)
    = [Some "S"%string; Some "M"%string; Some "E"%string].
Proof.
  assert (HC : 3 <= SysExMaxSize < 65536) by (vm_compute; split; congruence).
  assert (Hon : 0 < MIDI_CHANNEL_OFF) by (vm_compute; reflexivity).
  assert (Hwf : well_formed (begun 0 0 sketch_callbacks))
    by (split; vm_compute; reflexivity).
  assert (Hidx : mPendingMessageIndex (begun 0 0 sketch_callbacks) = 0)
    by reflexivity.
  assert (Hcb : mSystemExclusiveCallback
                  (callbacks (begun 0 0 sketch_callbacks)) = true)
    by reflexivity.
  assert (Hds : Forall data_byte [1; 2; 3])
    by (repeat constructor; unfold data_byte; lia).
  do 6 (split; [assumption |]).
  exact (sysex_calls_are_labelled 0 [1; 2; 3]
           (begun 0 0 sketch_callbacks) HC Hon Hwf Hidx Hcb Hds).
Defined.

Lemma poll_calls_attached_handlers_only_witness :
  3 <= SysExMaxSize < UINT_MOD /\
  parser_ok (begun 0 0 sketch_callbacks) /\
  exists rest s' t,
    poll 0 [0xF8; 0x90; 60; 100; 7; 0xB0; 64; 127]
      (begun 0 0 sketch_callbacks)
    = Some (rest, s', t) /\
    (In ClockCallback t -> mClockCallback sketch_callbacks = true) /\
    (In (ErrorCallback 1) t -> mErrorCallback sketch_callbacks = true).
Proof.
  assert (HC : 3 <= SysExMaxSize < UINT_MOD)
    by (vm_compute; split; congruence).
  assert (Hok : parser_ok (begun 0 0 sketch_callbacks))
    by (split; [split; vm_compute; reflexivity | left; vm_compute; reflexivity]).
  split; [exact HC |]. split; [exact Hok |].
  destruct (poll_calls_attached_handlers_only 0
              [0xF8; 0x90; 60; 100; 7; 0xB0; 64; 127]
              (begun 0 0 sketch_callbacks) HC Hok)
    as (rest & s' & t & Hpoll & Hslots).
  exists rest, s', t. split; [exact Hpoll |]. split.
  - intros Hin. exact (Hslots ClockCallback mClockCallback Hin eq_refl).
  - intros Hin. exact (Hslots (ErrorCallback 1) mErrorCallback Hin eq_refl).
Defined.

Lemma channel_message_reaches_its_handler_witness :
  0 < MIDI_CHANNEL_OFF /\
  0x80 <= 0x90 < 0xf0 /\
  data_byte 60 /\ data_byte 0 /\
  length (mPendingMessage (begun 0 0 sketch_callbacks)) = 3%nat /\
  mPendingMessageIndex (begun 0 0 sketch_callbacks) = 0 /\
  exists s' t,
    poll 0 [0x90; 60; 0] (begun 0 0 sketch_callbacks) = Some ([], s', t) /\
    filter is_message_handler t = [NoteOffCallback 1 60 0].
Proof.
  assert (Hon : 0 < MIDI_CHANNEL_OFF) by (vm_compute; reflexivity).
  assert (Hst : 0x80 <= 0x90 < 0xf0) by lia.
  assert (Hb1 : data_byte 60) by (unfold data_byte; lia).
  assert (Hb2 : data_byte 0) by (unfold data_byte; lia).
  assert (Hlp : length (mPendingMessage (begun 0 0 sketch_callbacks)) = 3%nat)
    by (vm_compute; reflexivity).
  assert (Hidx : mPendingMessageIndex (begun 0 0 sketch_callbacks) = 0)
    by reflexivity.
  do 6 (split; [assumption |]).
  exact (channel_message_reaches_its_handler 0 0x90 60 0
           (begun 0 0 sketch_callbacks) Hon Hst Hb1 Hb2 Hlp Hidx).
Defined.
